(** * Kestrel engine perf scripts: sprite_bench.py and capture_sprite_perf.py

    A shallow embedding of the metric extraction, aggregation,
    baseline-comparison and reporting code of [scripts/sprite_bench.py] and
    [scripts/capture_sprite_perf.py], with the properties of the design
    document stated and proved over it.

    Modelling conventions.
    - Python [float] values are idealised as real numbers ([R]): no rounding,
      no NaN, no infinities.  [statistics.mean] and [statistics.pstdev] are
      library code and are taken at their documented meaning.
    - Python exceptions are values of [exn]; a computation that may raise
      returns a [result].  The design document's error names stand for the
      built-in exceptions the scripts raise: [BaselineNotFoundError] and
      [ReportArtifactMissing] for [FileNotFoundError],
      [HarnessInvocationFailed] for [CalledProcessError] and
      [MalformedMetricError] for the [ValueError] of [float].
    - A [str] is a [string] whose characters are code points below 256.
    - [json.loads]/[json.dumps] are library code: a JSON file is modelled by
      the document tree it denotes ([JsonFile]), any other file by its text.
      The baseline document is an arbitrary JSON tree; the harness report is
      taken at its schema ([case_entry]).
    - [dict]s whose order is not observed are [gmap]s; JSON objects are
      association lists in insertion order.
    - Number formatting ([f"{v:.3f}"], [str]) is the interpreter's and is a
      parameter ([PyFormat]).
    - The harness is an oracle giving, for each invocation, the exit status
      and the report left at the report path ([trial]); the file system
      holds the baseline and the artefacts.

    The later sections cover the rest of the scripts: the command line and
    the environment of the harness, the steps and [main] of
    capture_sprite_perf.py, [scripts/run_perf_suite.py],
    [scripts/capture_animation_samples.py] and
    [fixtures/aseprite/make_slime_png.py].
    - Starting a program is an oracle as well ([machine]): whether the
      program can be started, its exit status and output, and the files it
      leaves.  A script is an [action] on the files and on the list of the
      commands it has started, and may raise.
    - [shlex], [zlib] and the [:.9f] format are library code and are
      parameters ([Shell], [Slime.Zlib]).
    - [bytes] are lists of integers; [struct.pack] raises outside the range
      of a field.
    - Paths are written relative to the repository root; directories and
      what the scripts print are not modelled.
    - A write of sprite_bench.py can be refused ([write_error]): it then
      raises and leaves the files as they are; a write that fails half-way
      is not modelled.  The writes of the wrapper scripts are taken to go
      through. *)

From Stdlib Require Import Reals Lra Lia ZArith Ascii String List.
From stdpp Require Import base option list gmap strings pretty sorting.

Set Warnings "-register-all".
Import ListNotations.

Local Open Scope string_scope.
Local Open Scope list_scope.

(** ** Python values and exceptions *)

(** The exceptions the modelled code can raise. *)
Inductive exn : Type :=
  | FileNotFoundError
  | JSONDecodeError
  | KeyError (key : string)
  | TypeError
  | AttributeError
  | ValueError
  | IndexError
  | StatisticsError
  | CalledProcessError (returncode : Z)
  | PermissionError
  | IsADirectoryError.

Inductive result (A : Type) : Type :=
  | Ok (a : A)
  | Raise (e : exn).
Arguments Ok {A} a.
Arguments Raise {A} e.

Definition rbind {A B : Type} (m : result A) (k : A → result B) : result B :=
  match m with
  | Ok a => k a
  | Raise e => Raise e
  end.

(** [result] is a monad; stdpp's [x ← m; k] notation sequences statements
    that may raise. *)
#[global] Instance result_ret : MRet result := fun A a => Ok a.
#[global] Instance result_bind : MBind result := fun A B k m => rbind m k.

(** [for x in xs: acc = f(acc, x)] where the body may raise. *)
Fixpoint for_each {A S : Type} (f : S → A → result S) (xs : list A) (s : S)
  : result S :=
  match xs with
  | [] => Ok s
  | x :: xs' => s' ← f s x; for_each f xs' s'
  end.

(** A comprehension [[f(x) for x in xs]] whose element expression may raise. *)
Fixpoint traverse {A B : Type} (f : A → result B) (xs : list A)
  : result (list B) :=
  match xs with
  | [] => Ok []
  | x :: xs' => y ← f x; ys ← traverse f xs'; Ok (y :: ys)
  end.

(** JSON documents as [json.loads] returns them.  [JNull] is [None],
    [JInt] an [int], [JFloat] a [float], [JObj] a [dict] in insertion order. *)
Inductive json : Type :=
  | JNull
  | JBool (b : bool)
  | JInt (z : Z)
  | JFloat (r : R)
  | JStr (s : string)
  | JArr (items : list json)
  | JObj (fields : list (string * json)).

(** [d.get(key)] on a dict held as an association list: [None] when absent. *)
Fixpoint assoc_get {V : Type} (key : string) (kvs : list (string * V))
  : option V :=
  match kvs with
  | [] => None
  | (k, v) :: rest => if String.eqb k key then Some v else assoc_get key rest
  end.

(** [d.get(key, default)]. *)
Definition dict_get_default (key : string) (default : json)
    (kvs : list (string * json)) : json :=
  match assoc_get key kvs with
  | Some v => v
  | None => default
  end.

(** [payload.get(key, default)] on an arbitrary JSON value: only a [dict]
    has a [get] attribute. *)
Definition json_get_default (payload : json) (key : string) (default : json)
  : result json :=
  match payload with
  | JObj kvs => Ok (dict_get_default key default kvs)
  | _ => Raise AttributeError
  end.

(** [entry[key]] with a [str] key: [KeyError] on a dict without the key,
    [TypeError] on every other JSON value (lists and strings want integer
    indices, the scalars are not subscriptable). *)
Definition json_getitem (entry : json) (key : string) : result json :=
  match entry with
  | JObj kvs =>
      match assoc_get key kvs with
      | Some v => Ok v
      | None => Raise (KeyError key)
      end
  | _ => Raise TypeError
  end.

(** The values [for entry in v] iterates over.  A list yields its items; a
    dict yields its keys and a [str] its characters, both as strings;
    [None], booleans and numbers are not iterable. *)
Definition json_iter (v : json) : result (list json) :=
  match v with
  | JArr items => Ok items
  | JObj kvs => Ok (map (fun kv => JStr (fst kv)) kvs)
  | JStr s =>
      Ok (map (fun c => JStr (String c EmptyString)) (list_ascii_of_string s))
  | _ => Raise TypeError
  end.

(** The number a JSON value denotes in arithmetic ([bool] is a subclass of
    [int]); [None] for the values arithmetic rejects. *)
Definition as_number (v : json) : option R :=
  match v with
  | JBool true => Some 1%R
  | JBool false => Some 0%R
  | JInt z => Some (IZR z)
  | JFloat r => Some r
  | _ => None
  end.

(** ** The [statistics] module *)

Definition rsum (xs : list R) : R := fold_left Rplus xs 0%R.

(** [statistics.mean]: raises on an empty sample. *)
Definition stats_mean (xs : list R) : result R :=
  match xs with
  | [] => Raise StatisticsError
  | _ => Ok (rsum xs / INR (length xs))%R
  end.

(** [statistics.pvariance]: the mean of the squared deviations from the
    mean. *)
Definition stats_pvariance (xs : list R) : result R :=
  mu ← stats_mean xs;
  Ok (rsum (map (fun x => (x - mu) * (x - mu))%R xs) / INR (length xs))%R.

(** [statistics.pstdev]: the square root of the population variance. *)
Definition stats_pstdev (xs : list R) : result R :=
  v ← stats_pvariance xs; Ok (sqrt v).

(** ** String helpers *)

(** [len(s)]. *)
Abbreviation len := String.length.

(** [" " * n]. *)
Fixpoint spaces (n : nat) : string :=
  match n with
  | O => ""
  | S n' => String " " (spaces n')
  end.

(** [cell.rjust(width)]: pad on the left with spaces; a cell that is already
    wide enough is returned as it is. *)
Definition rjust (width : nat) (cell : string) : string :=
  spaces (width - len cell) +:+ cell.

(** [sep.join(parts)]. *)
Abbreviation join := String.concat.

(** The formatting of numbers and of arbitrary values is the interpreter's;
    the scripts only choose the format.  [fmt_3f v] is [f"{v:.3f}"],
    [fmt_plus_3f v] is [f"{v:+.3f}"] and [py_str v] is [str(v)]. *)
Class PyFormat := {
  fmt_3f : R → string;
  fmt_plus_3f : R → string;
  py_str : json → string
}.

(** Truth value of a JSON value, as [x or default] tests it. *)
Definition json_truthy (v : json) : bool :=
  match v with
  | JNull => false
  | JBool b => b
  | JInt z => negb (Z.eqb z 0)
  | JFloat r => if Req_dec_T r 0 then false else true
  | JStr s => negb (String.eqb s "")
  | JArr items => match items with [] => false | _ => true end
  | JObj kvs => match kvs with [] => false | _ => true end
  end.

(** ** scripts/sprite_bench.py *)

(** A file of the modelled file system: a JSON document or other text. *)
Inductive file : Type :=
  | TextFile (text : string)
  | JsonFile (doc : json).

(** The file system: path to file. *)
Abbreviation filesystem := (gmap string file).

(** One case entry of the harness report, at its schema: [label] and the
    measured [summary.mean_step_ms] are required, [budget_ms] is a number,
    the remaining metadata is carried through as it is ([JNull] when the
    entry lacks it, as [entry.get] returns [None]). *)
Record case_entry := {
  ce_label : string;
  ce_units : json;
  ce_count : json;
  ce_budget_ms : R;
  ce_steps : json;
  ce_samples : json;
  ce_mean_step_ms : R
}.

(** The harness report document: a dict with optional [metadata] and
    [cases], or a bare list of cases. *)
Inductive report : Type :=
  | ReportDict (metadata : option (list (string * json)))
               (cases : option (list case_entry))
  | ReportList (cases : list case_entry).

(** [read_report]: [None] stands for a report path at which nothing exists. *)
Definition read_report (report_file : option report)
  : result (list (string * json) * list case_entry) :=
  match report_file with
  | None => Raise FileNotFoundError
  | Some (ReportDict metadata cases) =>
      Ok (default [] metadata, default [] cases)
  | Some (ReportList cases) => Ok ([], cases)
  end.

(** [load_baseline]'s dict comprehension, one entry at a time: the key
    expression [entry["label"]] is evaluated first, then the value
    [entry.get("mean_ms", 0.0)], then the pair is stored.  Lists and dicts
    are unhashable keys.  A key that is not a [str] can never equal a label
    the comparator looks up, so the map keeps the [str] keys only. *)
Definition baseline_entry (mapping : gmap string json) (entry : json)
  : result (gmap string json) :=
  key ← json_getitem entry "label";
  value ← json_get_default entry "mean_ms" (JFloat 0);
  match key with
  | JStr label => Ok (<[label := value]> mapping)
  | JArr _ | JObj _ => Raise TypeError
  | _ => Ok mapping
  end.

Definition load_baseline (fs : filesystem) (path : string)
  : result (gmap string json * list (string * json)) :=
  match fs !! path with
  | None => Raise FileNotFoundError
  | Some (TextFile _) => Raise JSONDecodeError
  | Some (JsonFile payload) =>
      systems ← json_get_default payload "systems" (JArr []);
      entries ← json_iter systems;
      mapping ← for_each baseline_entry entries ∅;
      label ← json_get_default payload "label" JNull;
      commit ← json_get_default payload "commit" JNull;
      timestamp ← json_get_default payload "timestamp" JNull;
      Ok (mapping,
          [("path", JStr path); ("label", label); ("commit", commit);
           ("timestamp", timestamp)])
  end.

(** [format_table]'s first loop body: [widths[idx] = max(widths[idx],
    len(cell))], which raises when the row is longer than the first row. *)
Definition widen (widths : list nat) (ic : nat * string) : result (list nat) :=
  match widths !! ic.1 with
  | None => Raise IndexError
  | Some w => Ok (<[ic.1 := Nat.max w (len ic.2)]> widths)
  end.

(** [enumerate(row)]. *)
Definition enumerate {A : Type} (row : list A) : list (nat * A) :=
  imap (fun idx cell => (idx, cell)) row.

(** A formatted line: every cell right-justified to its column's width
    ([widths[idx]] exists here, the first loop has visited every cell). *)
Definition pad_row (widths : list nat) (row : list string) : string :=
  join "  " (map (fun ic => rjust (default 0%nat (widths !! ic.1)) ic.2)
                 (enumerate row)).

Definition format_table (rows : list (list string)) : result string :=
  match rows with
  | [] => Ok ""
  | first :: _ =>
      widths ← for_each (fun ws row => for_each widen (enumerate row) ws)
                        rows (replicate (length first) 0%nat);
      Ok (join (String "010" "") (map (pad_row widths) rows))
  end.

(** The per-label accumulator of [main]'s [cases] dict: metadata of the
    first entry seen for the label, and one measured value per report entry
    carrying the label, in trial order. *)
Record slot := {
  units : json;
  count : json;
  budget : R;
  steps : json;
  samples : json;
  runs : list R
}.

(** The body of [for entry in report_entries]: [cases.setdefault(label,
    fresh slot)] followed by [slot["runs"].append(...)]. *)
Definition observe (cases : gmap string slot) (entry : case_entry)
  : gmap string slot :=
  let slot :=
    default {| units := ce_units entry; count := ce_count entry;
               budget := ce_budget_ms entry; steps := ce_steps entry;
               samples := ce_samples entry; runs := [] |}
            (cases !! ce_label entry) in
  <[ce_label entry :=
      {| units := units slot; count := count slot; budget := budget slot;
         steps := steps slot; samples := samples slot;
         runs := runs slot ++ [ce_mean_step_ms entry] |}]> cases.

(** What one harness invocation leaves behind: its exit status and the
    report found at the report path afterwards ([None]: nothing there). *)
Record trial := {
  returncode : Z;
  report_after : option report
}.

(** [run_once]: [subprocess.run(..., check=True)]. *)
Definition run_once (t : trial) : result unit :=
  if Z.eqb (returncode t) 0 then Ok tt
  else Raise (CalledProcessError (returncode t)).

(** The state threaded through the trial loop: [cases] and [bench_meta]. *)
Abbreviation loop_state := (gmap string slot * option (list (string * json)))%type.

(** The body of [for idx in range(1, args.runs + 1)]. *)
Definition run_trial (harness : nat → trial) (st : loop_state) (idx : nat)
  : result loop_state :=
  _ ← run_once (harness idx);
  '(meta, report_entries) ← read_report (report_after (harness idx));
  let bench_meta :=
    match st.2, meta with
    | None, _ :: _ => Some meta
    | _, _ => st.2
    end in
  Ok (foldl observe st.1 report_entries, bench_meta).

(** [range(1, runs + 1)]. *)
Definition trial_indices (nruns : Z) : list nat := seq 1 (Z.to_nat nruns).

(** [sorted(cases.keys())]. *)
Definition sorted_labels (cases : gmap string slot) : list string :=
  merge_sort String.le (map fst (map_to_list cases)).

Section Reporting.
Context `{PyFormat}.

(** The table header. *)
Definition header (nruns : Z) (has_baseline : bool) : list string :=
  ["system"] ++ map (fun i => "run" +:+ pretty i) (trial_indices nruns)
    ++ ["mean"; "stddev"]
    ++ (if has_baseline then ["delta"] else [])
    ++ ["budget"].

(** The delta cell and the delta of the payload for one label. *)
Definition delta_of (has_baseline : bool) (baseline_map : gmap string json)
    (label : string) (mean_val : R) : result (string * option R) :=
  if has_baseline then
    match baseline_map !! label with
    | None | Some JNull => Ok ("n/a", None)
    | Some b =>
        match as_number b with
        | Some baseline_mean =>
            let delta_payload := (mean_val - baseline_mean)%R in
            Ok (fmt_plus_3f delta_payload, Some delta_payload)
        | None => Raise TypeError
        end
    end
  else Ok ("", None).

(** The body of [for label in sorted(cases.keys())]: the table row and the
    entry of [summary_payload["systems"]]. *)
Definition summarise (has_baseline : bool) (baseline_map : gmap string json)
    (label : string) (slot : slot) : result (list string * json) :=
  let values := runs slot in
  mean_val ← stats_mean values;
  std_val ← (if decide (1 < length values)%nat then stats_pstdev values
             else Ok 0%R);
  '(delta_cell, delta_payload) ←
    delta_of has_baseline baseline_map label mean_val;
  let row :=
    [label] ++ map fmt_3f values ++ [fmt_3f mean_val; fmt_3f std_val]
      ++ (if has_baseline
          then [if String.eqb delta_cell "" then "n/a" else delta_cell]
          else [])
      ++ [fmt_3f (budget slot)] in
  let entry_payload :=
    [("label", JStr label); ("units", units slot); ("count", count slot);
     ("budget_ms", JFloat (budget slot));
     ("runs", JArr (map JFloat values));
     ("mean_ms", JFloat mean_val); ("stddev_ms", JFloat std_val)]
      ++ match delta_payload with
         | Some d => [("delta_vs_baseline_ms", JFloat d)]
         | None => []
         end in
  Ok (row, JObj entry_payload).

(** The summary loop over all labels: the data rows and the systems. *)
Definition summarise_all (has_baseline : bool)
    (baseline_map : gmap string json) (cases : gmap string slot)
  : result (list (list string * json)) :=
  traverse (fun label =>
              match cases !! label with
              | Some slot => summarise has_baseline baseline_map label slot
              | None => Raise (KeyError label)
              end)
           (sorted_labels cases).

(** The parsed command line, as far as the pipeline reads it. *)
Record args := {
  arg_label : string;
  arg_runs : Z;
  arg_baseline : string
}.

(** What [main] obtains from its environment besides the harness: the
    clock, [git rev-parse HEAD], the command built from the arguments and
    the sorted [ANIMATION_PROFILE_*] variables; and how the file system
    answers a write: [write_error path] is the exception raised when [path]
    cannot be opened for writing (its directory is missing, a directory is
    in its place, permission is denied), [None] when the write goes
    through. *)
Record context := {
  timestamp : string;
  commit : string;
  cmd : list string;
  env_profile : list (string * string);
  write_error : string → option exn
}.

(** [baseline_meta.get(key) or fallback], as [str.format] renders it. *)
Definition meta_or (meta : list (string * json)) (key : string)
    (fallback : json) : string :=
  let v := dict_get_default key JNull meta in
  py_str (if json_truthy v then v else fallback).

Definition bench_meta_keys : list string :=
  ["warmup_frames"; "measured_frames"; "samples_per_case"; "dt"; "profile";
   "lto_mode"; "target_cpu"; "rustc_version"].

(** The lines of the text artefact above the table. *)
Definition summary_lines (a : args) (ctx : context) (has_baseline : bool)
    (baseline_meta : option (list (string * json)))
    (bench_meta : option (list (string * json))) : list string :=
  ["Sprite benchmark summary: " +:+ arg_label a;
   "Timestamp: " +:+ timestamp ctx;
   "Commit: " +:+ commit ctx;
   "Command: " +:+ join " " (cmd ctx);
   "Environment:"]
  ++ map (fun kv => "  - " +:+ kv.1 +:+ "=" +:+ kv.2) (env_profile ctx)
  ++ match has_baseline, baseline_meta with
     | true, Some ((_ :: _) as meta) =>
         ["Baseline: " +:+ meta_or meta "label" (JStr "n/a")
            +:+ " (commit " +:+ meta_or meta "commit" (JStr "n/a")
            +:+ ") @ " +:+ meta_or meta "path" (JStr (arg_baseline a))
            +:+ " [" +:+ meta_or meta "timestamp" (JStr "n/a") +:+ "]"]
     | _, _ => []
     end
  ++ match bench_meta with
     | Some ((_ :: _) as meta) =>
         "Animation targets metadata:"
         :: omap (fun key => (fun v => "  - " +:+ key +:+ ": " +:+ py_str v)
                               <$> assoc_get key meta)
                 bench_meta_keys
     | _ => []
     end.

(** [summary_payload]. *)
Definition summary_payload (a : args) (ctx : context) (has_baseline : bool)
    (baseline_meta : option (list (string * json)))
    (bench_meta : option (list (string * json))) (systems : list json)
  : json :=
  JObj ([("label", JStr (arg_label a));
         ("timestamp", JStr (timestamp ctx));
         ("commit", JStr (commit ctx));
         ("command", JArr (map JStr (cmd ctx)));
         ("env", JObj (map (fun kv => (kv.1, JStr kv.2)) (env_profile ctx)));
         ("systems", JArr systems)]
        ++ match has_baseline, baseline_meta with
           | true, Some ((_ :: _) as meta) => [("baseline", JObj meta)]
           | _, _ => []
           end
        ++ match bench_meta with
           | Some ((_ :: _) as meta) =>
               [("animation_targets_metadata", JObj meta)]
           | _ => []
           end).

(** The artefact paths under [PERF_DIR]. *)
Definition text_path (a : args) : string := "perf/" +:+ arg_label a +:+ ".txt".
Definition json_path (a : args) : string := "perf/" +:+ arg_label a +:+ ".json".

(** Everything [main] computes before it writes: the table rows, the text
    of the text artefact and the document of the JSON artefact. *)
Definition report_of (a : args) (ctx : context) (harness : nat → trial)
    (fs : filesystem) : result (list (list string) * string * json) :=
  let has_baseline := negb (String.eqb (arg_baseline a) "") in
  '(baseline_map, baseline_meta) ←
    (if has_baseline
     then '(m, meta) ← load_baseline fs (arg_baseline a); Ok (m, Some meta)
     else Ok (∅, None));
  '(cases, bench_meta) ←
    for_each (run_trial harness) (trial_indices (arg_runs a)) (∅, None);
  summaries ← summarise_all has_baseline baseline_map cases;
  let rows := header (arg_runs a) has_baseline :: map fst summaries in
  let payload :=
    summary_payload a ctx has_baseline baseline_meta bench_meta
                    (map snd summaries) in
  table ← format_table rows;
  let lines :=
    summary_lines a ctx has_baseline baseline_meta bench_meta
      ++ [""; "Per-run mean_step_ms (ms):"; table] in
  Ok (rows, join (String "010" "") lines +:+ String "010" "", payload).

(** [path.write_text(...)]: a write that is refused raises and leaves the
    files as they are, a write that goes through replaces the file. *)
Definition write_text (ctx : context) (path : string) (f : file)
    (fs : filesystem) : result unit * filesystem :=
  match write_error ctx path with
  | Some e => (Raise e, fs)
  | None => (Ok tt, <[path := f]> fs)
  end.

(** [main]: the exit status (or the exception that ended the run) and the
    file system it leaves.  The text artefact is written first, then the
    JSON artefact; either write can raise. *)
Definition main (a : args) (ctx : context) (harness : nat → trial)
    (fs : filesystem) : result Z * filesystem :=
  match report_of a ctx harness fs with
  | Raise e => (Raise e, fs)
  | Ok (_, summary_text, payload) =>
      match write_text ctx (text_path a) (TextFile summary_text) fs with
      | (Raise e, fs1) => (Raise e, fs1)
      | (Ok _, fs1) =>
          match write_text ctx (json_path a) (JsonFile payload) fs1 with
          | (Raise e, fs2) => (Raise e, fs2)
          | (Ok _, fs2) => (Ok 0%Z, fs2)
          end
      end
  end.
End Reporting.

(** ** The [re] module, for the patterns of capture_sprite_perf.py

    The five patterns are built from literal text, the character classes
    [\d], [[0-9.]] and [\s] under [+], and named groups around such a
    repetition.  [match_here] is the backtracking matcher anchored at the
    start of the text; a greedy [+] tries its longest run first. *)

Inductive cclass : Type :=
  | Digit      (* \d *)
  | NumChar    (* [0-9.] *)
  | Space.     (* \s *)

Definition is_digit (a : ascii) : bool :=
  let n := nat_of_ascii a in (48 <=? n)%nat && (n <=? 57)%nat.

(** [\s] on a [str] pattern, for code points below 256: the ASCII white
    space, the four separators 0x1c-0x1f, NEL and the no-break space. *)
Definition is_space (a : ascii) : bool :=
  let n := nat_of_ascii a in
  ((9 <=? n)%nat && (n <=? 13)%nat) || ((28 <=? n)%nat && (n <=? 32)%nat)
  || (n =? 133)%nat || (n =? 160)%nat.

Definition in_class (c : cclass) (a : ascii) : bool :=
  match c with
  | Digit => is_digit a
  | NumChar => is_digit a || Ascii.eqb a "."
  | Space => is_space a
  end.

Inductive token : Type :=
  | Lit (text : string)
  | Plus (c : cclass)
  | Group (name : string) (c : cclass).

Abbreviation pattern := (list token).

(** The groups of a match, in pattern order ([m.groupdict().items()]). *)
Abbreviation groups := (list (string * string)).

(** The text after the literal [lit], when [s] starts with it. *)
Fixpoint match_lit (lit s : string) : option string :=
  match lit, s with
  | EmptyString, _ => Some s
  | String a lit', String b s' =>
      if Ascii.eqb a b then match_lit lit' s' else None
  | String _ _, EmptyString => None
  end.

(** Every way [c+] can match at the start of [s], as (matched text, rest),
    in the order the matcher tries them: longest first. *)
Fixpoint plus_splits (c : cclass) (s : string) : list (string * string) :=
  match s with
  | EmptyString => []
  | String a s' =>
      if in_class c a
      then map (fun tr => (String a tr.1, tr.2)) (plus_splits c s')
             ++ [(String a "", s')]
      else []
  end.

(** The first alternative that succeeds. *)
Fixpoint first_some {A B : Type} (f : A → option B) (xs : list A) : option B :=
  match xs with
  | [] => None
  | x :: xs' => match f x with Some y => Some y | None => first_some f xs' end
  end.

Fixpoint match_here (p : pattern) (s : string) : option (groups * string) :=
  match p with
  | [] => Some ([], s)
  | Lit text :: p' => rest ← match_lit text s; match_here p' rest
  | Plus c :: p' => first_some (fun tr => match_here p' tr.2) (plus_splits c s)
  | Group name c :: p' =>
      first_some (fun tr => '(g, rest) ← match_here p' tr.2;
                            Some ((name, tr.1) :: g, rest))
                 (plus_splits c s)
  end.

(** [pattern.search(s)]: the match at the leftmost position that has one. *)
Fixpoint search (p : pattern) (s : string) : option groups :=
  match match_here p s with
  | Some (g, _) => Some g
  | None =>
      match s with
      | EmptyString => None
      | String _ s' => search p s'
      end
  end.

(** [pattern.finditer(s)]: the leftmost match, then the leftmost match that
    starts at or after its end, and so on.  [skip] counts the characters
    still covered by the previous match. *)
Fixpoint finditer_from (p : pattern) (skip : nat) (s : string) : list groups :=
  match skip, s with
  | S k, String _ s' => finditer_from p k s'
  | S _, EmptyString => []
  | O, _ =>
      match match_here p s with
      | Some (g, rest) =>
          g :: match s with
               | EmptyString => []
               | String _ s' => finditer_from p (len s - len rest - 1) s'
               end
      | None =>
          match s with
          | EmptyString => []
          | String _ s' => finditer_from p 0 s'
          end
      end
  end.

Definition finditer (p : pattern) (s : string) : list groups :=
  finditer_from p 0 s.

(** [m.group(name)]. *)
Definition group (m : groups) (name : string) : result string :=
  match assoc_get name m with
  | Some text => Ok text
  | None => Raise IndexError
  end.

(** ** [int] and [float] of a captured text

    The patterns capture texts over the digits and the dot only; on such
    texts [int] accepts exactly the non-empty digit strings and [float]
    exactly the texts with at least one digit and at most one dot.  Other
    texts never reach the two functions and are rejected here.  (The
    interpreter's limit on the length of an integer text is not modelled.) *)

Definition digit_value (a : ascii) : Z := Z.of_nat (nat_of_ascii a - 48).

(** The number written by the digits of [s], any dot skipped, continuing
    the number [acc]. *)
Fixpoint digits_value (s : string) (acc : Z) : Z :=
  match s with
  | EmptyString => acc
  | String a s' =>
      digits_value s' (if is_digit a then 10 * acc + digit_value a else acc)
  end.

Fixpoint count_char (p : ascii → bool) (s : string) : nat :=
  match s with
  | EmptyString => 0
  | String a s' => (if p a then 1 else 0) + count_char p s'
  end.

Fixpoint all_chars (p : ascii → bool) (s : string) : bool :=
  match s with
  | EmptyString => true
  | String a s' => p a && all_chars p s'
  end.

(** The digits after the dot. *)
Fixpoint fraction_digits (s : string) : nat :=
  match s with
  | EmptyString => 0
  | String a s' =>
      if Ascii.eqb a "." then count_char is_digit s' else fraction_digits s'
  end.

Definition py_int (text : string) : result Z :=
  if all_chars is_digit text && negb (String.eqb text "")
  then Ok (digits_value text 0)
  else Raise ValueError.

Definition py_float (text : string) : result R :=
  if all_chars (in_class NumChar) text
     && (1 <=? count_char is_digit text)%nat
     && (count_char (Ascii.eqb ".") text <=? 1)%nat
  then Ok (IZR (digits_value text 0) / 10 ^ fraction_digits text)%R
  else Raise ValueError.

Arguments py_int : simpl never.
Arguments py_float : simpl never.

(** ** scripts/capture_sprite_perf.py *)

Definition STEP_STATS_RE : pattern :=
  [Lit "[animation_profile] sys_drive per-step stats: mean=";
   Group "mean" NumChar; Lit " ms p95="; Group "p95" NumChar;
   Lit " ms max="; Group "max" NumChar;
   Lit " ms steady_mean="; Group "steady" NumChar;
   Lit " ms steady_samples="; Group "steady_samples" Digit;
   Lit " spike_mean="; Group "spike" NumChar;
   Lit " ms spike_samples="; Group "spike_samples" Digit].

Definition SPRITE_TOTALS_RE : pattern :=
  [Lit "[animation_profile] anim_stats sprite totals: fast_loop=";
   Group "fast_loop" Digit; Lit " event="; Group "event" Digit;
   Lit " plain="; Group "plain" Digit; Lit " bsearch="; Group "bsearch" Digit;
   Lit " fast_bucket="; Group "fast_bucket" Digit;
   Lit " general_bucket="; Group "general_bucket" Digit;
   Lit " applies="; Group "applies" Digit].

Definition SPRITE_BUCKET_AVG_RE : pattern :=
  [Lit "[animation_profile] anim_stats sprite bucket avg: fast=";
   Group "fast" NumChar; Lit " entities/frame general=";
   Group "general" NumChar; Lit " entities/frame"].

Definition TOP_STEP_RE : pattern :=
  [Lit "[animation_profile]"; Plus Space; Lit "step"; Plus Space;
   Group "index" Digit; Plus Space; Lit "->"; Plus Space;
   Group "value" NumChar; Lit " ms"].

Definition TOP_MIX_RE : pattern :=
  [Lit "[animation_profile]"; Plus Space; Lit "step"; Plus Space;
   Group "index" Digit; Plus Space; Lit "->"; Plus Space;
   Group "value" NumChar; Lit " ms | sprite(fast="; Group "fast" Digit;
   Lit " event="; Group "event" Digit; Lit " plain="; Group "plain" Digit;
   Lit " bsearch="; Group "bsearch" Digit;
   Lit " fast_bucket="; Group "fast_bucket" Digit;
   Lit " general_bucket="; Group "general_bucket" Digit;
   Lit " applies="; Group "applies" Digit;
   Lit ") transform(adv="; Group "adv" Digit; Lit " zero="; Group "zero" Digit;
   Lit " skipped="; Group "skipped" Digit;
   Lit " loop_resume="; Group "loop_resume" Digit;
   Lit " zero_duration="; Group "zero_duration" Digit;
   Lit " fast="; Group "fast_path" Digit; Lit " slow="; Group "slow_path" Digit;
   Lit ") time_ns(adv="; Group "adv_ns" Digit;
   Lit " sample="; Group "sample_ns" Digit;
   Lit " apply="; Group "apply_ns" Digit; Lit ")"].

(** ["samples" in k]. *)
Definition has_samples (k : string) : bool :=
  match String.index 0 "samples" k with
  | Some _ => true
  | None => false
  end.

Definition int_field (kv : string * string) : result (string * json) :=
  v ← py_int kv.2; Ok (kv.1, JInt v).

Definition float_field (kv : string * string) : result (string * json) :=
  v ← py_float kv.2; Ok (kv.1, JFloat v).

(** [float(v) if "samples" not in k else int(v)]. *)
Definition step_stats_field (kv : string * string) : result (string * json) :=
  if has_samples kv.1 then int_field kv else float_field kv.

(** One single-shot section: [match = RE.search(stdout)] and, on a match,
    [data[key] = {k: conv(v) for k, v in match.groupdict().items()}]. *)
Definition single_shot (key : string) (re : pattern)
    (conv : string * string → result (string * json)) (stdout : string)
    (data : list (string * json)) : result (list (string * json)) :=
  match search re stdout with
  | Some m => fields ← traverse conv m; Ok (data ++ [(key, JObj fields)])
  | None => Ok data
  end.

(** The body of [for m in TOP_STEP_RE.finditer(stdout)]. *)
Definition top_step_entry (m : groups) : result json :=
  index_text ← group m "index";
  index ← py_int index_text;
  value_text ← group m "value";
  value ← py_float value_text;
  Ok (JObj [("step", JInt index); ("ms", JFloat value)]).

Definition top_mix_keys : list string :=
  ["fast"; "event"; "plain"; "bsearch"; "fast_bucket"; "general_bucket";
   "applies"; "adv"; "zero"; "skipped"; "loop_resume"; "zero_duration";
   "fast_path"; "slow_path"; "adv_ns"; "sample_ns"; "apply_ns"].

(** [entry[key] = int(m.group(key))]. *)
Definition mix_field (m : groups) (key : string) : result (string * json) :=
  text ← group m key; v ← py_int text; Ok (key, JInt v).

(** The body of [for m in TOP_MIX_RE.finditer(stdout)]. *)
Definition top_mix_entry (m : groups) : result json :=
  index_text ← group m "index";
  index ← py_int index_text;
  value_text ← group m "value";
  value ← py_float value_text;
  fields ← traverse (mix_field m) top_mix_keys;
  Ok (JObj ([("step", JInt index); ("ms", JFloat value)] ++ fields)).

(** One repeating section: a record per match of [finditer], in order, and
    [data[key]] set only when there is at least one. *)
Definition repeating (key : string) (re : pattern)
    (entry : groups → result json) (stdout : string)
    (data : list (string * json)) : result (list (string * json)) :=
  records ← traverse entry (finditer re stdout);
  match records with
  | [] => Ok data
  | _ :: _ => Ok (data ++ [(key, JArr records)])
  end.

Definition parse_profile_output (stdout : string)
  : result (list (string * json)) :=
  data ← single_shot "per_step_stats" STEP_STATS_RE step_stats_field stdout [];
  data ← single_shot "sprite_totals" SPRITE_TOTALS_RE int_field stdout data;
  data ← single_shot "sprite_bucket_avg" SPRITE_BUCKET_AVG_RE float_field
                     stdout data;
  data ← repeating "top_steps" TOP_STEP_RE top_step_entry stdout data;
  repeating "top_step_mix" TOP_MIX_RE top_mix_entry stdout data.

(** ** Reference definitions, in the words of the design document *)

(** The arithmetic mean of a sample: the sum of the values over their
    number. *)
Definition arithmetic_mean (xs : list R) : R :=
  (fold_right Rplus 0 xs / INR (length xs))%R.

(** The population standard deviation: the square root of the mean of the
    squared deviations from the arithmetic mean (divisor [n], not [n - 1]). *)
Definition population_stddev (xs : list R) : R :=
  sqrt (fold_right Rplus 0 (map (fun x => Rsqr (x - arithmetic_mean xs)) xs)
        / INR (length xs))%R.

(** The sample (Bessel-corrected) standard deviation, for contrast. *)
Definition sample_stddev (xs : list R) : R :=
  sqrt (fold_right Rplus 0 (map (fun x => Rsqr (x - arithmetic_mean xs)) xs)
        / INR (length xs - 1))%R.

(** The standard deviation the design document asks of [finalize]. *)
Definition reported_stddev (xs : list R) : R :=
  if decide (length xs < 2)%nat then 0%R else population_stddev xs.

(** The [systems] list of a report payload. *)
Definition payload_systems (payload : json) : list json :=
  match payload with
  | JObj kvs =>
      match assoc_get "systems" kvs with
      | Some (JArr systems) => systems
      | _ => []
      end
  | _ => []
  end.

(** The label of a baseline entry the loader can file under a [str] key. *)
Definition entry_label (entry : json) : option string :=
  match entry with
  | JObj kvs =>
      match assoc_get "label" kvs with
      | Some (JStr label) => Some label
      | _ => None
      end
  | _ => None
  end.

(** The mean the loader reads off a baseline entry. *)
Definition entry_mean (entry : json) : json :=
  match entry with
  | JObj kvs => dict_get_default "mean_ms" (JFloat 0) kvs
  | _ => JNull
  end.

(** The map the loader builds from labelled entries, later entries
    replacing earlier ones with the same label. *)
Definition baseline_of (entries : list json) (mapping : gmap string json)
  : gmap string json :=
  foldl (fun m entry =>
           match entry_label entry with
           | Some label => <[label := entry_mean entry]> m
           | None => m
           end)
        mapping entries.

(** A baseline document without per-label entries: a JSON object that has
    no [systems] member or whose [systems] holds no element. *)
Definition no_label_entries (doc : json) : Prop :=
  ∃ kvs, doc = JObj kvs
         ∧ json_iter (dict_get_default "systems" (JArr []) kvs) = Ok [].

(** In the words of the design document, a per-label entry the loader can
    recognise: an element of the artefact's [systems] sequence that is an
    object with a [label]. *)
Definition per_label_entry (entry : json) : bool :=
  match entry with
  | JObj kvs =>
      match assoc_get "label" kvs with
      | Some _ => true
      | None => false
      end
  | _ => false
  end.

(** A baseline artefact "with no recognizable per-label entries", as the
    design document words it: whatever the document is, its [systems]
    sequence (if it has one) holds no such entry. *)
Definition no_recognizable_entries (doc : json) : Prop :=
  Forall (fun entry => per_label_entry entry = false) (payload_systems doc).

(** The association of a summary's label to its [mean_ms]. *)
Definition summary_label_mean (summary : json) : option (string * json) :=
  match summary with
  | JObj kvs =>
      match assoc_get "label" kvs, assoc_get "mean_ms" kvs with
      | Some (JStr label), Some mean => Some (label, mean)
      | _, _ => None
      end
  | _ => None
  end.

(** The label-to-mean association of a report payload, in [systems] order. *)
Definition label_means (payload : json) : list (string * json) :=
  omap summary_label_mean (payload_systems payload).

(** The metric categories of the extractor. *)
Inductive category : Type :=
  | StepStats
  | Totals
  | BucketAverage
  | TopStep
  | TopStepMix.

Definition category_pattern (c : category) : pattern :=
  match c with
  | StepStats => STEP_STATS_RE
  | Totals => SPRITE_TOTALS_RE
  | BucketAverage => SPRITE_BUCKET_AVG_RE
  | TopStep => TOP_STEP_RE
  | TopStepMix => TOP_MIX_RE
  end.

(** The key of [data] a category is stored under. *)
Definition category_key (c : category) : string :=
  match c with
  | StepStats => "per_step_stats"
  | Totals => "sprite_totals"
  | BucketAverage => "sprite_bucket_avg"
  | TopStep => "top_steps"
  | TopStepMix => "top_step_mix"
  end.

(** The record the extractor builds from one match of a category. *)
Definition record_of (c : category) (m : groups) : result json :=
  match c with
  | StepStats => fields ← traverse step_stats_field m; Ok (JObj fields)
  | Totals => fields ← traverse int_field m; Ok (JObj fields)
  | BucketAverage => fields ← traverse float_field m; Ok (JObj fields)
  | TopStep => top_step_entry m
  | TopStepMix => top_mix_entry m
  end.

(** The occurrences of a category in a trial output: the successive
    non-overlapping matches of its pattern, in source order. *)
Definition occurrences (c : category) (stdout : string) : list groups :=
  finditer (category_pattern c) stdout.

(** Whether a named field of a category is a floating-point measurement (the
    others are integer counts and indices). *)
Definition is_float_field (c : category) (name : string) : bool :=
  match c with
  | StepStats => negb (has_samples name)
  | Totals => false
  | BucketAverage => true
  | TopStep | TopStepMix => String.eqb name "value"
  end.

(** The numeric grammar applied to a named field. *)
Definition field_value (c : category) (kv : string * string) : result json :=
  if is_float_field c kv.1
  then v ← py_float kv.2; Ok (JFloat v)
  else v ← py_int kv.2; Ok (JInt v).

(** The matches the extractor converts: the first occurrence of a
    single-shot category, every occurrence of a repeating one. *)
Definition kept (c : category) (stdout : string) : list groups :=
  match c with
  | StepStats | Totals | BucketAverage => option_list (head (occurrences c stdout))
  | TopStep | TopStepMix => occurrences c stdout
  end.

(** The named groups of a pattern with their classes, in order. *)
Fixpoint pattern_groups (p : pattern) : list (string * cclass) :=
  match p with
  | [] => []
  | Group name c :: p' => (name, c) :: pattern_groups p'
  | _ :: p' => pattern_groups p'
  end.

(** A match conforms to a pattern when it has one text per named group, in
    order, each non-empty and over the group's class. *)
Definition conforms (p : pattern) (m : groups) : Prop :=
  Forall2 (fun gc kv => kv.1 = gc.1 ∧ kv.2 ≠ ""
                        ∧ all_chars (in_class gc.2) kv.2 = true)
          (pattern_groups p) m.

(** The single-shot categories; the others repeat. *)
Definition is_single_shot (c : category) : bool :=
  match c with
  | StepStats | Totals | BucketAverage => true
  | TopStep | TopStepMix => false
  end.

Definition categories : list category :=
  [StepStats; Totals; BucketAverage; TopStep; TopStepMix].

(** One section of [parse_profile_output], by category. *)
Definition extract_section (stdout : string) (data : list (string * json))
    (c : category) : result (list (string * json)) :=
  if is_single_shot c then
    match kept c stdout with
    | [] => Ok data
    | m :: _ => r ← record_of c m; Ok (data ++ [(category_key c, r)])
    end
  else
    records ← traverse (record_of c) (kept c stdout);
    match records with
    | [] => Ok data
    | _ :: _ => Ok (data ++ [(category_key c, JArr records)])
    end.

(** What a section adds to [data] when its records convert. *)
Definition section_entry (stdout : string) (c : category)
  : list (string * json) :=
  if is_single_shot c then
    match kept c stdout with
    | [] => []
    | m :: _ =>
        match record_of c m with
        | Ok r => [(category_key c, r)]
        | Raise _ => []
        end
    end
  else
    match traverse (record_of c) (kept c stdout) with
    | Ok (r :: rs) => [(category_key c, JArr (r :: rs))]
    | _ => []
    end.

(** A text without an opening bracket: no pattern can start inside it. *)
Definition bracket_free (noise : string) : bool :=
  all_chars (fun a => negb (Ascii.eqb a "[")) noise.

(** *** Well-formed trial outputs

    The text a pattern matches in full is its literals with a text for each
    group and for each uncaptured repetition.  A trial output is well formed
    when each of its lines is such a text for one of the five patterns, or
    has no opening bracket at all. *)

(** Whether the text starts with a character of the class. *)
Definition head_in (c : cclass) (s : string) : bool :=
  match s with
  | EmptyString => false
  | String a _ => in_class c a
  end.

(** Classes without a common character. *)
Definition classes_disjoint (c c' : cclass) : bool :=
  match c, c' with
  | Digit, Space | Space, Digit | NumChar, Space | Space, NumChar => true
  | _, _ => false
  end.

(** Whether a pattern cannot start with a character of the class. *)
Definition first_rejects (c : cclass) (p : pattern) : bool :=
  match p with
  | Lit (String b _) :: _ => negb (in_class c b)
  | Plus c' :: _ | Group _ c' :: _ => classes_disjoint c c'
  | _ => false
  end.

(** A pattern in which what follows a repetition cannot start with a
    character of its class: the greedy run is then the only split, and the
    matcher never backtracks into it. *)
Fixpoint separated (p : pattern) : bool :=
  match p with
  | [] => true
  | Lit EmptyString :: _ => false
  | Lit _ :: p' => separated p'
  | Plus c :: p' =>
      match p' with [] => true | _ => first_rejects c p' end && separated p'
  | Group _ c :: p' =>
      match p' with [] => true | _ => first_rejects c p' end && separated p'
  end.

(** The classes of the uncaptured repetitions of a pattern, in order. *)
Fixpoint pattern_gaps (p : pattern) : list cclass :=
  match p with
  | [] => []
  | Plus c :: p' => c :: pattern_gaps p'
  | _ :: p' => pattern_gaps p'
  end.

(** One text per uncaptured repetition, each non-empty and over its class. *)
Definition spaced (p : pattern) (gaps : list string) : Prop :=
  Forall2 (fun c gap => gap ≠ "" ∧ all_chars (in_class c) gap = true)
          (pattern_gaps p) gaps.

(** The text a pattern matches in full with the given group texts and the
    given texts for its uncaptured repetitions. *)
Fixpoint render (p : pattern) (m : groups) (gaps : list string) : string :=
  match p with
  | [] => ""
  | Lit text :: p' => text +:+ render p' m gaps
  | Plus _ :: p' =>
      match gaps with
      | gap :: gaps' => gap +:+ render p' m gaps'
      | [] => ""
      end
  | Group _ _ :: p' =>
      match m with
      | (_, text) :: m' => text +:+ render p' m' gaps
      | [] => ""
      end
  end.

(** The class of the repetition a pattern ends with, if it ends with one. *)
Fixpoint last_class (p : pattern) : option cclass :=
  match p with
  | [] => None
  | [Plus c] | [Group _ c] => Some c
  | _ :: p' => last_class p'
  end.

(** A pattern that does not match a text starting in the class. *)
Definition rejects (c : cclass) (p : pattern) : Prop :=
  ∀ s, head_in c s = true → match_here p s = None.

(** A line of a trial output: a metric line of some category, with its
    field texts and white space, or any other text. *)
Inductive line : Type :=
  | Noise (text : string)
  | Metric (c : category) (m : groups) (gaps : list string).

Definition render_line (l : line) : string :=
  match l with
  | Noise text => text
  | Metric c m gaps => render (category_pattern c) m gaps
  end.

(** The output: every line followed by a line feed. *)
Fixpoint render_output (ls : list line) : string :=
  match ls with
  | [] => ""
  | l :: ls' => render_line l +:+ String "010" (render_output ls')
  end.

Definition well_formed_line (l : line) : Prop :=
  match l with
  | Noise text => bracket_free text = true
  | Metric c m gaps =>
      conforms (category_pattern c) m ∧ spaced (category_pattern c) gaps
  end.

#[global] Instance category_eq_dec : EqDecision category.
Proof. solve_decision. Defined.

(** The occurrence of a category a line carries.  The pattern of the plain
    top-step category is the beginning of the mix pattern, so a mix line
    carries a top-step occurrence too, made of its first two fields. *)
Definition line_occurrence (c : category) (l : line) : option groups :=
  match l with
  | Noise _ => None
  | Metric c' m _ =>
      if decide (c = c') then Some m
      else match c, c' with
           | TopStep, TopStepMix => Some (take 2 m)
           | _, _ => None
           end
  end.

(** Whether no literal of the pattern has an opening bracket. *)
Fixpoint lits_bracket_free (p : pattern) : bool :=
  match p with
  | [] => true
  | Lit text :: p' => bracket_free text && lits_bracket_free p'
  | _ :: p' => lits_bracket_free p'
  end.

(** The part of [TOP_MIX_RE] after the value and the literal that follows
    it. *)
Definition TOP_MIX_TAIL : pattern :=
  [Group "fast" Digit;
   Lit " event="; Group "event" Digit; Lit " plain="; Group "plain" Digit;
   Lit " bsearch="; Group "bsearch" Digit;
   Lit " fast_bucket="; Group "fast_bucket" Digit;
   Lit " general_bucket="; Group "general_bucket" Digit;
   Lit " applies="; Group "applies" Digit;
   Lit ") transform(adv="; Group "adv" Digit; Lit " zero="; Group "zero" Digit;
   Lit " skipped="; Group "skipped" Digit;
   Lit " loop_resume="; Group "loop_resume" Digit;
   Lit " zero_duration="; Group "zero_duration" Digit;
   Lit " fast="; Group "fast_path" Digit; Lit " slow="; Group "slow_path" Digit;
   Lit ") time_ns(adv="; Group "adv_ns" Digit;
   Lit " sample="; Group "sample_ns" Digit;
   Lit " apply="; Group "apply_ns" Digit; Lit ")"].

(** The width a column needs: the longest cell any row has in it. *)
Definition column_width (rows : list (list string)) (idx : nat) : nat :=
  max_list_with (fun row => from_option len 0%nat (row !! idx)) rows.

(** The widths after one more row has been measured. *)
Definition widen_all (widths : list nat) (row : list string) : list nat :=
  imap (fun idx w => Nat.max w (from_option len 0%nat (row !! idx))) widths.

(** A row with every cell right-justified to the width of its column. *)
Definition aligned_row (rows : list (list string)) (row : list string)
  : string :=
  join "  " (imap (fun idx cell => rjust (column_width rows idx) cell) row).

(** Every slot holds at least one value: a slot is created by the entry
    whose value is appended right after. *)
Definition slots_nonempty (cases : gmap string slot) : Prop :=
  ∀ label s, cases !! label = Some s → runs s ≠ [].

(** ** Sample inputs *)

(** A harness case entry with fixed metadata. *)
Definition entry_of (label : string) (budget mean : R) : case_entry :=
  {| ce_label := label; ce_units := JStr "ms"; ce_count := JInt 10000;
     ce_budget_ms := budget; ce_steps := JInt 240; ce_samples := JInt 5;
     ce_mean_step_ms := mean |}.

(** The slot an entry opens, holding the given values. *)
Definition slot_of (entry : case_entry) (values : list R) : slot :=
  {| units := ce_units entry; count := ce_count entry;
     budget := ce_budget_ms entry; steps := ce_steps entry;
     samples := ce_samples entry; runs := values |}.

(** Two trials; the second report lacks the case [b]. *)
Definition ragged_harness (idx : nat) : trial :=
  match idx with
  | 1%nat =>
      {| returncode := 0;
         report_after :=
           Some (ReportList [entry_of "a" 5 1; entry_of "b" 9 4]) |}
  | _ =>
      {| returncode := 0;
         report_after := Some (ReportList [entry_of "a" 5 3]) |}
  end.

Definition ragged_args : args :=
  {| arg_label := "ragged"; arg_runs := 2; arg_baseline := "" |}.

(** A formatter for the sample runs: it renders every number the same way.
    The statements below hold for every formatter. *)
Definition fixed_format : PyFormat :=
  {| fmt_3f := fun _ => "0.000";
     fmt_plus_3f := fun _ => "+0.000";
     py_str := fun _ => "" |}.

Definition sample_context : context :=
  {| timestamp := "2025-01-01T00:00:00";
     commit := "0000000";
     cmd := ["cargo"; "test"; "--release"; "animation_targets_measure";
             "--"; "--ignored"; "--nocapture"];
     env_profile := [("ANIMATION_PROFILE_COUNT", "10000");
                     ("ANIMATION_PROFILE_DT", "0.016666667");
                     ("ANIMATION_PROFILE_STEPS", "240");
                     ("ANIMATION_PROFILE_WARMUP", "16")];
     write_error := fun _ => None |}.

(** Baseline artefacts without any per-label entry: one whose only entry
    has no label, and one whose [systems] is [null]. *)
Definition label_free_baseline : json :=
  JObj [("label", JStr "before");
        ("systems", JArr [JObj [("mean_ms", JFloat 2)]])].

Definition null_systems_baseline : json :=
  JObj [("label", JStr "before"); ("systems", JNull)].

(** Three trials, the second exits with status 101. *)
Definition failing_harness (idx : nat) : trial :=
  match idx with
  | 2%nat => {| returncode := 101; report_after := None |}
  | _ =>
      {| returncode := 0;
         report_after := Some (ReportList [entry_of "a" 5 1]) |}
  end.

Definition failing_args : args :=
  {| arg_label := "failing"; arg_runs := 3; arg_baseline := "" |}.

(** A baseline document with provenance and no [systems]. *)
Definition empty_baseline : json :=
  JObj [("label", JStr "before_phase0"); ("commit", JStr "abc1234")].

(** A baseline document whose second entry lacks [mean_ms]. *)
Definition gappy_baseline : json :=
  JObj [("label", JStr "before_phase0");
        ("systems",
         JArr [JObj [("label", JStr "sprite_fast"); ("mean_ms", JFloat 5)];
               JObj [("label", JStr "sprite_general")]])].

(** A trial output: noise, a step-stats line, two top-step lines (the
    second with the mix), and a repeated step-stats line. *)
Definition sample_out : string :=
  "running 1 test" +:+ String "010" ""
  +:+ "[animation_profile] sys_drive per-step stats: mean=1.5 ms p95=2.0 ms "
  +:+ "max=3.25 ms steady_mean=1.4 ms steady_samples=200 spike_mean=3.0 ms "
  +:+ "spike_samples=4" +:+ String "010" ""
  +:+ "[animation_profile]   step 12 -> 3.25 ms" +:+ String "010" ""
  +:+ "[animation_profile]   step 13 -> 3.5 ms | sprite(fast=1 event=2 "
  +:+ "plain=3 bsearch=4 fast_bucket=5 general_bucket=6 applies=7) "
  +:+ "transform(adv=8 zero=9 skipped=10 loop_resume=11 zero_duration=12 "
  +:+ "fast=13 slow=14) time_ns(adv=15 sample=16 apply=17)" +:+ String "010" ""
  +:+ "[animation_profile] sys_drive per-step stats: mean=9.5 ms p95=2.0 ms "
  +:+ "max=3.25 ms steady_mean=1.4 ms steady_samples=200 spike_mean=3.0 ms "
  +:+ "spike_samples=4" +:+ String "010" "".

(** The lines of [sample_out]. *)
Definition sample_stats (mean : string) : groups :=
  [("mean", mean); ("p95", "2.0"); ("max", "3.25"); ("steady", "1.4");
   ("steady_samples", "200"); ("spike", "3.0"); ("spike_samples", "4")].

Definition sample_mix : groups :=
  [("index", "13"); ("value", "3.5"); ("fast", "1"); ("event", "2");
   ("plain", "3"); ("bsearch", "4"); ("fast_bucket", "5");
   ("general_bucket", "6"); ("applies", "7"); ("adv", "8"); ("zero", "9");
   ("skipped", "10"); ("loop_resume", "11"); ("zero_duration", "12");
   ("fast_path", "13"); ("slow_path", "14"); ("adv_ns", "15");
   ("sample_ns", "16"); ("apply_ns", "17")].

Definition sample_lines : list line :=
  [Noise "running 1 test";
   Metric StepStats (sample_stats "1.5") [];
   Metric TopStep [("index", "12"); ("value", "3.25")] ["   "; " "; " "; " "];
   Metric TopStepMix sample_mix ["   "; " "; " "; " "];
   Metric StepStats (sample_stats "9.5") []].

(** A trial output whose top-step value has two dots. *)
Definition malformed_out : string :=
  "[animation_profile] step 3 -> 1.2.3 ms" +:+ String "010" "".

(** ** More of scripts/sprite_bench.py *)

(** *** What the trial loop has seen *)

(** The case entries and the metadata of the report a trial left, as
    [read_report] returns them (nothing for a report that cannot be read). *)
Definition trial_entries (t : trial) : list case_entry :=
  match read_report (report_after t) with
  | Ok (_, entries) => entries
  | Raise _ => []
  end.

Definition trial_metadata (t : trial) : list (string * json) :=
  match read_report (report_after t) with
  | Ok (meta, _) => meta
  | Raise _ => []
  end.

(** The entries that carry a label, in the order they were read. *)
Definition labelled (label : string) (entries : list case_entry)
  : list case_entry :=
  filter (fun entry => ce_label entry = label) entries.

(** The slot of a label after the entries have been read: the metadata of
    the first entry with the label, one value per entry with the label. *)
Definition collected (label : string) (entries : list case_entry)
  : option slot :=
  match labelled label entries with
  | [] => None
  | first :: rest => Some (slot_of first (map ce_mean_step_ms (first :: rest)))
  end.

(** The width of a table of [n] columns: the columns at their widths and
    two spaces between neighbours. *)
Definition table_width (rows : list (list string)) (n : nat) : nat :=
  sum_list (map (column_width rows) (seq 0 n)) + 2 * (n - 1).

(** *** The command line and the environment of the harness *)

(** [str.lower] on code points below 256: the ASCII capitals and the
    Latin-1 capitals (all of 0xC0-0xDE but the multiplication sign) move up
    by 32, every other character stays. *)
Definition lower_char (a : ascii) : ascii :=
  let n := nat_of_ascii a in
  if ((65 <=? n)%nat && (n <=? 90)%nat)
     || ((192 <=? n)%nat && (n <=? 214)%nat)
     || ((216 <=? n)%nat && (n <=? 222)%nat)
  then ascii_of_nat (n + 32)
  else a.

Fixpoint lower (s : string) : string :=
  match s with
  | EmptyString => EmptyString
  | String a s' => String (lower_char a) (lower s')
  end.

(** The arguments [build_command] reads. *)
Record command_args := {
  arg_profile : string;
  arg_features : string;
  arg_test : string;
  arg_test_args : string
}.

(** The four knobs both scripts hand to the harness through its
    environment. *)
Record knobs := {
  knob_count : Z;
  knob_steps : Z;
  knob_warmup : Z;
  knob_dt : R
}.

(** [shlex.split], [shlex.quote] and the [:.9f] format are the library's
    and the interpreter's. *)
Class Shell := {
  shlex_split : string → result (list string);
  shlex_quote : string → string;
  fmt_9f : R → string
}.

Section Command.
Context `{Shell}.

(** [build_command]. *)
Definition build_command (a : command_args) : result (list string) :=
  let cmd := ["cargo"; "test"] in
  let profile := lower (arg_profile a) in
  let cmd :=
    if String.eqb profile "release" then cmd ++ ["--release"]
    else if String.eqb profile "dev" || String.eqb profile "" then cmd
    else cmd ++ ["--profile"; profile] in
  let cmd :=
    if negb (String.eqb (arg_features a) "")
    then cmd ++ ["--features"; arg_features a] else cmd in
  let cmd := cmd ++ [arg_test a] in
  extra ← (if negb (String.eqb (arg_test_args a) "")
           then shlex_split (arg_test_args a) else Ok []);
  match extra with
  | [] => Ok cmd
  | _ :: _ => Ok (cmd ++ ["--"] ++ extra)
  end.

(** The environment of the harness: [os.environ.copy()] with the four
    knobs set ([build_env] of capture_sprite_perf.py, and the same
    statements at the head of sprite_bench.py's [main]). *)
Definition build_env (environ : gmap string string) (k : knobs)
  : gmap string string :=
  <["ANIMATION_PROFILE_DT" := fmt_9f (knob_dt k)]>
    (<["ANIMATION_PROFILE_WARMUP" := pretty (knob_warmup k)]>
       (<["ANIMATION_PROFILE_STEPS" := pretty (knob_steps k)]>
          (<["ANIMATION_PROFILE_COUNT" := pretty (knob_count k)]> environ))).
End Command.

(** [k.startswith("ANIMATION_PROFILE_")]. *)
Definition is_profile_key (key : string) : Prop :=
  String.prefix "ANIMATION_PROFILE_" key = true.

#[global] Instance is_profile_key_dec (key : string)
  : Decision (is_profile_key key).
Proof. unfold is_profile_key. apply _. Defined.

(** sprite_bench.py: [env_keys = sorted(k for k in env if ...)] and
    [{key: env[key] for key in env_keys}]. *)
Definition env_keys (env : gmap string string) : list string :=
  merge_sort String.le (filter is_profile_key (map fst (map_to_list env))).

Definition env_of_keys (env : gmap string string)
  : list (string * string) :=
  map (fun key => (key, env !!! key)) (env_keys env).

(** capture_sprite_perf.py: [{k: env[k] for k in sorted(env) if ...}]. *)
Definition env_summary (env : gmap string string) : list (string * string) :=
  map (fun k => (k, env !!! k))
      (filter is_profile_key
              (merge_sort String.le (map fst (map_to_list env)))).

(** ** Processes and the wrapper scripts

    The wrapper scripts start other programs and read what they leave
    behind.  A [machine] says what starting a command with an environment
    does to the files: [None] when the program cannot be started
    ([subprocess] raises an [OSError]), else its exit status, what it printed
    and the files afterwards.  The [world] of a script is the files and the
    commands it has tried to start so far, oldest first. *)

(** The exceptions of the other scripts: those of the earlier part, an
    [OSError] raised when a program cannot be started, [RuntimeError],
    [SystemExit] and [struct.error]. *)
Inductive error : Type :=
  | Builtin (e : exn)
  | OSError
  | RuntimeError
  | SystemExit (message : string)
  | StructError.

Inductive attempt (A : Type) : Type :=
  | Done (a : A)
  | Failed (e : error).
Arguments Done {A} a.
Arguments Failed {A} e.

Record completed := {
  exit_status : Z;
  proc_stdout : string;
  proc_stderr : string
}.

Definition machine : Type :=
  list string → gmap string string → filesystem
  → option (completed * filesystem).

Record world := {
  files : filesystem;
  spawned : list (list string)
}.

(** A statement of a script: it may change the world and may raise. *)
Definition action (A : Type) : Type := world → attempt A * world.

#[global] Instance action_ret : MRet action :=
  fun A a w => (Done a, w).
#[global] Instance action_bind : MBind action :=
  fun A B k m w =>
    match m w with
    | (Done a, w') => k a w'
    | (Failed e, w') => (Failed e, w')
    end.

Definition raise {A : Type} (e : error) : action A :=
  fun w => (Failed e, w).

(** A computation of the earlier part, run as a statement. *)
Definition lift {A : Type} (r : result A) : action A :=
  match r with
  | Ok a => mret a
  | Raise e => raise (Builtin e)
  end.

(** [path.write_text(...)] and [path.exists()]. *)
Definition write_file (path : string) (f : file) : action unit :=
  fun w => (Done tt, {| files := <[path := f]> (files w);
                        spawned := spawned w |}).

Definition exists_file (path : string) : action bool :=
  fun w => (Done (bool_decide (is_Some (files w !! path))), w).

Section Processes.
Variable run : machine.

(** [subprocess.run(cmd, env=env, check=False)]. *)
Definition subprocess_run (cmd : list string) (env : gmap string string)
  : action completed :=
  fun w =>
    let w' := {| files := files w; spawned := spawned w ++ [cmd] |} in
    match run cmd env (files w) with
    | None => (Failed OSError, w')
    | Some (proc, fs) =>
        (Done proc, {| files := fs; spawned := spawned w' |})
    end.

(** [subprocess.run(cmd, env=env, check=True)]. *)
Definition subprocess_check (cmd : list string) (env : gmap string string)
  : action unit :=
  proc ← subprocess_run cmd env;
  if Z.eqb (exit_status proc) 0 then mret tt
  else raise (Builtin (CalledProcessError (exit_status proc))).
End Processes.

(** [d[key] = v] on a dict held as an association list: the value of an
    existing key is replaced in place, a new key goes to the end. *)
Definition dict_set (key : string) (v : json) (kvs : list (string * json))
  : list (string * json) :=
  match assoc_get key kvs with
  | Some _ => map (fun kv => if String.eqb kv.1 key then (kv.1, v) else kv) kvs
  | None => kvs ++ [(key, v)]
  end.

(** [path.name]: what follows the last slash. *)
Fixpoint path_name (path : string) : string :=
  match path with
  | EmptyString => EmptyString
  | String a rest =>
      if (count_char (Ascii.eqb "/") rest =? 0)%nat
      then if Ascii.eqb a "/" then rest else path
      else path_name rest
  end.

(** ** scripts/capture_sprite_perf.py: the steps and [main] *)

Module Capture.

(** The parsed command line. *)
Record args := {
  label : string;
  runs : Z;
  tuning : knobs;
  bench_profile : string;
  bench_features : string;
  bench_test : string;
  bench_test_args : string;
  profile_extra : string;
  skip_bench : bool;
  skip_profile : bool;
  python_cmd : string
}.

(** What [main] obtains from its surroundings: [os.environ],
    [sys.executable] (empty when the interpreter does not know it), the
    clock and the answer of [git rev-parse HEAD], which is taken to
    succeed and is not counted among the commands started. *)
Record context := {
  environ : gmap string string;
  sys_executable : string;
  timestamp : string;
  commit : string
}.

Definition SPRITE_BENCH : string := "scripts/sprite_bench.py".

Definition PROFILE_CMD : list string :=
  ["cargo"; "test"; "--release"; "--features"; "anim_stats"; "--test";
   "animation_profile"; "animation_profile_snapshot"; "--"; "--ignored";
   "--exact"; "--nocapture"].

(** The artefact paths under [PERF_DIR]. *)
Definition log_path (a : args) : string :=
  "perf/" +:+ label a +:+ "_profile.log".
Definition json_path (a : args) : string :=
  "perf/" +:+ label a +:+ "_capture.json".

(** The interpreters [run_sprite_bench] tries, in order. *)
Definition python_candidates (a : args) (ctx : context) : list string :=
  let candidates :=
    if negb (String.eqb (python_cmd a) "") then [python_cmd a] else [] in
  let candidates :=
    if negb (String.eqb (sys_executable ctx) "")
       && negb (bool_decide (sys_executable ctx ∈ candidates))
    then candidates ++ [sys_executable ctx] else candidates in
  if negb (bool_decide ("python" ∈ candidates))
  then candidates ++ ["python"] else candidates.

Section Scripts.
Context `{Shell}.
Variable run : machine.

(** [run_subprocess]. *)
Definition run_subprocess (cmd : list string) (env : gmap string string)
  : action string :=
  proc ← subprocess_run run cmd env;
  if negb (Z.eqb (exit_status proc) 0) then raise RuntimeError
  else if negb (String.eqb (proc_stderr proc) "")
  then mret (proc_stdout proc +:+ String "010" "" +:+ proc_stderr proc)
  else mret (proc_stdout proc).

(** The arguments [run_sprite_bench] hands to sprite_bench.py. *)
Definition base_args (a : args) : list string :=
  ["--label"; label a; "--runs"; pretty (runs a)]
  ++ (if negb (String.eqb (bench_profile a) "")
      then ["--profile"; bench_profile a] else [])
  ++ (if negb (String.eqb (bench_features a) "")
      then ["--features"; bench_features a] else [])
  ++ (if negb (String.eqb (bench_test a) "")
      then ["--test"; bench_test a] else [])
  ++ (if negb (String.eqb (bench_test_args a) "")
      then ["--test-args"; bench_test_args a] else [])
  ++ ["--count"; pretty (knob_count (tuning a))]
  ++ ["--steps"; pretty (knob_steps (tuning a))]
  ++ ["--warmup"; pretty (knob_warmup (tuning a))]
  ++ ["--dt"; fmt_9f (knob_dt (tuning a))].

(** [[candidate, str(SPRITE_BENCH), *base_args]]. *)
Definition bench_command (a : args) (candidate : string) : list string :=
  candidate :: SPRITE_BENCH :: base_args a.

(** The loop of [run_sprite_bench]: an interpreter that cannot be started
    passes the turn to the next one; any other failure is raised as it is;
    [RuntimeError] when the candidates are used up. *)
Fixpoint try_candidates (a : args) (env : gmap string string)
    (candidates : list string) : action (list string) :=
  match candidates with
  | [] => raise RuntimeError
  | candidate :: rest =>
      let cmd := bench_command a candidate in
      fun w =>
        match subprocess_check run cmd env w with
        | (Done _, w') => (Done cmd, w')
        | (Failed OSError, w') => try_candidates a env rest w'
        | (Failed e, w') => (Failed e, w')
        end
  end.

Definition run_sprite_bench (a : args) (ctx : context)
    (env : gmap string string) : action (list string) :=
  try_candidates a env (python_candidates a ctx).

(** The command of the profiling harness. *)
Definition profile_command (a : args) : result (list string) :=
  if negb (String.eqb (profile_extra a) "")
  then extra ← shlex_split (profile_extra a); Ok (PROFILE_CMD ++ extra)
  else Ok PROFILE_CMD.

(** [run_animation_profile]. *)
Definition run_animation_profile (a : args) (env : gmap string string)
  : action (list (string * json)) :=
  cmd ← lift (profile_command a);
  stdout ← run_subprocess cmd env;
  _ ← write_file (log_path a) (TextFile stdout);
  parsed ← lift (parse_profile_output stdout);
  mret (dict_set "log" (JStr (path_name (log_path a))) parsed).

(** [main]. *)
Definition main (a : args) (ctx : context) : action Z :=
  if skip_bench a && skip_profile a
  then raise (SystemExit
                "Nothing to do: both bench and profile steps are disabled.")
  else
    let env := build_env (environ ctx) (tuning a) in
    let env_summary :=
      JObj (map (fun kv => (kv.1, JStr kv.2)) (env_summary env)) in
    bench_cmd ← (if negb (skip_bench a)
                 then cmd ← run_sprite_bench a ctx env; mret (Some cmd)
                 else mret None);
    profile_data ← (if negb (skip_profile a)
                    then data ← run_animation_profile a env; mret (Some data)
                    else mret None);
    profile_entry ←
      match profile_data with
      | Some data =>
          cmd ← lift (profile_command a);
          mret (JObj [("command", JStr (join " " cmd));
                      ("env", env_summary);
                      ("stats", JObj data)])
      | None => mret JNull
      end;
    let summary :=
      JObj [("label", JStr (label a));
            ("timestamp", JStr (timestamp ctx));
            ("commit", JStr (commit ctx));
            ("sprite_bench",
             match bench_cmd with
             | Some cmd =>
                 JObj [("runs", JInt (runs a));
                       ("command", JStr (join " " cmd));
                       ("env", env_summary)]
             | None => JNull
             end);
            ("animation_profile", profile_entry)] in
    _ ← write_file (json_path a) (JsonFile summary);
    mret 0%Z.
End Scripts.
End Capture.

(** What [run_subprocess] returns for a process that exits with status 0:
    the standard output, followed by a line feed and the standard error
    when there is any. *)
Definition captured_text (proc : completed) : string :=
  if negb (String.eqb (proc_stderr proc) "")
  then proc_stdout proc +:+ String "010" "" +:+ proc_stderr proc
  else proc_stdout proc.


(** ** scripts/run_perf_suite.py *)

Module Suite.

(** The parsed command line; an option that was not given and has no
    default is the empty string. *)
Record args := {
  label : string;
  bench_label : string;
  capture_label : string;
  runs : Z;
  tuning : knobs;
  bench_profile : string;
  bench_features : string;
  bench_test : string;
  bench_test_args : string;
  sprite_baseline : string;
  report_path : string;
  skip_bench : bool;
  skip_capture : bool;
  capture_extra : string;
  python : string
}.

(** [os.environ], which the helper scripts inherit, and the clock. *)
Record context := {
  environ : gmap string string;
  timestamp : string
}.

Definition SPRITE_BENCH : string := "scripts/sprite_bench.py".
Definition CAPTURE_SCRIPT : string := "scripts/capture_sprite_perf.py".

(** [given or fallback] on strings. *)
Definition or_else (given fallback : string) : string :=
  if negb (String.eqb given "") then given else fallback.

(** The paths the suite reads and writes, relative to the repository. *)
Definition bench_json_path (a : args) : string :=
  "perf/" +:+ or_else (bench_label a) (label a) +:+ ".json".
Definition bench_txt_path (a : args) : string :=
  "perf/" +:+ or_else (bench_label a) (label a) +:+ ".txt".
Definition capture_json_path (a : args) : string :=
  "perf/" +:+ or_else (capture_label a) (label a) +:+ "_capture.json".
Definition suite_path (a : args) : string :=
  "perf/" +:+ label a +:+ "_suite.json".

(** [load_json]. *)
Definition load_json (path : string) : action json :=
  fun w =>
    match files w !! path with
    | None => (Failed (Builtin FileNotFoundError), w)
    | Some (TextFile _) => (Failed (Builtin JSONDecodeError), w)
    | Some (JsonFile doc) => (Done doc, w)
    end.

Section Scripts.
Context `{Shell}.
Variable run : machine.

(** [shell_join]. *)
Definition shell_join (parts : list string) : string :=
  join " " (map shlex_quote parts).

(** The command [run_sprite_bench] starts. *)
Definition bench_command (a : args) : list string :=
  [python a; SPRITE_BENCH;
   "--label"; or_else (bench_label a) (label a);
   "--runs"; pretty (runs a);
   "--count"; pretty (knob_count (tuning a));
   "--steps"; pretty (knob_steps (tuning a));
   "--warmup"; pretty (knob_warmup (tuning a));
   "--dt"; fmt_9f (knob_dt (tuning a));
   "--profile"; bench_profile a;
   "--test"; bench_test a;
   "--test-args"; bench_test_args a]
  ++ (if negb (String.eqb (bench_features a) "")
      then ["--features"; bench_features a] else [])
  ++ (if negb (String.eqb (sprite_baseline a) "")
      then ["--baseline"; sprite_baseline a] else [])
  ++ (if negb (String.eqb (report_path a) "")
      then ["--report-path"; report_path a] else []).

(** [run_sprite_bench]. *)
Definition run_sprite_bench (a : args) (ctx : context) : action json :=
  let cmd := bench_command a in
  _ ← subprocess_check run cmd (environ ctx);
  found ← exists_file (bench_json_path a);
  _ ← (if negb found then raise (Builtin FileNotFoundError) else mret tt);
  payload ← load_json (bench_json_path a);
  has_txt ← exists_file (bench_txt_path a);
  mret (JObj [("label", JStr (or_else (bench_label a) (label a)));
              ("command", JStr (shell_join cmd));
              ("json_path", JStr (bench_json_path a));
              ("txt_path",
               if has_txt : bool then JStr (bench_txt_path a) else JNull);
              ("summary", payload)]).

(** The command [run_capture] starts. *)
Definition capture_command (a : args) (skip_bench_flag : bool)
  : result (list string) :=
  let cmd :=
    [python a; CAPTURE_SCRIPT;
     "--label"; or_else (capture_label a) (label a);
     "--runs"; pretty (runs a);
     "--count"; pretty (knob_count (tuning a));
     "--steps"; pretty (knob_steps (tuning a));
     "--warmup"; pretty (knob_warmup (tuning a));
     "--dt"; fmt_9f (knob_dt (tuning a));
     "--bench-profile"; bench_profile a;
     "--bench-features"; bench_features a;
     "--bench-test"; bench_test a;
     "--bench-test-args"; bench_test_args a]
    ++ (if skip_bench_flag then ["--skip-bench"] else []) in
  if negb (String.eqb (capture_extra a) "")
  then extra ← shlex_split (capture_extra a); Ok (cmd ++ extra)
  else Ok cmd.

(** [run_capture]. *)
Definition run_capture (a : args) (ctx : context) (skip_bench_flag : bool)
  : action json :=
  cmd ← lift (capture_command a skip_bench_flag);
  _ ← subprocess_check run cmd (environ ctx);
  found ← exists_file (capture_json_path a);
  _ ← (if negb found then raise (Builtin FileNotFoundError) else mret tt);
  payload ← load_json (capture_json_path a);
  mret (JObj [("label", JStr (or_else (capture_label a) (label a)));
              ("command", JStr (shell_join cmd));
              ("json_path", JStr (capture_json_path a));
              ("summary", payload)]).

(** [main]. *)
Definition main (a : args) (ctx : context) : action Z :=
  bench_result ← (if negb (skip_bench a)
                  then result ← run_sprite_bench a ctx; mret (Some result)
                  else mret None);
  capture_result ←
    (if negb (skip_capture a)
     then result ← run_capture a ctx (bool_decide (is_Some bench_result));
          mret (Some result)
     else mret None);
  let suite_summary :=
    JObj [("label", JStr (label a));
          ("timestamp", JStr (timestamp ctx));
          ("sprite_bench", default JNull bench_result);
          ("capture_sprite_perf", default JNull capture_result)] in
  _ ← write_file (suite_path a) (JsonFile suite_summary);
  mret 0%Z.
End Scripts.
End Suite.

(** ** fixtures/aseprite/make_slime_png.py

    [bytes] are lists of integers, each a byte value. *)

Module Slime.

Definition WIDTH : nat := 192.
Definition HEIGHT : nat := 32.
Definition SEGMENT_WIDTH : nat := 32.

Definition COLORS : list (list Z) :=
  [[0; 200; 83; 255]; [86; 220; 120; 255]; [255; 149; 0; 255];
   [255; 94; 58; 255]; [255; 196; 0; 255]; [120; 144; 156; 255]]%Z.

(** [min(x // SEGMENT_WIDTH, len(COLORS) - 1)]. *)
Definition color_index (x : nat) : nat :=
  Nat.min (x / SEGMENT_WIDTH) (length COLORS - 1).

(** The inner loop of [build_rows]: the pixels of one row.  The index it
    computes is always within [COLORS]. *)
Definition row_pixels : list Z :=
  flat_map (fun x => default [] (COLORS !! color_index x)) (seq 0 WIDTH).

(** [build_rows]: every row is the filter byte and the pixels. *)
Definition build_rows : list Z :=
  concat (map (fun _ => 0%Z :: row_pixels) (seq 0 HEIGHT)).

(** [struct.pack(">I", n)]: four bytes, most significant first;
    [struct.error] outside the 32-bit range. *)
Definition pack_u32 (n : Z) : attempt (list Z) :=
  if decide (0 ≤ n < 2 ^ 32)%Z
  then Done [Z.land (Z.shiftr n 24) 255; Z.land (Z.shiftr n 16) 255;
             Z.land (Z.shiftr n 8) 255; Z.land n 255]
  else Failed StructError.

(** [struct.pack("B", n)]. *)
Definition pack_u8 (n : Z) : attempt (list Z) :=
  if decide (0 ≤ n < 256)%Z then Done [n] else Failed StructError.

Definition attempt_bind {A B : Type} (m : attempt A) (k : A → attempt B)
  : attempt B :=
  match m with
  | Done a => k a
  | Failed e => Failed e
  end.

#[global] Instance attempt_ret : MRet attempt := fun A a => Done a.
#[global] Instance attempt_mbind : MBind attempt :=
  fun A B k m => attempt_bind m k.

(** [zlib.crc32] and [zlib.compress(data, 9)] are the library's. *)
Class Zlib := {
  crc32 : list Z → Z;
  compress : list Z → list Z
}.

(** The bytes of an ASCII literal. *)
Definition ascii_bytes (s : string) : list Z :=
  map (fun a => Z.of_nat (nat_of_ascii a)) (list_ascii_of_string s).

Definition SIGNATURE : list Z := [137; 80; 78; 71; 13; 10; 26; 10]%Z.

Section Png.
Context `{Zlib}.

(** [chunk]. *)
Definition chunk (tag data : list Z) : attempt (list Z) :=
  size ← pack_u32 (Z.of_nat (length data));
  crc ← pack_u32 (Z.land (crc32 (tag ++ data)) 4294967295);
  Done (size ++ tag ++ data ++ crc).

(** [struct.pack(">IIBBBBB", WIDTH, HEIGHT, 8, 6, 0, 0, 0)]. *)
Definition header_fields : attempt (list Z) :=
  width ← pack_u32 (Z.of_nat WIDTH);
  height ← pack_u32 (Z.of_nat HEIGHT);
  depth ← pack_u8 8;
  colour ← pack_u8 6;
  compression ← pack_u8 0;
  filter ← pack_u8 0;
  interlace ← pack_u8 0;
  Done (width ++ height ++ depth ++ colour ++ compression ++ filter
          ++ interlace).

(** [generate_png]: the bytes written to [path]. *)
Definition generate_png : attempt (list Z) :=
  let raw := build_rows in
  fields ← header_fields;
  ihdr ← chunk (ascii_bytes "IHDR") fields;
  idat ← chunk (ascii_bytes "IDAT") (compress raw);
  iend ← chunk (ascii_bytes "IEND") [];
  Done (SIGNATURE ++ ihdr ++ idat ++ iend).
End Png.
End Slime.

(** The number four bytes denote, most significant first. *)
Definition be_value (bytes : list Z) : Z :=
  fold_left (fun acc b => (acc * 256 + b)%Z) bytes 0%Z.

Definition is_byte (b : Z) : Prop := (0 ≤ b < 256)%Z.

(** ** scripts/capture_animation_samples.py *)

Module Scenes.

Definition SCENES : list (string * string) :=
  [("animation_showcase", "assets/scenes/animation_showcase.json");
   ("skeletal_showcase", "assets/scenes/skeletal_showcase.json")].

(** The command [run_capture] starts for a scene at a path. *)
Definition capture_command (scene_name scene_path : string) : list string :=
  ["cargo"; "run"; "--bin"; "scene_capture"; "--";
   "--scene"; scene_path;
   "--out"; "artifacts/scene_captures/" +:+ scene_name +:+ "_capture.json"].

Section Scripts.
Variable run : machine.
Variable environ : gmap string string.

(** [run_capture]. *)
Definition run_capture (scene_name : string) : action unit :=
  match assoc_get scene_name SCENES with
  | None => raise (Builtin (KeyError scene_name))
  | Some scene_path =>
      subprocess_check run (capture_command scene_name scene_path) environ
  end.

(** [for name in names: run_capture(name)]. *)
Fixpoint capture_each (names : list string) : action unit :=
  match names with
  | [] => mret tt
  | name :: rest => _ ← run_capture name; capture_each rest
  end.

(** [main] after the command line has been parsed; [scene] is empty when no
    scene was named. *)
Definition main (scene : string) : action Z :=
  _ ← (if negb (String.eqb scene "") then run_capture scene
       else capture_each (merge_sort String.le (map fst SCENES)));
  mret 0%Z.
End Scripts.
End Scenes.

(** ** Sample inputs for the wrapper scripts *)

(** Three trials: a bare list of cases, then two reports with metadata. *)
Definition meta_harness (idx : nat) : trial :=
  match idx with
  | 1%nat =>
      {| returncode := 0;
         report_after := Some (ReportList [entry_of "a" 5 1]) |}
  | 2%nat =>
      {| returncode := 0;
         report_after :=
           Some (ReportDict (Some [("profile", JStr "release")])
                            (Some [entry_of "a" 7 2; entry_of "b" 9 4;
                                   entry_of "a" 7 3])) |}
  | _ =>
      {| returncode := 0;
         report_after :=
           Some (ReportDict (Some [("profile", JStr "dev")]) None) |}
  end.

(** Surroundings in which the JSON artefact of the ragged run cannot be
    written. *)
Definition refusing_context : context :=
  {| timestamp := "2025-01-01T00:00:00";
     commit := "0000000";
     cmd := ["cargo"; "test"; "--release"; "animation_targets_measure"];
     env_profile := [];
     write_error := fun path => if String.eqb path "perf/ragged.json"
                                then Some PermissionError else None |}.

(** Three trials, the second exits with status 0 and leaves no report. *)
Definition silent_harness (idx : nat) : trial :=
  match idx with
  | 2%nat => {| returncode := 0; report_after := None |}
  | _ =>
      {| returncode := 0;
         report_after := Some (ReportList [entry_of "a" 5 1]) |}
  end.

(** A baseline document that lists a label twice. *)
Definition repeating_baseline : list (string * json) :=
  [("systems",
    JArr [JObj [("label", JStr "a"); ("mean_ms", JFloat 1)];
          JObj [("label", JStr "b"); ("mean_ms", JFloat 2)];
          JObj [("label", JStr "a"); ("mean_ms", JFloat 3)]])].

(** A baseline document whose second entry has no label. *)
Definition unlabelled_baseline : list (string * json) :=
  [("systems",
    JArr [JObj [("label", JStr "a"); ("mean_ms", JFloat 1)];
          JObj [("mean_ms", JFloat 2)];
          JObj [("label", JStr "c")]])].

(** Splitting at spaces, which is what [shlex.split] does to a text
    without quotes, escapes or other white space. *)
Fixpoint split_at_spaces (word : string) (s : string) : list string :=
  match s with
  | EmptyString => if String.eqb word "" then [] else [word]
  | String a rest =>
      if Ascii.eqb a " "
      then (if String.eqb word "" then [] else [word])
             ++ split_at_spaces "" rest
      else split_at_spaces (word +:+ String a "") rest
  end.

Definition sample_shell : Shell :=
  {| shlex_split := fun s => Ok (split_at_spaces "" s);
     shlex_quote := fun s => s;
     fmt_9f := fun _ => "0.016666667" |}.

Definition sample_knobs : knobs :=
  {| knob_count := 10000; knob_steps := 240; knob_warmup := 16;
     knob_dt := (1 / 60)%R |}.

Definition sample_capture_args : Capture.args :=
  {| Capture.label := "after_phase1"; Capture.runs := 3;
     Capture.tuning := sample_knobs;
     Capture.bench_profile := "release"; Capture.bench_features := "";
     Capture.bench_test := "animation_targets_measure";
     Capture.bench_test_args := "--ignored --nocapture";
     Capture.profile_extra := ""; Capture.skip_bench := false;
     Capture.skip_profile := false; Capture.python_cmd := "python3" |}.

Definition sample_capture_context : Capture.context :=
  {| Capture.environ := {["HOME" := "/root"]};
     Capture.sys_executable := "/usr/bin/python3";
     Capture.timestamp := "2025-01-01T00:00:00";
     Capture.commit := "0000000" |}.

(** A machine on which [python3] cannot be started, the interpreter at its
    full path runs every script to exit status [status] and [cargo] prints
    the sample output. *)
Definition sample_machine (status : Z) : machine :=
  fun cmd env fs =>
    match cmd with
    | "/usr/bin/python3" :: _ =>
        Some ({| exit_status := status; proc_stdout := "";
                 proc_stderr := "" |}, fs)
    | "cargo" :: _ =>
        Some ({| exit_status := 0; proc_stdout := sample_out;
                 proc_stderr := "" |}, fs)
    | _ => None
    end.

Definition empty_world : world := {| files := ∅; spawned := [] |}.

(** A harness that prints a top-step line on its standard output and a mix
    line, after a warning, on its standard error. *)
Definition noisy_proc : completed :=
  {| exit_status := 0;
     proc_stdout :=
       render_output
         [Metric TopStep [("index", "12"); ("value", "3.25")]
                 [" "; " "; " "; " "]];
     proc_stderr :=
       render_output
         [Noise "warning: unused variable";
          Metric TopStepMix sample_mix [" "; " "; " "; " "]] |}.

Definition noisy_machine : machine :=
  fun cmd env fs => Some (noisy_proc, fs).

Definition sample_suite_args : Suite.args :=
  {| Suite.label := "nightly"; Suite.bench_label := "ragged";
     Suite.capture_label := ""; Suite.runs := 2;
     Suite.tuning := sample_knobs;
     Suite.bench_profile := "release"; Suite.bench_features := "";
     Suite.bench_test := "animation_targets_measure";
     Suite.bench_test_args := "--ignored --nocapture";
     Suite.sprite_baseline := ""; Suite.report_path := "";
     Suite.skip_bench := false; Suite.skip_capture := true;
     Suite.capture_extra := ""; Suite.python := "/usr/bin/python3" |}.

Definition sample_suite_context : Suite.context :=
  {| Suite.environ := ∅; Suite.timestamp := "2025-01-01T00:00:00" |}.

(** A machine whose interpreter runs sprite_bench.py as the model of its
    [main] does, on the ragged sample run. *)
Definition bench_machine : machine :=
  fun cmd env fs =>
    match cmd with
    | "/usr/bin/python3" :: "scripts/sprite_bench.py" :: _ =>
        match @main fixed_format ragged_args sample_context ragged_harness fs
        with
        | (Ok _, fs') =>
            Some ({| exit_status := 0; proc_stdout := "";
                     proc_stderr := "" |}, fs')
        | (Raise _, fs') =>
            Some ({| exit_status := 1; proc_stdout := "";
                     proc_stderr := "" |}, fs')
        end
    | _ => None
    end.

(** A compressor that stores and a checksum that is constant: stand-ins
    for [zlib]. *)
Definition sample_zlib : Slime.Zlib :=
  {| Slime.crc32 := fun _ => 0%Z; Slime.compress := fun data => data |}.

(** A machine whose interpreter runs capture_sprite_perf.py as the model of
    its [main] does, on the sample capture. *)
Definition capture_machine : machine :=
  fun cmd env fs =>
    match cmd with
    | "/usr/bin/python3" :: "scripts/capture_sprite_perf.py" :: _ =>
        match @Capture.main sample_shell (sample_machine 0)
                sample_capture_args sample_capture_context
                {| files := fs; spawned := [] |}
        with
        | (Done _, w1) =>
            Some ({| exit_status := 0; proc_stdout := "";
                     proc_stderr := "" |}, files w1)
        | (Failed _, w1) =>
            Some ({| exit_status := 1; proc_stdout := "";
                     proc_stderr := "" |}, files w1)
        end
    | _ => None
    end.

Definition capture_suite_args : Suite.args :=
  {| Suite.label := "nightly"; Suite.bench_label := "";
     Suite.capture_label := "after_phase1"; Suite.runs := 3;
     Suite.tuning := sample_knobs;
     Suite.bench_profile := "release"; Suite.bench_features := "";
     Suite.bench_test := "animation_targets_measure";
     Suite.bench_test_args := "--ignored --nocapture";
     Suite.sprite_baseline := ""; Suite.report_path := "";
     Suite.skip_bench := true; Suite.skip_capture := false;
     Suite.capture_extra := ""; Suite.python := "/usr/bin/python3" |}.

(** Trials that all report the cases [a] and [b], once each. *)
Definition steady_harness (idx : nat) : trial :=
  {| returncode := 0;
     report_after :=
       Some (ReportList [entry_of "a" 5 1; entry_of "b" 9 4]) |}.

(** ** Generic facts about [result] loops *)

Lemma rbind_Ok {A B : Type} (m : result A) (k : A → result B) (b : B) :
  (m ≫= k) = Ok b ↔ ∃ a, m = Ok a ∧ k a = Ok b.
Proof.
  destruct m as [a|e]; simpl; split.
  - intros Hk. by exists a.
  - by intros (a' & [= ->] & Hk).
  - intros [=].
  - by intros (a' & [=] & _).
Qed.

Lemma traverse_Forall2 {A B : Type} (f : A → result B) (xs : list A)
    (ys : list B) :
  traverse f xs = Ok ys ↔ Forall2 (fun x y => f x = Ok y) xs ys.
Proof.
  revert ys. induction xs as [|x xs IH]; intros ys; simpl.
  - split; [intros [= <-]; constructor | by inversion 1].
  - split.
    + intros (y & Hy & (ys' & Hys & [= <-])%rbind_Ok)%rbind_Ok.
      constructor; [done | by apply IH].
    + inversion 1 as [|? y ? ys' Hy Hys]; subst.
      change (rbind (f x) (fun y => rbind (traverse f xs)
                                      (fun ys => Ok (y :: ys))) = Ok (y :: ys')).
      rewrite Hy. simpl. apply IH in Hys. by rewrite Hys.
Qed.

Lemma traverse_Raise {A B : Type} (f : A → result B) (xs : list A) (e : exn) :
  traverse f xs = Raise e → ∃ x, x ∈ xs ∧ f x = Raise e.
Proof.
  induction xs as [|x xs IH]; simpl; [done|].
  destruct (f x) as [y|e'] eqn:Hx; simpl.
  - destruct (traverse f xs) as [ys|e'']; simpl; [done|].
    intros [= ->]. destruct IH as (x' & ? & ?); [done|].
    exists x'. split; [by right | done].
  - intros [= ->]. exists x. split; [by left | done].
Qed.

Lemma for_each_app {A S : Type} (f : S → A → result S) (xs ys : list A)
    (s : S) :
  for_each f (xs ++ ys) s = (for_each f xs s ≫= for_each f ys).
Proof.
  revert s. induction xs as [|x xs IH]; intros s; simpl; [done|].
  destruct (f s x) as [s'|e]; simpl; [apply IH | done].
Qed.

(** An invariant of a loop body that cannot be left holds at the end. *)
Lemma for_each_invariant {A S : Type} (P : S → Prop) (f : S → A → result S)
    (xs : list A) (s s' : S) :
  (∀ s x s', P s → f s x = Ok s' → P s') →
  P s → for_each f xs s = Ok s' → P s'.
Proof.
  intros Hstep. revert s. induction xs as [|x xs IH]; intros s Hs; simpl.
  - by intros [= <-].
  - intros (s1 & H1 & H2)%rbind_Ok. eauto.
Qed.

(** ** Properties of the statistics *)

Lemma fold_left_Rplus_acc (xs : list R) (a : R) :
  fold_left Rplus xs a = (a + fold_right Rplus 0 xs)%R.
Proof.
  revert a. induction xs as [|x xs IH]; intros a; simpl.
  - lra.
  - rewrite IH. lra.
Qed.

Lemma rsum_fold_right (xs : list R) : rsum xs = fold_right Rplus 0%R xs.
Proof. unfold rsum. rewrite fold_left_Rplus_acc. lra. Qed.

Lemma stats_mean_ok (xs : list R) :
  xs ≠ [] → stats_mean xs = Ok (arithmetic_mean xs).
Proof.
  intros Hne. destruct xs as [|x xs]; [done|].
  unfold stats_mean, arithmetic_mean. by rewrite rsum_fold_right.
Qed.

Lemma stats_pstdev_ok (xs : list R) :
  xs ≠ [] → stats_pstdev xs = Ok (population_stddev xs).
Proof.
  intros Hne. unfold stats_pstdev, stats_pvariance.
  rewrite (stats_mean_ok xs Hne). simpl.
  unfold population_stddev. rewrite rsum_fold_right. done.
Qed.

Lemma std_val_ok (xs : list R) :
  xs ≠ [] →
  (if decide (1 < length xs)%nat then stats_pstdev xs else Ok 0%R)
  = Ok (reported_stddev xs).
Proof.
  intros Hne. unfold reported_stddev.
  destruct (decide (1 < length xs)%nat), (decide (length xs < 2)%nat);
    try lia; [by apply stats_pstdev_ok | done].
Qed.

Lemma mean_10_20_30 : arithmetic_mean [10; 20; 30]%R = 20%R.
Proof. unfold arithmetic_mean. simpl. lra. Qed.

Lemma pvariance_10_20_30 :
  (fold_right Rplus 0 (map (fun x => Rsqr (x - arithmetic_mean [10; 20; 30]%R))
                           [10; 20; 30]%R) / INR 3)%R = (200 / 3)%R.
Proof. rewrite mean_10_20_30. unfold Rsqr. simpl. lra. Qed.

Lemma sqrt_between (x lo hi : R) :
  (0 <= lo)%R → (lo * lo < x)%R → (x < hi * hi)%R → (0 <= hi)%R →
  (lo < sqrt x < hi)%R.
Proof.
  intros Hlo H1 H2 Hhi. split.
  - rewrite <- (sqrt_square lo Hlo). apply sqrt_lt_1_alt. nra.
  - rewrite <- (sqrt_square hi Hhi). apply sqrt_lt_1_alt. nra.
Qed.

Lemma stddev_10_20_30 :
  (8.1645 < population_stddev [10; 20; 30] < 8.1655)%R.
Proof.
  unfold population_stddev.
  change (length [10; 20; 30]%R) with 3%nat.
  rewrite pvariance_10_20_30. apply sqrt_between; lra.
Qed.

(** Bessel's correction would give exactly 10 on this sample. *)
Lemma sample_stddev_10_20_30 : sample_stddev [10; 20; 30]%R = 10%R.
Proof.
  unfold sample_stddev. rewrite mean_10_20_30. unfold Rsqr. simpl.
  replace ((10 - 20) * (10 - 20) + ((20 - 20) * (20 - 20)
            + ((30 - 20) * (30 - 20) + 0)))%R with 200%R by lra.
  replace (200 / (1 + 1))%R with (10 * 10)%R by lra.
  apply sqrt_square. lra.
Qed.

(** ** Properties of the summary loop *)

Section Summary.
Context `{PyFormat}.

(** [summarise] in closed form: it fails only through the delta. *)
Lemma summarise_ok (has_baseline : bool) (baseline_map : gmap string json)
    (label : string) (s : slot) (delta_cell : string) (delta : option R) :
  runs s ≠ [] →
  delta_of has_baseline baseline_map label (arithmetic_mean (runs s))
    = Ok (delta_cell, delta) →
  summarise has_baseline baseline_map label s
  = Ok ([label] ++ map fmt_3f (runs s)
          ++ [fmt_3f (arithmetic_mean (runs s));
              fmt_3f (reported_stddev (runs s))]
          ++ (if has_baseline
              then [if String.eqb delta_cell "" then "n/a" else delta_cell]
              else [])
          ++ [fmt_3f (budget s)],
        JObj ([("label", JStr label); ("units", units s); ("count", count s);
               ("budget_ms", JFloat (budget s));
               ("runs", JArr (map JFloat (runs s)));
               ("mean_ms", JFloat (arithmetic_mean (runs s)));
               ("stddev_ms", JFloat (reported_stddev (runs s)))]
              ++ match delta with
                 | Some d => [("delta_vs_baseline_ms", JFloat d)]
                 | None => []
                 end)).
Proof.
  intros Hne Hdelta. unfold summarise.
  rewrite (stats_mean_ok _ Hne). simpl.
  rewrite (std_val_ok _ Hne). simpl.
  rewrite Hdelta. reflexivity.
Qed.

Lemma summarise_raise (has_baseline : bool) (baseline_map : gmap string json)
    (label : string) (s : slot) (e : exn) :
  runs s ≠ [] →
  delta_of has_baseline baseline_map label (arithmetic_mean (runs s))
    = Raise e →
  summarise has_baseline baseline_map label s = Raise e.
Proof.
  intros Hne Hdelta. unfold summarise.
  rewrite (stats_mean_ok _ Hne). simpl.
  rewrite (std_val_ok _ Hne). simpl.
  by rewrite Hdelta.
Qed.

(** The cell of a data row that follows the standard deviation. *)
Lemma row_lookup_after_stddev (label : string) (cells : list string)
    (m sd : string) (rest : list string) :
  ([label] ++ cells ++ [m; sd] ++ rest) !! (length cells + 3)%nat = rest !! 0%nat.
Proof.
  replace (length cells + 3)%nat with (S (length cells + 2)) by lia.
  change (([label] ++ cells ++ [m; sd] ++ rest) !! S (length cells + 2)%nat)
    with ((cells ++ [m; sd] ++ rest) !! (length cells + 2)%nat).
  rewrite lookup_app_r by lia.
  replace (length cells + 2 - length cells)%nat with 2%nat by lia. done.
Qed.

(** C1. For a label with a non-empty sequence of collected values, the
    summary built at finalize reports as [mean_ms] the arithmetic mean of
    the values and as [stddev_ms] zero when there are fewer than two values
    and their population standard deviation otherwise; in particular the
    values 10, 20, 30 give the mean 20 and the population standard deviation
    of that sample, which lies within 0.0005 of 8.165. *)
Theorem finalize_mean_and_stddev (has_baseline : bool)
    (baseline_map : gmap string json) (label : string) (s : slot)
    (delta_cell : string) (delta : option R) :
  runs s ≠ [] →
  delta_of has_baseline baseline_map label (arithmetic_mean (runs s))
    = Ok (delta_cell, delta) →
  ∃ row entry,
    summarise has_baseline baseline_map label s = Ok (row, JObj entry)
    ∧ assoc_get "mean_ms" entry = Some (JFloat (arithmetic_mean (runs s)))
    ∧ assoc_get "stddev_ms" entry
      = Some (JFloat (if decide (length (runs s) < 2)%nat then 0%R
                      else population_stddev (runs s)))
    ∧ (runs s = [10; 20; 30]%R →
       assoc_get "mean_ms" entry = Some (JFloat 20)
       ∧ assoc_get "stddev_ms" entry
         = Some (JFloat (population_stddev [10; 20; 30]%R))
       ∧ (8.1645 < population_stddev [10; 20; 30] < 8.1655)%R).
Proof.
  intros Hne Hdelta. eexists _, _.
  split; [by apply summarise_ok|].
  split; [reflexivity|]. split; [reflexivity|].
  intros Hruns. rewrite Hruns. simpl assoc_get.
  rewrite mean_10_20_30. unfold reported_stddev. simpl.
  split; [done|]. split; [done|]. apply stddev_10_20_30.
Qed.

(** C2. With a baseline supplied: a label the baseline map gives a mean for
    gets, as [delta_vs_baseline_ms], the current [mean_ms] minus the baseline
    mean, sign kept (6.5 against 5.0 gives 1.5); a label absent from the
    baseline map gets no [delta_vs_baseline_ms] field at all and the table
    cell ["n/a"], not a numeric zero. *)
Theorem delta_against_baseline (baseline_map : gmap string json)
    (label : string) (s : slot) :
  runs s ≠ [] →
  (∀ (b : json) (baseline_mean : R),
     baseline_map !! label = Some b → as_number b = Some baseline_mean →
     ∃ row entry,
       summarise true baseline_map label s = Ok (row, JObj entry)
       ∧ assoc_get "mean_ms" entry = Some (JFloat (arithmetic_mean (runs s)))
       ∧ assoc_get "delta_vs_baseline_ms" entry
         = Some (JFloat (arithmetic_mean (runs s) - baseline_mean))
       ∧ (arithmetic_mean (runs s) = 6.5%R → baseline_mean = 5%R →
          assoc_get "delta_vs_baseline_ms" entry = Some (JFloat 1.5)))
  ∧ (baseline_map !! label = None →
     ∃ row entry,
       summarise true baseline_map label s = Ok (row, JObj entry)
       ∧ assoc_get "delta_vs_baseline_ms" entry = None
       ∧ row !! (length (runs s) + 3)%nat = Some "n/a").
Proof.
  intros Hne. split.
  - intros b bm Hb Hnum.
    assert (delta_of true baseline_map label (arithmetic_mean (runs s))
            = Ok (fmt_plus_3f (arithmetic_mean (runs s) - bm),
                  Some (arithmetic_mean (runs s) - bm)%R)) as Hd.
    { unfold delta_of. rewrite Hb.
      destruct b as [|[]| | | | |]; simpl in *; simplify_eq; done. }
    eexists _, _. split; [by apply summarise_ok|].
    split; [reflexivity|]. split; [reflexivity|].
    intros Hm ->. simpl. do 2 f_equal. rewrite Hm. lra.
  - intros Hb. eexists _, _. split.
    + apply summarise_ok; [done|]. unfold delta_of. by rewrite Hb.
    + split; [reflexivity|].
      rewrite <- (length_map fmt_3f) at 1.
      by rewrite row_lookup_after_stddev.
Qed.
Lemma observe_nonempty (cases : gmap string slot) (entry : case_entry) :
  slots_nonempty cases → slots_nonempty (observe cases entry).
Proof.
  intros Hinv label s. unfold observe.
  destruct (decide (ce_label entry = label)) as [->|Hne].
  - rewrite lookup_insert_eq. intros [= <-]. simpl. by destruct (runs _).
  - rewrite lookup_insert_ne by done. apply Hinv.
Qed.

Lemma foldl_observe_nonempty (entries : list case_entry)
    (cases : gmap string slot) :
  slots_nonempty cases → slots_nonempty (foldl observe cases entries).
Proof.
  revert cases. induction entries as [|e es IH]; intros cases Hinv; simpl;
    [done|]. apply IH. by apply observe_nonempty.
Qed.

Lemma run_trial_nonempty (harness : nat → trial) (st st' : loop_state)
    (idx : nat) :
  slots_nonempty st.1 → run_trial harness st idx = Ok st' →
  slots_nonempty st'.1.
Proof.
  intros Hinv. unfold run_trial.
  intros (_ & _ & ([meta entries] & _ & [= <-])%rbind_Ok)%rbind_Ok.
  simpl. by apply foldl_observe_nonempty.
Qed.

Lemma trial_loop_nonempty (harness : nat → trial) (idxs : list nat)
    (cases : gmap string slot) (bench_meta : option (list (string * json))) :
  for_each (run_trial harness) idxs (∅, None) = Ok (cases, bench_meta) →
  slots_nonempty cases.
Proof.
  intros Hloop.
  apply (for_each_invariant (fun st => slots_nonempty st.1) _ _ _ _
           (fun st idx st' => run_trial_nonempty harness st st' idx)) in Hloop;
    [done|].
  intros label s. simpl. by rewrite lookup_empty.
Qed.

(** The summary loop pairs every sorted label with its row and entry. *)
Lemma summarise_all_inv (has_baseline : bool) (baseline_map : gmap string json)
    (cases : gmap string slot) (summaries : list (list string * json)) :
  summarise_all has_baseline baseline_map cases = Ok summaries →
  Forall2 (fun label rs =>
             ∃ s, cases !! label = Some s
                  ∧ summarise has_baseline baseline_map label s = Ok rs)
          (sorted_labels cases) summaries.
Proof.
  unfold summarise_all. rewrite traverse_Forall2.
  intros Hall. eapply Forall2_impl; [exact Hall|].
  intros label rs. simpl.
  destruct (cases !! label) as [s|]; [eauto | done].
Qed.

Lemma payload_systems_summary_payload (a : args) (ctx : context)
    (has_baseline : bool) (baseline_meta bench_meta : option (list (string * json)))
    (systems : list json) :
  payload_systems
    (summary_payload a ctx has_baseline baseline_meta bench_meta systems)
  = systems.
Proof. reflexivity. Qed.

(** What a successful [report_of] went through. *)
Lemma report_of_Ok (a : args) (ctx : context) (harness : nat → trial)
    (fs : filesystem) (rows : list (list string)) (text : string)
    (payload : json) :
  report_of a ctx harness fs = Ok (rows, text, payload) ↔
  ∃ baseline_map baseline_meta cases bench_meta summaries table,
    (if negb (String.eqb (arg_baseline a) "")
     then ∃ meta, load_baseline fs (arg_baseline a) = Ok (baseline_map, meta)
                  ∧ baseline_meta = Some meta
     else baseline_map = ∅ ∧ baseline_meta = None)
    ∧ for_each (run_trial harness) (trial_indices (arg_runs a)) (∅, None)
      = Ok (cases, bench_meta)
    ∧ summarise_all (negb (String.eqb (arg_baseline a) "")) baseline_map cases
      = Ok summaries
    ∧ rows = header (arg_runs a) (negb (String.eqb (arg_baseline a) ""))
               :: map fst summaries
    ∧ payload = summary_payload a ctx (negb (String.eqb (arg_baseline a) ""))
                                baseline_meta bench_meta (map snd summaries)
    ∧ format_table rows = Ok table
    ∧ text = join (String "010" "")
                  (summary_lines a ctx (negb (String.eqb (arg_baseline a) ""))
                     baseline_meta bench_meta
                     ++ [""; "Per-run mean_step_ms (ms):"; table])
             +:+ String "010" "".
Proof.
  unfold report_of.
  generalize (negb (String.eqb (arg_baseline a) "")). intros has_baseline.
  split.
  - intros Hrep.
    apply rbind_Ok in Hrep as ([bm bmeta] & Hbase & Hrep).
    apply rbind_Ok in Hrep as ([cases bench] & Hloop & Hrep).
    apply rbind_Ok in Hrep as (summaries & Hsum & Hrep).
    apply rbind_Ok in Hrep as (table & Htable & Hrep).
    injection Hrep as <- <- <-.
    exists bm, bmeta, cases, bench, summaries, table.
    split; [|by repeat split].
    destruct has_baseline.
    + apply rbind_Ok in Hbase as ([m meta] & Hload & Hbase).
      injection Hbase as <- <-. eauto.
    + by injection Hbase as <- <-.
  - intros (bm & bmeta & cases & bench & summaries & table
            & Hbase & Hloop & Hsum & -> & -> & Htable & ->).
    apply rbind_Ok. exists (bm, bmeta). split.
    { destruct has_baseline.
      - destruct Hbase as (meta & -> & ->). reflexivity.
      - by destruct Hbase as [-> ->]. }
    apply rbind_Ok. exists (cases, bench). split; [done|].
    apply rbind_Ok. exists summaries. split; [done|].
    apply rbind_Ok. exists table. split; [done|]. reflexivity.
Qed.

Lemma run_name_not_delta (i : nat) : "run" +:+ pretty i ≠ "delta".
Proof. discriminate. Qed.

Lemma header_delta (nruns : Z) (has_baseline : bool) :
  "delta" ∈ header nruns has_baseline ↔ has_baseline = true.
Proof.
  unfold header. rewrite !elem_of_app. split.
  - intros [H1|[H2|[H3|[H4|H5]]]].
    + apply list_elem_of_singleton in H1. discriminate.
    + apply list_elem_of_fmap in H2 as (i & Hi & _).
      by destruct (run_name_not_delta i).
    + apply elem_of_cons in H3 as [|H3]; [discriminate|].
      apply list_elem_of_singleton in H3. discriminate.
    + destruct has_baseline; [done|]. by apply elem_of_nil in H4.
    + apply list_elem_of_singleton in H5. discriminate.
  - intros ->. do 3 right. left. by left.
Qed.

(** C5. Without a baseline no summary of the payload has a
    [delta_vs_baseline_ms] field, the table header has no delta column and
    no data row has a delta cell: a row is the label, the run values, mean,
    standard deviation and budget.  The column is a property of the run:
    with a baseline the header has the delta column and every data row has
    the extra cell. *)
Theorem delta_column_is_per_run (a : args) (ctx : context)
    (harness : nat → trial) (fs : filesystem) (rows : list (list string))
    (text : string) (payload : json) :
  report_of a ctx harness fs = Ok (rows, text, payload) →
  ∃ hdr data table preamble,
    rows = hdr :: data
    ∧ format_table rows = Ok table
    ∧ text = join (String "010" "")
                  (preamble ++ [""; "Per-run mean_step_ms (ms):"; table])
             +:+ String "010" ""
    ∧ (arg_baseline a = "" →
       hdr = ["system"]
               ++ map (fun i => "run" +:+ pretty i) (trial_indices (arg_runs a))
               ++ ["mean"; "stddev"; "budget"]
       ∧ ("delta" ∉ hdr)
       ∧ (∀ entry, entry ∈ payload_systems payload →
            ∃ e, entry = JObj e ∧ assoc_get "delta_vs_baseline_ms" e = None)
       ∧ Forall2 (fun row entry =>
                    ∃ label s,
                      entry = JObj [("label", JStr label); ("units", units s);
                                    ("count", count s);
                                    ("budget_ms", JFloat (budget s));
                                    ("runs", JArr (map JFloat (runs s)));
                                    ("mean_ms",
                                     JFloat (arithmetic_mean (runs s)));
                                    ("stddev_ms",
                                     JFloat (reported_stddev (runs s)))]
                      ∧ row = [label] ++ map fmt_3f (runs s)
                                ++ [fmt_3f (arithmetic_mean (runs s));
                                    fmt_3f (reported_stddev (runs s));
                                    fmt_3f (budget s)])
                 data (payload_systems payload))
    ∧ (arg_baseline a ≠ "" →
       "delta" ∈ hdr
       ∧ Forall2 (fun row entry =>
                    ∃ e values,
                      entry = JObj e
                      ∧ assoc_get "runs" e = Some (JArr (map JFloat values))
                      ∧ length row = (length values + 5)%nat)
                 data (payload_systems payload)).
Proof.
  intros Hrep.
  destruct (proj1 (report_of_Ok _ _ _ _ _ _ _) Hrep)
    as (bm & bmeta & cases & bench & summaries & table
        & Hbase & Hloop & Hsum & -> & -> & Htable & ->).
  pose proof (trial_loop_nonempty _ _ _ _ Hloop) as Hne.
  apply summarise_all_inv in Hsum.
  rewrite payload_systems_summary_payload.
  eexists _, _, table, _. split; [reflexivity|].
  split; [exact Htable|]. split; [reflexivity|]. clear Htable. split.
  - intros Hnone. rewrite Hnone in *. simpl in *.
    split; [reflexivity|].
    assert (Forall (fun rs =>
              ∃ label s,
                rs = ([label] ++ map fmt_3f (runs s)
                        ++ [fmt_3f (arithmetic_mean (runs s));
                            fmt_3f (reported_stddev (runs s));
                            fmt_3f (budget s)],
                      JObj [("label", JStr label); ("units", units s);
                            ("count", count s);
                            ("budget_ms", JFloat (budget s));
                            ("runs", JArr (map JFloat (runs s)));
                            ("mean_ms", JFloat (arithmetic_mean (runs s)));
                            ("stddev_ms", JFloat (reported_stddev (runs s)))]))
              summaries) as Hshape.
    { clear -Hsum Hne. induction Hsum as [|label rs ls rss (s & Hs & Hrs) _ IH];
        constructor; [|done].
      exists label, s.
      rewrite (summarise_ok false bm label s "" None) in Hrs;
        [by injection Hrs as <- | by eapply Hne | done]. }
    split; [|split].
    + change ("delta" ∉ header (arg_runs a) false).
      rewrite header_delta. done.
    + intros entry ((row & entry') & -> & Hin)%list_elem_of_fmap.
      rewrite Forall_forall in Hshape.
      destruct (Hshape _ Hin) as (label & s & [= -> ->]). eauto.
    + clear -Hshape. induction Hshape as [|rs rss (label & s & ->) _ IH];
        simpl; constructor; [eauto | done].
  - intros Hsome.
    assert (negb (String.eqb (arg_baseline a) "") = true) as Hb.
    { apply negb_true_iff, String.eqb_neq. done. }
    rewrite Hb in *. split; [by apply header_delta|].
    clear -Hsum Hne. induction Hsum as [|label rs ls rss (s & Hs & Hrs) _ IH];
      simpl; constructor; [|done].
    destruct (delta_of true bm label (arithmetic_mean (runs s)))
      as [[dc dp]|e] eqn:Hd.
    + rewrite (summarise_ok true bm label s dc dp) in Hrs;
        [|by eapply Hne | done].
      injection Hrs as <-. simpl. eexists _, (runs s).
      split; [reflexivity|]. split; [reflexivity|].
      rewrite length_app, length_map. simpl. lia.
    + rewrite (summarise_raise true bm label s e) in Hrs;
        [done | by eapply Hne | done].
Qed.
(** ** Abort on a failed harness invocation *)

Lemma run_trial_failed (harness : nat → trial) (st : loop_state) (k : nat) :
  returncode (harness k) ≠ 0%Z →
  run_trial harness st k = Raise (CalledProcessError (returncode (harness k))).
Proof.
  intros Hrc. unfold run_trial, run_once.
  destruct (Z.eqb_spec (returncode (harness k)) 0); [done | reflexivity].
Qed.

Lemma run_trial_passed (harness : nat → trial) (st : loop_state) (j : nat) :
  returncode (harness j) = 0%Z → report_after (harness j) ≠ None →
  ∃ st', run_trial harness st j = Ok st'.
Proof.
  intros Hrc Hrep. unfold run_trial, run_once. rewrite Hrc. simpl.
  destruct (report_after (harness j)) as [[metadata cases|cases]|]; [..|done];
    simpl; eauto.
Qed.

(** A loop over indices that all pass reaches its end. *)
Lemma trial_loop_passed (harness : nat → trial) (idxs : list nat)
    (st : loop_state) :
  (∀ j, j ∈ idxs →
        returncode (harness j) = 0%Z ∧ report_after (harness j) ≠ None) →
  ∃ st', for_each (run_trial harness) idxs st = Ok st'.
Proof.
  revert st. induction idxs as [|j idxs IH]; intros st Hall; simpl; [eauto|].
  destruct (Hall j) as [Hrc Hrep]; [by left|].
  destruct (run_trial_passed harness st j Hrc Hrep) as [st1 ->]. simpl.
  apply IH. intros j' Hj'. apply Hall. by right.
Qed.

(** A loop that meets a failing invocation raises; when the invocations
    before it pass, it raises that invocation's failure. *)
Lemma trial_loop_aborts (harness : nat → trial) (pre post : list nat)
    (k : nat) (st : loop_state) :
  returncode (harness k) ≠ 0%Z →
  ∃ e, for_each (run_trial harness) (pre ++ k :: post) st = Raise e
       ∧ ((∀ j, j ∈ pre → returncode (harness j) = 0%Z
                          ∧ report_after (harness j) ≠ None) →
          e = CalledProcessError (returncode (harness k))).
Proof.
  intros Hrc. rewrite for_each_app.
  destruct (for_each (run_trial harness) pre st) as [st1|e] eqn:Hpre; simpl.
  - rewrite (run_trial_failed harness st1 k Hrc). simpl. eauto.
  - exists e. split; [done|]. intros Hall.
    destruct (trial_loop_passed harness pre st Hall) as [st1 Hst1]. congruence.
Qed.

Lemma trial_indices_split (nruns : Z) (k : nat) :
  (1 ≤ k ≤ Z.to_nat nruns)%nat →
  trial_indices nruns = seq 1 (k - 1) ++ k :: seq (S k) (Z.to_nat nruns - k).
Proof.
  intros Hk. unfold trial_indices.
  replace (Z.to_nat nruns) with ((k - 1) + S (Z.to_nat nruns - k))%nat at 1
    by lia.
  rewrite seq_app. simpl.
  replace (S (k - 1)) with k by lia. reflexivity.
Qed.

(** C4. When the harness exits with a non-zero status at some trial of the
    run, the pipeline raises: [main] returns no exit status, computes no
    report (no rows, text or payload from the trials before) and leaves the
    file system as it found it, so neither artefact is written.  When the
    baseline (if any) loaded and every earlier trial passed, the exception
    is that trial's [CalledProcessError]. *)
Theorem failed_trial_aborts_run (a : args) (ctx : context)
    (harness : nat → trial) (fs : filesystem) (k : nat) :
  (1 ≤ k ≤ Z.to_nat (arg_runs a))%nat →
  returncode (harness k) ≠ 0%Z →
  ∃ e,
    report_of a ctx harness fs = Raise e
    ∧ main a ctx harness fs = (Raise e, fs)
    ∧ ((arg_baseline a = ""
        ∨ ∃ loaded, load_baseline fs (arg_baseline a) = Ok loaded) →
       (∀ j, (1 ≤ j < k)%nat →
             returncode (harness j) = 0%Z
             ∧ report_after (harness j) ≠ None) →
       e = CalledProcessError (returncode (harness k))).
Proof.
  intros Hk Hrc.
  destruct (trial_loop_aborts harness (seq 1 (k - 1))
              (seq (S k) (Z.to_nat (arg_runs a) - k)) k (∅, None) Hrc)
    as (e & Hloop & Hexact).
  rewrite <- (trial_indices_split _ _ Hk) in Hloop.
  assert (∃ e', report_of a ctx harness fs = Raise e'
                ∧ ((arg_baseline a = ""
                    ∨ ∃ loaded, load_baseline fs (arg_baseline a) = Ok loaded)
                   → e' = e)) as (e' & Hrep & He').
  { unfold report_of.
    destruct (String.eqb_spec (arg_baseline a) "") as [Hnone|Hsome]; simpl.
    - rewrite Hloop. simpl. eauto.
    - destruct (load_baseline fs (arg_baseline a)) as [[m meta]|eb] eqn:Hload;
        simpl.
      + rewrite Hloop. simpl. eauto.
      + exists eb. split; [done|]. intros [?|[? ?]]; done. }
  exists e'. split; [done|]. split.
  - unfold main. by rewrite Hrep.
  - intros Hbase Hbefore. rewrite (He' Hbase). apply Hexact.
    intros j Hj%elem_of_seq. apply Hbefore. lia.
Qed.
End Summary.

(** ** Properties of the baseline loader *)

Lemma baseline_entry_labelled (mapping : gmap string json) (entry : json)
    (label : string) :
  entry_label entry = Some label →
  baseline_entry mapping entry = Ok (<[label := entry_mean entry]> mapping).
Proof.
  unfold entry_label, baseline_entry, json_getitem.
  destruct entry as [| | | | | |kvs]; try done.
  destruct (assoc_get "label" kvs) as [[| | | |l| |]|]; try done.
  by intros [= ->].
Qed.

Lemma load_entries_labelled (entries : list json) (mapping : gmap string json) :
  Forall (fun entry => is_Some (entry_label entry)) entries →
  for_each baseline_entry entries mapping = Ok (baseline_of entries mapping).
Proof.
  intros Hall. revert mapping.
  induction Hall as [|entry entries [label Hl] _ IH]; intros mapping; simpl;
    [done|].
  rewrite (baseline_entry_labelled _ _ _ Hl). simpl.
  unfold baseline_of in *. simpl. rewrite Hl. apply IH.
Qed.

(** The exceptions the entry loop can raise. *)
Lemma baseline_entry_exn (mapping : gmap string json) (entry : json)
    (e : exn) :
  baseline_entry mapping entry = Raise e → e = KeyError "label" ∨ e = TypeError.
Proof.
  unfold baseline_entry, json_getitem.
  destruct entry as [| | | | | |kvs]; simpl; try (intros [= <-]; by right).
  destruct (assoc_get "label" kvs) as [[]|]; simpl; intros [= <-]; auto.
Qed.

Lemma load_entries_exn (entries : list json) (mapping : gmap string json)
    (e : exn) :
  for_each baseline_entry entries mapping = Raise e →
  e = KeyError "label" ∨ e = TypeError.
Proof.
  revert mapping. induction entries as [|entry entries IH]; intros mapping;
    simpl; [done|].
  destruct (baseline_entry mapping entry) as [m|e'] eqn:He; simpl.
  - apply IH.
  - intros [= <-]. by eapply baseline_entry_exn.
Qed.

(** [load_baseline] on a JSON object whose entries are all labelled. *)
Lemma load_baseline_labelled (fs : filesystem) (path : string)
    (kvs : list (string * json)) (entries : list json) :
  fs !! path = Some (JsonFile (JObj kvs)) →
  json_iter (dict_get_default "systems" (JArr []) kvs) = Ok entries →
  Forall (fun entry => is_Some (entry_label entry)) entries →
  load_baseline fs path
  = Ok (baseline_of entries ∅,
        [("path", JStr path);
         ("label", dict_get_default "label" JNull kvs);
         ("commit", dict_get_default "commit" JNull kvs);
         ("timestamp", dict_get_default "timestamp" JNull kvs)]).
Proof.
  intros Hfile Hiter Hall. unfold load_baseline. rewrite Hfile. simpl.
  rewrite Hiter. simpl. by rewrite (load_entries_labelled _ _ Hall).
Qed.

Lemma json_iter_raises (v : json) (e : exn) :
  json_iter v = Raise e → e = TypeError.
Proof. destruct v; simpl; congruence. Qed.

(** What the document's [systems] iterates to holds no per-label entry when
    the document has none. *)
Lemma iterated_unrecognizable (kvs : list (string * json))
    (entries : list json) :
  no_recognizable_entries (JObj kvs) →
  json_iter (dict_get_default "systems" (JArr []) kvs) = Ok entries →
  Forall (fun entry => per_label_entry entry = false) entries.
Proof.
  unfold no_recognizable_entries, payload_systems, dict_get_default.
  destruct (assoc_get "systems" kvs) as [[| | | |s|items|fields]|];
    simpl; intros Hall [= <-]; try done.
  - apply Forall_fmap, Forall_forall. done.
  - apply Forall_fmap, Forall_forall. done.
Qed.

(** An element that is no per-label entry stops the loader. *)
Lemma baseline_entry_unrecognizable (mapping : gmap string json)
    (entry : json) :
  per_label_entry entry = false →
  ∃ e, baseline_entry mapping entry = Raise e
       ∧ (e = TypeError ∨ e = KeyError "label").
Proof.
  unfold per_label_entry, baseline_entry.
  destruct entry as [| | | | | |kvs]; simpl; eauto.
  destruct (assoc_get "label" kvs); [done|]. simpl. eauto.
Qed.

(** C7. [load_baseline] raises the not-found error exactly when nothing
    exists at the path; a baseline document that is a JSON object without
    [systems], or with a [systems] that holds no element, loads as the
    empty map, without an error; every other JSON artefact that holds no
    per-label entry makes the loader raise [AttributeError] (the document
    is no object), [TypeError] or [KeyError]. *)
Theorem load_baseline_not_found_or_empty (fs : filesystem) (path : string) :
  (load_baseline fs path = Raise FileNotFoundError ↔ fs !! path = None)
  ∧ (∀ doc, fs !! path = Some (JsonFile doc) → no_label_entries doc →
            ∃ meta, load_baseline fs path = Ok (∅, meta))
  ∧ (∀ doc, fs !! path = Some (JsonFile doc) →
            no_recognizable_entries doc → ¬ no_label_entries doc →
            ∃ e, load_baseline fs path = Raise e
                 ∧ (e = AttributeError ∨ e = TypeError
                    ∨ e = KeyError "label")).
Proof.
  split; [|split]; [| |intros doc Hfile Hnone Hsome].
  3: {
    unfold load_baseline. rewrite Hfile.
    destruct doc as [| | | | | |kvs]; [simpl; eauto..|].
    cbn [json_get_default]. change (Ok ?x ≫= ?k) with (k x). cbn beta.
    destruct (json_iter (dict_get_default "systems" (JArr []) kvs))
      as [entries|e] eqn:Hiter.
    - pose proof (iterated_unrecognizable kvs entries Hnone Hiter) as Hall.
      destruct Hall as [|first rest Hfirst _].
      { exfalso. apply Hsome. by exists kvs. }
      destruct (baseline_entry_unrecognizable ∅ first Hfirst)
        as (e & He & Hwhich).
      change (Ok ?x ≫= ?k) with (k x). cbn beta. cbn [for_each].
      rewrite He. exists e. split; [reflexivity|]. destruct Hwhich; eauto.
    - rewrite (json_iter_raises _ _ Hiter). eexists. split; [reflexivity|].
      eauto. }
  - split.
    + unfold load_baseline.
      destruct (fs !! path) as [[text|payload]|]; [done| |done].
      intros Hraise. exfalso.
      destruct payload as [| | | | | |kvs]; try done. simpl in Hraise.
      destruct (json_iter _) as [entries|e] eqn:Hiter; simpl in Hraise.
      * destruct (for_each baseline_entry entries ∅) as [m|e] eqn:Hloop;
          simpl in Hraise; [done|].
        injection Hraise as ->.
        by destruct (load_entries_exn _ _ _ Hloop).
      * injection Hraise as ->.
        unfold json_iter in Hiter. by destruct (dict_get_default _ _ _).
    + intros Hnone. unfold load_baseline. by rewrite Hnone.
  - intros doc Hfile (kvs & -> & Hiter). eexists.
    by rewrite (load_baseline_labelled fs path kvs [] Hfile Hiter).
Qed.

Lemma baseline_of_other (entries : list json) (mapping : gmap string json)
    (label : string) :
  Forall (fun entry => entry_label entry ≠ Some label) entries →
  baseline_of entries mapping !! label = mapping !! label.
Proof.
  intros Hall. revert mapping.
  induction Hall as [|entry entries Hne _ IH]; intros mapping; [done|].
  unfold baseline_of in *. simpl. rewrite IH.
  destruct (entry_label entry) as [l|]; [|done].
  apply lookup_insert_ne. congruence.
Qed.

(** The last entry carrying a label decides the label's mean. *)
Lemma baseline_of_last (pre post : list json) (entry : json)
    (mapping : gmap string json) (label : string) :
  entry_label entry = Some label →
  Forall (fun later => entry_label later ≠ Some label) post →
  baseline_of (pre ++ entry :: post) mapping !! label = Some (entry_mean entry).
Proof.
  intros Hl Hpost. unfold baseline_of. rewrite foldl_app. simpl. rewrite Hl.
  fold (baseline_of pre mapping).
  fold (baseline_of post (<[label := entry_mean entry]> (baseline_of pre mapping))).
  rewrite (baseline_of_other _ _ _ Hpost). apply lookup_insert_eq.
Qed.

Section Baseline.
Context `{PyFormat}.

(** C10. When the baseline document lists an entry for a label without a
    [mean_ms] member (and no later entry repeats the label), the loader
    files the label under the mean 0.0, and the summary of that label then
    carries the numeric delta current mean minus 0.0, not the missing
    marker. *)
Theorem missing_mean_loads_as_zero (fs : filesystem) (path : string)
    (kvs fields : list (string * json)) (pre post : list json)
    (label : string) (s : slot) :
  fs !! path = Some (JsonFile (JObj kvs)) →
  dict_get_default "systems" (JArr []) kvs
    = JArr (pre ++ JObj fields :: post) →
  assoc_get "label" fields = Some (JStr label) →
  assoc_get "mean_ms" fields = None →
  Forall (fun entry => is_Some (entry_label entry)) (pre ++ post) →
  Forall (fun later => entry_label later ≠ Some label) post →
  runs s ≠ [] →
  ∃ mapping meta row entry,
    load_baseline fs path = Ok (mapping, meta)
    ∧ mapping !! label = Some (JFloat 0)
    ∧ summarise true mapping label s = Ok (row, JObj entry)
    ∧ assoc_get "delta_vs_baseline_ms" entry
      = Some (JFloat (arithmetic_mean (runs s) - 0))
    ∧ row !! (length (runs s) + 3)%nat
      = Some (let cell := fmt_plus_3f (arithmetic_mean (runs s) - 0) in
              if String.eqb cell "" then "n/a" else cell).
Proof.
  intros Hfile Hsystems Hlabel Hmean Hall Hpost Hne.
  assert (entry_label (JObj fields) = Some label) as Hel.
  { unfold entry_label. by rewrite Hlabel. }
  assert (entry_mean (JObj fields) = JFloat 0) as Hem.
  { unfold entry_mean, dict_get_default. by rewrite Hmean. }
  assert (baseline_of (pre ++ JObj fields :: post) ∅ !! label
          = Some (JFloat 0)) as Hlookup.
  { by rewrite (baseline_of_last pre post _ ∅ label Hel Hpost), Hem. }
  assert (delta_of true (baseline_of (pre ++ JObj fields :: post) ∅) label
            (arithmetic_mean (runs s))
          = Ok (fmt_plus_3f (arithmetic_mean (runs s) - 0),
                Some (arithmetic_mean (runs s) - 0)%R)) as Hdelta.
  { unfold delta_of. by rewrite Hlookup. }
  eexists _, _, _, _. split.
  { apply (load_baseline_labelled fs path kvs
             (pre ++ JObj fields :: post) Hfile).
    - by rewrite Hsystems.
    - apply Forall_app in Hall as [Hpre Hpost'].
      apply Forall_app. split; [done|]. constructor; [by eexists | done]. }
  split; [done|]. split; [by apply summarise_ok|].
  split; [reflexivity|].
  rewrite <- (length_map fmt_3f) at 1.
  by rewrite row_lookup_after_stddev.
Qed.
End Baseline.

(** ** Round trip of the JSON artefact through the baseline loader *)

Lemma sorted_labels_NoDup (cases : gmap string slot) :
  NoDup (sorted_labels cases).
Proof.
  unfold sorted_labels. rewrite merge_sort_Permutation.
  apply NoDup_fst_map_to_list.
Qed.

Lemma assoc_get_None_not_in {V : Type} (key : string)
    (kvs : list (string * V)) :
  key ∉ map fst kvs → assoc_get key kvs = None.
Proof.
  induction kvs as [|[k v] kvs IH]; simpl; [done|].
  intros Hnotin. apply not_elem_of_cons in Hnotin as [Hne Hnotin].
  destruct (String.eqb_spec k key); [congruence | by apply IH].
Qed.

(** On entries with distinct labels that all carry a mean, the loader's map
    is the entries' label-to-mean association. *)
Lemma baseline_of_assoc (labels : list string) (entries : list json)
    (mapping : gmap string json) (label : string) :
  NoDup labels →
  Forall2 (fun l entry =>
             entry_label entry = Some l
             ∧ summary_label_mean entry = Some (l, entry_mean entry))
          labels entries →
  map fst (omap summary_label_mean entries) = labels
  ∧ baseline_of entries mapping !! label
    = match assoc_get label (omap summary_label_mean entries) with
      | Some mean => Some mean
      | None => mapping !! label
      end.
Proof.
  intros Hnodup Hall. revert mapping.
  induction Hall as [|l entry ls entries [Hl Hm] Hall IH]; intros mapping;
    [done|].
  apply NoDup_cons in Hnodup as [Hnotin Hnodup].
  destruct (IH Hnodup (<[l := entry_mean entry]> mapping)) as [Hfst Hlookup].
  unfold baseline_of in *. simpl. rewrite Hl, Hm. simpl.
  change (list_omap _ _ summary_label_mean entries)
    with (omap summary_label_mean entries).
  split; [by rewrite Hfst|].
  rewrite Hlookup. destruct (String.eqb_spec l label) as [->|Hne].
  - rewrite assoc_get_None_not_in by (by rewrite Hfst).
    apply lookup_insert_eq.
  - destruct (assoc_get label _); [done|]. by apply lookup_insert_ne.
Qed.

Section RoundTrip.
Context `{PyFormat}.

Lemma summarise_entry (has_baseline : bool) (baseline_map : gmap string json)
    (label : string) (s : slot) (row : list string) (entry : json) :
  runs s ≠ [] →
  summarise has_baseline baseline_map label s = Ok (row, entry) →
  entry_label entry = Some label
  ∧ entry_mean entry = JFloat (arithmetic_mean (runs s))
  ∧ summary_label_mean entry
    = Some (label, JFloat (arithmetic_mean (runs s))).
Proof.
  intros Hne Hsum.
  destruct (delta_of has_baseline baseline_map label
              (arithmetic_mean (runs s))) as [[dc dp]|e] eqn:Hd.
  - rewrite (summarise_ok _ _ _ _ dc dp Hne Hd) in Hsum.
    by injection Hsum as <- <-.
  - by rewrite (summarise_raise _ _ _ _ e Hne Hd) in Hsum.
Qed.

Lemma json_text_paths_differ (a : args) : text_path a ≠ json_path a.
Proof.
  unfold text_path, json_path. intros Heq.
  apply (inj (String.app "perf/")) in Heq.
  apply (inj (String.app (arg_label a))) in Heq. discriminate.
Qed.

(** A run completes exactly when the report was computed and neither
    write was refused; both artefacts have then been written. *)
Lemma main_Ok (a : args) (ctx : context) (harness : nat → trial)
    (fs fs' : filesystem) (status : Z) :
  main a ctx harness fs = (Ok status, fs') ↔
  status = 0%Z
  ∧ ∃ rows text payload,
      report_of a ctx harness fs = Ok (rows, text, payload)
      ∧ write_error ctx (text_path a) = None
      ∧ write_error ctx (json_path a) = None
      ∧ fs' = <[json_path a := JsonFile payload]>
                (<[text_path a := TextFile text]> fs).
Proof.
  unfold main, write_text. split.
  - destruct (report_of a ctx harness fs) as [[[rows text] payload]|e];
      [|done].
    destruct (write_error ctx (text_path a)); [done|].
    destruct (write_error ctx (json_path a)); [done|].
    intros [= <- <-]. split; [done|]. by exists rows, text, payload.
  - intros (-> & rows & text & payload & -> & -> & -> & ->). done.
Qed.

(** A completed run leaves both artefacts. *)
Lemma main_writes_both (a : args) (ctx : context) (harness : nat → trial)
    (fs fs' : filesystem) :
  main a ctx harness fs = (Ok 0%Z, fs') →
  ∃ rows text payload,
    report_of a ctx harness fs = Ok (rows, text, payload)
    ∧ fs' !! text_path a = Some (TextFile text)
    ∧ fs' !! json_path a = Some (JsonFile payload)
    ∧ ∀ path, path ≠ text_path a → path ≠ json_path a →
              fs' !! path = fs !! path.
Proof.
  intros (_ & rows & text & payload & Hrep & _ & _ & ->)%main_Ok.
  exists rows, text, payload. split; [done|].
  split; [|split].
  - rewrite lookup_insert_ne by (symmetry; apply json_text_paths_differ).
    apply lookup_insert_eq.
  - apply lookup_insert_eq.
  - intros path Ht Hj. by rewrite !lookup_insert_ne.
Qed.

(** C8. After a run that completed, the JSON artefact holds the report
    payload, and loading that artefact with the baseline loader succeeds
    with a map that agrees, label by label, with the association of each
    summary's label to its [mean_ms] in the payload; every summary
    contributes one label and no label occurs twice. *)
Theorem report_round_trip (a : args) (ctx : context) (harness : nat → trial)
    (fs fs' : filesystem) :
  main a ctx harness fs = (Ok 0%Z, fs') →
  ∃ rows text payload mapping meta,
    report_of a ctx harness fs = Ok (rows, text, payload)
    ∧ fs' !! json_path a = Some (JsonFile payload)
    ∧ load_baseline fs' (json_path a) = Ok (mapping, meta)
    ∧ (∀ label, mapping !! label = assoc_get label (label_means payload))
    ∧ NoDup (map fst (label_means payload))
    ∧ length (label_means payload) = length (payload_systems payload).
Proof.
  intros (_ & rows & text & payload & Hrep & _ & _ & ->)%main_Ok.
  destruct (proj1 (report_of_Ok _ _ _ _ _ _ _) Hrep)
    as (bm & bmeta & cases & bench & summaries & table
        & _ & Hloop & Hsum & _ & Hpayload & _ & _).
  pose proof (trial_loop_nonempty _ _ _ _ Hloop) as Hne.
  apply summarise_all_inv in Hsum.
  assert (Forall2 (fun l entry =>
                     entry_label entry = Some l
                     ∧ summary_label_mean entry = Some (l, entry_mean entry))
                  (sorted_labels cases) (map snd summaries)) as Hall.
  { clear -Hsum Hne.
    induction Hsum as [|label [row entry] ls rss (s & Hs & Hrs) _ IH]; simpl;
      constructor; [|done].
    destruct (summarise_entry _ _ _ _ _ _ (Hne _ _ Hs) Hrs) as (? & -> & ?).
    done. }
  subst payload.
  exists rows, text. eexists _, (baseline_of (map snd summaries) ∅), _.
  split; [done|]. split; [apply lookup_insert_eq|]. split.
  { unfold summary_payload.
    eapply (load_baseline_labelled _ _ _ (map snd summaries)).
    - apply lookup_insert_eq.
    - reflexivity.
    - clear -Hall. induction Hall as [|???? [? ?]]; constructor; eauto. }
  unfold label_means. rewrite payload_systems_summary_payload.
  destruct (baseline_of_assoc _ _ ∅ "" (sorted_labels_NoDup cases) Hall)
    as [Hfst _].
  split; [|split].
  - intros label.
    destruct (baseline_of_assoc _ _ ∅ label (sorted_labels_NoDup cases) Hall)
      as [_ ->].
    destruct (assoc_get label _); [done | apply lookup_empty].
  - rewrite Hfst. apply sorted_labels_NoDup.
  - rewrite <- (length_map fst), Hfst.
    by rewrite (Forall2_length _ _ _ Hall).
Qed.
End RoundTrip.

(** ** Properties of the matcher *)

Lemma len_app (s1 s2 : string) : len (s1 +:+ s2) = (len s1 + len s2)%nat.
Proof. induction s1 as [|a s1 IH]; simpl; [done | by rewrite IH]. Qed.

Lemma plus_splits_spec (c : cclass) (s t r : string) :
  (t, r) ∈ plus_splits c s →
  t ≠ "" ∧ all_chars (in_class c) t = true ∧ s = t +:+ r.
Proof.
  revert t r. induction s as [|a s IH]; intros t r; simpl.
  - by intros ?%elem_of_nil.
  - destruct (in_class c a) eqn:Ha; [|by intros ?%elem_of_nil].
    rewrite elem_of_app, list_elem_of_fmap, list_elem_of_singleton.
    intros [([t' r'] & [= -> ->] & Hin)|[= -> ->]].
    + destruct (IH _ _ Hin) as (_ & Hall & ->). simpl. by rewrite Ha, Hall.
    + simpl. by rewrite Ha.
Qed.

Lemma first_some_Some {A B : Type} (f : A → option B) (xs : list A) (y : B) :
  first_some f xs = Some y → ∃ x, x ∈ xs ∧ f x = Some y.
Proof.
  induction xs as [|x xs IH]; simpl; [done|].
  destruct (f x) as [y'|] eqn:Hx.
  - intros [= ->]. exists x. split; [by left | done].
  - intros (x' & ? & ?)%IH. exists x'. split; [by right | done].
Qed.

(** What the matcher captures is what the pattern admits. *)
Lemma match_here_conforms (p : pattern) (s : string) (m : groups)
    (rest : string) :
  match_here p s = Some (m, rest) → conforms p m.
Proof.
  unfold conforms. revert s m rest.
  induction p as [|[text|c|name c] p IH]; intros s m rest; simpl.
  - intros [= <- _]. constructor.
  - destruct (match_lit text s) as [s'|]; simpl; [apply IH | done].
  - intros ([t r] & _ & Hm)%first_some_Some. by eapply IH.
  - intros ([t r] & Hin & Hm)%first_some_Some. simpl in Hm.
    destruct (match_here p r) as [[g rest']|] eqn:Hr; simpl in Hm; [|done].
    injection Hm as <- <-.
    destruct (plus_splits_spec _ _ _ _ Hin) as (Hne & Hall & _).
    constructor; [done | by eapply IH].
Qed.

Lemma finditer_from_matches (p : pattern) (skip : nat) (s : string)
    (m : groups) :
  m ∈ finditer_from p skip s → ∃ s' rest, match_here p s' = Some (m, rest).
Proof.
  revert skip. induction s as [|a s IH]; intros skip.
  - destruct skip; simpl; [|by intros ?%elem_of_nil].
    destruct (match_here p "") as [[g rest]|] eqn:Hm;
      [|by intros ?%elem_of_nil].
    intros ->%list_elem_of_singleton. eauto.
  - destruct skip as [|k]; simpl; [|apply IH].
    destruct (match_here p (String a s)) as [[g rest]|] eqn:Hm; [|apply IH].
    intros [->|Hin]%elem_of_cons; [eauto | by eapply IH].
Qed.

Lemma app_string_assoc (s1 s2 s3 : string) :
  s1 +:+ s2 +:+ s3 = (s1 +:+ s2) +:+ s3.
Proof.
  induction s1 as [|a s1 IH]; [done|].
  change (String a (s1 +:+ s2 +:+ s3) = String a ((s1 +:+ s2) +:+ s3)).
  by rewrite IH.
Qed.

(** A match consumes a prefix of the text. *)
Lemma match_lit_prefix (lit s rest : string) :
  match_lit lit s = Some rest → s = lit +:+ rest.
Proof.
  revert s. induction lit as [|a lit IH]; intros s; simpl.
  - by intros [= ->].
  - destruct s as [|b s]; [done|].
    destruct (Ascii.eqb_spec a b) as [->|]; [|done].
    intros Hm. by rewrite (IH _ Hm).
Qed.

Lemma match_here_consumes (p : pattern) (s : string) (m : groups)
    (rest : string) :
  match_here p s = Some (m, rest) → ∃ consumed, s = consumed +:+ rest.
Proof.
  revert s m. induction p as [|[text|c|name c] p IH]; intros s m; simpl.
  - intros [= _ ->]. by exists "".
  - destruct (match_lit text s) as [s'|] eqn:Hlit; simpl; [|done].
    intros [consumed ->]%IH. exists (text +:+ consumed).
    rewrite (match_lit_prefix _ _ _ Hlit). apply app_string_assoc.
  - intros ([t r] & Hin & [consumed Hr]%IH)%first_some_Some.
    destruct (plus_splits_spec _ _ _ _ Hin) as (_ & _ & ->).
    simpl in Hr. rewrite Hr. exists (t +:+ consumed).
    apply app_string_assoc.
  - intros ([t r] & Hin & Hm)%first_some_Some. simpl in Hm.
    destruct (match_here p r) as [[g rest']|] eqn:Hr; simpl in Hm; [|done].
    injection Hm as _ <-. destruct (IH _ _ Hr) as [consumed ->].
    destruct (plus_splits_spec _ _ _ _ Hin) as (_ & _ & ->).
    exists (t +:+ consumed). apply app_string_assoc.
Qed.

(** Skipping the characters of a match resumes right after it. *)
Lemma finditer_from_skip (p : pattern) (consumed rest : string) :
  finditer_from p (len consumed) (consumed +:+ rest) = finditer_from p 0 rest.
Proof.
  induction consumed as [|a consumed IH]; [done|].
  change (String a consumed +:+ rest) with (String a (consumed +:+ rest)).
  by cbn [len finditer_from].
Qed.

(** [finditer], the way the [re] documentation describes it: where the
    pattern does not match, move on by one character; where it matches, yield
    the match and go on after its end. *)
Lemma finditer_no_match (p : pattern) (a : ascii) (s : string) :
  match_here p (String a s) = None →
  finditer p (String a s) = finditer p s.
Proof. unfold finditer. cbn [finditer_from]. by intros ->. Qed.

Lemma finditer_match (p : pattern) (a : ascii) (consumed rest : string)
    (m : groups) :
  match_here p (String a consumed +:+ rest) = Some (m, rest) →
  finditer p (String a consumed +:+ rest) = m :: finditer p rest.
Proof.
  unfold finditer.
  change (String a consumed +:+ rest) with (String a (consumed +:+ rest)).
  cbn [finditer_from]. intros ->. f_equal.
  replace (len (String a (consumed +:+ rest)) - len rest - 1)%nat
    with (len consumed).
  - apply finditer_from_skip.
  - cbn [len]. rewrite len_app. lia.
Qed.

Lemma occurrences_conform (c : category) (stdout : string) (m : groups) :
  m ∈ occurrences c stdout → conforms (category_pattern c) m.
Proof.
  intros (s' & rest & Hm)%finditer_from_matches. by eapply match_here_conforms.
Qed.

(** [search] returns the first occurrence [finditer] enumerates. *)
Lemma search_head_finditer (p : pattern) (s : string) :
  search p s = head (finditer p s).
Proof.
  unfold finditer. induction s as [|a s IH]; simpl.
  - by destruct (match_here p "") as [[g rest]|].
  - by destruct (match_here p (String a s)) as [[g rest]|].
Qed.

Lemma kept_occurrences (c : category) (stdout : string) (m : groups) :
  m ∈ kept c stdout → m ∈ occurrences c stdout.
Proof.
  destruct c; simpl; try done;
    (destruct (occurrences _ stdout) as [|m' ms]; simpl;
     [by intros ?%elem_of_nil | intros ->%list_elem_of_singleton; by left]).
Qed.

(** ** Properties of the metric extractor *)

Lemma py_int_ok (t : string) :
  t ≠ "" → all_chars is_digit t = true → py_int t = Ok (digits_value t 0).
Proof.
  intros Hne Hall. unfold py_int. rewrite Hall.
  destruct (String.eqb_spec t ""); [done | reflexivity].
Qed.

Lemma py_float_raise (t : string) (e : exn) :
  py_float t = Raise e → e = ValueError.
Proof. unfold py_float. destruct (_ && _); [done | by intros [= <-]]. Qed.

(** Split a conforming match of a concrete pattern into its groups. *)
Ltac conforms_inv H :=
  unfold conforms in H; simpl in H;
  repeat match type of H with
         | Forall2 _ (_ :: _) _ =>
             apply Forall2_cons_inv_l in H as ([? ?] & ? & (? & ? & ?) & H & ->);
             simpl in *; subst
         | Forall2 _ [] _ => apply Forall2_nil_inv_l in H as ->
         end.

Ltac ints_ok :=
  repeat match goal with
         | Hne : ?t ≠ "", Hall : all_chars (in_class Digit) ?t = true |- _ =>
             progress rewrite !(py_int_ok t Hne Hall)
         end.

Ltac floats_known :=
  repeat match goal with
         | Hf : py_float ?t = _ |- context [py_float ?t] => rewrite Hf
         end.

Ltac floats_cases :=
  repeat match goal with
         | |- context [py_float ?t] =>
             let Hf := fresh "Hf" in
             destruct (py_float t) as [?|?] eqn:Hf;
             [|pose proof (py_float_raise _ _ Hf); subst]
         end.

Ltac field_ok := simpl; ints_ok; floats_known; simpl; eauto.

Ltac pick_failed :=
  match goal with
  | Hf : py_float ?t = Raise _ |- _ =>
      eexists (_, t); split;
      [ repeat first [ apply list_elem_of_here | apply list_elem_of_further ]
      | simpl; rewrite Hf; reflexivity ]
  end.

(** On a match of its pattern, the record of a category is built exactly
    when every named field passes its numeric grammar; otherwise the
    conversion raises [ValueError].  The integer fields always pass. *)
Lemma record_of_total (c : category) (m : groups) :
  conforms (category_pattern c) m →
  (∃ r, record_of c m = Ok r
        ∧ Forall (fun kv => ∃ v, field_value c kv = Ok v) m)
  ∨ (record_of c m = Raise ValueError
     ∧ ∃ kv, kv ∈ m ∧ field_value c kv = Raise ValueError).
Proof.
  intros Hm. destruct c; conforms_inv Hm.
  all: unfold field_value, step_stats_field, int_field, float_field,
         top_step_entry, top_mix_entry, mix_field, group; simpl.
  all: ints_ok.
  all: floats_cases.
  all: simpl.
  all: first [ left; eexists; split; [reflexivity|]; repeat constructor;
               by field_ok
             | right; split; [reflexivity|]; pick_failed ].
Qed.

Lemma record_of_fields_ok (c : category) (m : groups) :
  conforms (category_pattern c) m →
  (∀ kv, kv ∈ m → ∃ v, field_value c kv = Ok v) →
  ∃ r, record_of c m = Ok r.
Proof.
  intros Hm Hall.
  destruct (record_of_total c m Hm) as [(r & Hr & _)|(_ & kv & Hin & Hkv)];
    [eauto|].
  destruct (Hall kv Hin) as [v Hv]. congruence.
Qed.

Lemma record_of_field_fails (c : category) (m : groups) (kv : string * string)
    (e : exn) :
  conforms (category_pattern c) m → kv ∈ m → field_value c kv = Raise e →
  record_of c m = Raise ValueError.
Proof.
  intros Hm Hin Hkv.
  destruct (record_of_total c m Hm) as [(r & _ & Hall)|[Hr _]]; [|done].
  rewrite Forall_forall in Hall. destruct (Hall kv Hin) as [v Hv]. congruence.
Qed.

Lemma single_shot_section (c : category)
    (conv : string * string → result (string * json)) (stdout : string)
    (data : list (string * json)) :
  is_single_shot c = true →
  (∀ m, record_of c m = (fields ← traverse conv m; Ok (JObj fields))) →
  single_shot (category_key c) (category_pattern c) conv stdout data
  = extract_section stdout data c.
Proof.
  intros Hc Hrec. unfold single_shot, extract_section. rewrite Hc.
  rewrite search_head_finditer.
  assert (kept c stdout = option_list (head (occurrences c stdout))) as ->
    by by destruct c.
  unfold occurrences.
  destruct (finditer (category_pattern c) stdout) as [|m ms]; simpl; [done|].
  rewrite Hrec. by destruct (traverse conv m).
Qed.

(** [parse_profile_output] is the five sections in turn. *)
Lemma parse_sections (stdout : string) :
  parse_profile_output stdout = for_each (extract_section stdout) categories [].
Proof.
  unfold parse_profile_output. simpl.
  rewrite (single_shot_section StepStats) by done.
  destruct (extract_section stdout [] StepStats) as [d1|]; simpl; [|done].
  rewrite (single_shot_section Totals) by done.
  destruct (extract_section stdout d1 Totals) as [d2|]; simpl; [|done].
  rewrite (single_shot_section BucketAverage) by done.
  destruct (extract_section stdout d2 BucketAverage) as [d3|]; simpl; [|done].
  change (repeating "top_steps" TOP_STEP_RE top_step_entry stdout d3)
    with (extract_section stdout d3 TopStep).
  destruct (extract_section stdout d3 TopStep) as [d4|]; simpl; [|done].
  change (repeating "top_step_mix" TOP_MIX_RE top_mix_entry stdout d4)
    with (extract_section stdout d4 TopStepMix).
  by destruct (extract_section stdout d4 TopStepMix).
Qed.

Lemma traverse_all_ok {A B : Type} (f : A → result B) (xs : list A) :
  (∀ x, x ∈ xs → ∃ y, f x = Ok y) → ∃ ys, traverse f xs = Ok ys.
Proof.
  induction xs as [|x xs IH]; intros Hall; simpl; [eauto|].
  destruct (Hall x) as [y ->]; [by left|]. simpl.
  destruct IH as [ys ->]; [|by eauto].
  intros x' Hx'. apply Hall. by right.
Qed.

(** A section succeeds, adding its entry, or raises [ValueError]. *)
Lemma extract_section_total (stdout : string) (data : list (string * json))
    (c : category) :
  (extract_section stdout data c = Ok (data ++ section_entry stdout c)
   ∧ ∀ m, m ∈ kept c stdout → ∃ r, record_of c m = Ok r)
  ∨ (extract_section stdout data c = Raise ValueError
     ∧ ∃ m, m ∈ kept c stdout ∧ record_of c m = Raise ValueError).
Proof.
  assert (∀ m, m ∈ kept c stdout →
               (∃ r, record_of c m = Ok r) ∨ record_of c m = Raise ValueError)
    as Hrec.
  { intros m Hm%kept_occurrences%occurrences_conform.
    destruct (record_of_total c m Hm) as [(r & ? & _)|[? _]]; eauto. }
  unfold extract_section, section_entry.
  destruct (is_single_shot c) eqn:Hc.
  - assert (kept c stdout = option_list (head (occurrences c stdout))) as Hk
      by by destruct c.
    rewrite Hk in *.
    destruct (occurrences c stdout) as [|m ms]; simpl in *.
    + left. split; [by rewrite app_nil_r | by intros ? ?%elem_of_nil].
    + destruct (Hrec m) as [[r Hr]|Hr]; [by left| |]; rewrite Hr; simpl.
      * left. split; [done|].
        intros m' ->%list_elem_of_singleton. eauto.
      * right. split; [done|]. exists m. split; [by left | done].
  - destruct (traverse (record_of c) (kept c stdout)) as [records|e] eqn:Ht;
      simpl.
    + left. split.
      * destruct records; [by rewrite app_nil_r | done].
      * apply traverse_Forall2 in Ht. intros m Hm.
        destruct (proj1 (list_elem_of_lookup _ _) Hm) as [i Hi].
        destruct (Forall2_lookup_l _ _ _ _ _ Ht Hi) as (r & _ & ?). eauto.
    + right. apply traverse_Raise in Ht as (m & Hm & Hr).
      destruct (Hrec m Hm) as [[r Hr']|Hr']; [congruence|].
      assert (e = ValueError) as -> by congruence.
      split; [done|]. eauto.
Qed.

Lemma sections_total (stdout : string) (cs : list category)
    (data : list (string * json)) :
  (for_each (extract_section stdout) cs data
   = Ok (data ++ flat_map (section_entry stdout) cs)
   ∧ ∀ c m, c ∈ cs → m ∈ kept c stdout → ∃ r, record_of c m = Ok r)
  ∨ (for_each (extract_section stdout) cs data = Raise ValueError
     ∧ ∃ c m, c ∈ cs ∧ m ∈ kept c stdout
              ∧ record_of c m = Raise ValueError).
Proof.
  revert data. induction cs as [|c cs IH]; intros data; simpl.
  - left. split; [by rewrite app_nil_r | by intros ? ? ?%elem_of_nil].
  - destruct (extract_section_total stdout data c)
      as [[-> Hok]|(-> & m & Hm & Hr)]; simpl.
    + destruct (IH (data ++ section_entry stdout c))
        as [[-> Hoks]|(-> & c' & m & Hc' & Hm & Hr)].
      * left. split; [by rewrite <- app_assoc|].
        intros c' m [->|Hc']%elem_of_cons; eauto.
      * right. split; [done|]. exists c', m. split; [by right | done].
    + right. split; [done|]. exists c, m. split; [by left | done].
Qed.

Lemma section_entry_shape (stdout : string) (c : category) :
  section_entry stdout c = []
  ∨ ∃ v, section_entry stdout c = [(category_key c, v)].
Proof.
  unfold section_entry. destruct (is_single_shot c).
  - destruct (kept c stdout) as [|m ms]; [by left|].
    destruct (record_of c m); eauto.
  - destruct (traverse _ _) as [[|r rs]|]; eauto.
Qed.

Lemma section_keys_sublist (stdout : string) (cs : list category) :
  sublist (map fst (flat_map (section_entry stdout) cs)) (map category_key cs).
Proof.
  induction cs as [|c cs IH]; simpl; [constructor|].
  destruct (section_entry_shape stdout c) as [->|[v ->]]; simpl.
  - by apply sublist_cons.
  - by apply sublist_skip.
Qed.

(** Every key selects the entry of its own section. *)
Lemma assoc_get_sections (stdout : string) (c : category) :
  assoc_get (category_key c) (flat_map (section_entry stdout) categories)
  = assoc_get (category_key c) (section_entry stdout c).
Proof.
  unfold categories. cbn [flat_map]. rewrite app_nil_r.
  destruct (section_entry_shape stdout StepStats) as [H1|[v1 H1]],
    (section_entry_shape stdout Totals) as [H2|[v2 H2]],
    (section_entry_shape stdout BucketAverage) as [H3|[v3 H3]],
    (section_entry_shape stdout TopStep) as [H4|[v4 H4]],
    (section_entry_shape stdout TopStepMix) as [H5|[v5 H5]];
    destruct c; rewrite H1, H2, H3, H4, H5; reflexivity.
Qed.

(** A pattern that opens with a bracket does not match at another
    character. *)
Lemma match_here_not_bracket (lit : string) (p : pattern) (a : ascii)
    (s : string) :
  a ≠ "["%char → match_here (Lit (String "[" lit) :: p) (String a s) = None.
Proof.
  intros Hne. cbn [match_here match_lit].
  destruct (Ascii.eqb_spec "[" a); [congruence | done].
Qed.

Lemma finditer_noise (lit : string) (p : pattern) (noise s : string) :
  bracket_free noise = true →
  finditer (Lit (String "[" lit) :: p) (noise +:+ s)
  = finditer (Lit (String "[" lit) :: p) s.
Proof.
  unfold finditer, bracket_free.
  induction noise as [|a noise IH]; intros Hfree; [done|].
  simpl in Hfree. apply andb_true_iff in Hfree as [Ha Hfree].
  apply negb_true_iff, Ascii.eqb_neq in Ha.
  change (String a noise +:+ s) with (String a (noise +:+ s)).
  cbn [finditer_from]. rewrite match_here_not_bracket by done.
  by apply IH.
Qed.

Lemma occurrences_noise (c : category) (noise stdout : string) :
  bracket_free noise = true →
  occurrences c (noise +:+ stdout) = occurrences c stdout.
Proof. intros Hfree. destruct c; by apply finditer_noise. Qed.

Lemma for_each_ext {A S : Type} (f g : S → A → result S) (xs : list A) (s : S) :
  (∀ s x, f s x = g s x) → for_each f xs s = for_each g xs s.
Proof.
  intros Hfg. revert s. induction xs as [|x xs IH]; intros s; simpl; [done|].
  rewrite Hfg. destruct (g s x); simpl; [apply IH | done].
Qed.

(** The extractor reads a trial output through the occurrences only. *)
Lemma parse_same_occurrences (stdout other : string) :
  (∀ c, occurrences c other = occurrences c stdout) →
  parse_profile_output other = parse_profile_output stdout.
Proof.
  intros Hocc. rewrite !parse_sections. apply for_each_ext.
  intros data c. unfold extract_section, kept. by rewrite (Hocc c).
Qed.

Lemma parse_noise (noise stdout : string) :
  bracket_free noise = true →
  parse_profile_output (noise +:+ stdout) = parse_profile_output stdout.
Proof.
  intros Hfree. apply parse_same_occurrences.
  intros c. by apply occurrences_noise.
Qed.

(** *** Well-formed trial outputs: what each line contributes *)

(** Disjoint classes share no character. *)
Lemma classes_disjoint_spec (c c' : cclass) (a : ascii) :
  classes_disjoint c c' = true → in_class c a = true → in_class c' a = false.
Proof.
  destruct c, c'; try discriminate; intros _;
    destruct a as [[] [] [] [] [] [] [] []]; vm_compute; congruence.
Qed.

Lemma plus_splits_head (c : cclass) (s : string) :
  head_in c s = false → plus_splits c s = [].
Proof. destruct s as [|a s]; simpl; [done|]. by intros ->. Qed.

(** A run of the class followed by a text that does not start in it: the
    first split the matcher tries takes the whole run, the others leave a
    rest that starts in the class. *)
Lemma plus_splits_greedy (c : cclass) (t r : string) :
  t ≠ "" → all_chars (in_class c) t = true → head_in c r = false →
  ∃ others, plus_splits c (t +:+ r) = (t, r) :: others
            ∧ Forall (fun tr => head_in c tr.2 = true) others.
Proof.
  intros Hne Hall Hr. induction t as [|a t IH]; [done|].
  simpl in Hall. apply andb_true_iff in Hall as [Ha Hall].
  change (String a t +:+ r) with (String a (t +:+ r)).
  cbn [plus_splits]. rewrite Ha.
  destruct t as [|b t].
  - change ("" +:+ r) with r. rewrite (plus_splits_head c r Hr). simpl.
    exists []. split; [done | constructor].
  - destruct IH as (others & -> & Hothers); [done | done |].
    eexists. split; [reflexivity|].
    apply Forall_app. split.
    + apply Forall_fmap. eapply Forall_impl; [exact Hothers|]. done.
    + constructor; [|constructor]. simpl in *.
      by apply andb_true_iff in Hall as [-> _].
Qed.

Lemma first_some_head {A B : Type} (f : A → option B) (x : A) (xs : list A) :
  Forall (fun y => f y = None) xs → first_some f (x :: xs) = f x.
Proof.
  intros Hall. simpl. destruct (f x); [done|].
  induction Hall as [|y ys Hy _ IH]; simpl; [done|]. by rewrite Hy.
Qed.

(** The syntactic test is sound. *)
Lemma first_rejects_sound (c : cclass) (p : pattern) :
  first_rejects c p = true → rejects c p.
Proof.
  intros Hrej [|a s] Hhead; [done|]. simpl in Hhead.
  destruct p as [|[[|b text]|c'|name c'] p]; try done; simpl in Hrej.
  - cbn [match_here match_lit].
    destruct (Ascii.eqb_spec b a) as [->|]; [|done].
    by rewrite Hhead in Hrej.
  - cbn [match_here plus_splits].
    by rewrite (classes_disjoint_spec c c' a Hrej Hhead).
  - cbn [match_here plus_splits].
    by rewrite (classes_disjoint_spec c c' a Hrej Hhead).
Qed.

(** One step of the matcher over a captured group. *)
Lemma match_here_group (name : string) (c : cclass) (p : pattern)
    (t r : string) :
  t ≠ "" → all_chars (in_class c) t = true → head_in c r = false →
  p = [] ∨ rejects c p →
  match_here (Group name c :: p) (t +:+ r)
  = ('(g, rest) ← match_here p r; Some ((name, t) :: g, rest)).
Proof.
  intros Hne Hall Hr Hp. cbn [match_here].
  destruct (plus_splits_greedy c t r Hne Hall Hr) as (others & -> & Hothers).
  destruct Hp as [->|Hrej]; [done|].
  rewrite first_some_head; [done|]. eapply Forall_impl; [exact Hothers|].
  intros [t' r'] Hhead. simpl in *. by rewrite (Hrej r' Hhead).
Qed.

(** One step of the matcher over an uncaptured repetition. *)
Lemma match_here_plus (c : cclass) (p : pattern) (t r : string) :
  t ≠ "" → all_chars (in_class c) t = true → head_in c r = false →
  p = [] ∨ rejects c p →
  match_here (Plus c :: p) (t +:+ r) = match_here p r.
Proof.
  intros Hne Hall Hr Hp. cbn [match_here].
  destruct (plus_splits_greedy c t r Hne Hall Hr) as (others & -> & Hothers).
  destruct Hp as [->|Hrej]; [done|].
  rewrite first_some_head; [done|]. eapply Forall_impl; [exact Hothers|].
  intros [t' r'] Hhead. simpl in *. by apply Hrej.
Qed.

Lemma match_lit_app (text rest : string) :
  match_lit text (text +:+ rest) = Some rest.
Proof.
  induction text as [|a text IH]; [done|].
  change (String a text +:+ rest) with (String a (text +:+ rest)).
  cbn [match_lit]. by rewrite Ascii.eqb_refl.
Qed.

(** One step of the matcher over a literal. *)
Lemma match_here_lit (text : string) (p : pattern) (r : string) :
  match_here (Lit text :: p) (text +:+ r) = match_here p r.
Proof. cbn [match_here]. by rewrite match_lit_app. Qed.

Lemma app_string_empty_r (s : string) : s +:+ "" = s.
Proof.
  induction s as [|a s IH]; [done|].
  change (String a (s +:+ "") = String a s). by rewrite IH.
Qed.

Lemma head_in_app (c : cclass) (s r : string) :
  s ≠ "" → head_in c (s +:+ r) = head_in c s.
Proof. by destruct s. Qed.

Lemma head_in_other (c c' : cclass) (t r : string) :
  t ≠ "" → all_chars (in_class c') t = true → classes_disjoint c c' = true →
  head_in c (t +:+ r) = false.
Proof.
  intros Hne Hall Hdis. destruct t as [|a t]; [done|].
  simpl in Hall. apply andb_true_iff in Hall as [Ha _].
  change (head_in c (String a t +:+ r)) with (in_class c a).
  destruct (in_class c a) eqn:Hc; [|done].
  by rewrite (classes_disjoint_spec c c' a Hdis Hc) in Ha.
Qed.

(** What a pattern prints starts the way the pattern does. *)
Lemma head_render (c : cclass) (p : pattern) (m : groups)
    (gaps : list string) (rest : string) :
  p ≠ [] → first_rejects c p = true → conforms p m → spaced p gaps →
  head_in c (render p m gaps +:+ rest) = false.
Proof.
  intros Hne Hrej Hm Hgaps.
  destruct p as [|[[|b text]|c'|name c'] p]; try done; simpl in Hrej.
  - simpl. by apply negb_true_iff in Hrej.
  - unfold spaced in Hgaps. simpl in Hgaps.
    apply Forall2_cons_inv_l in Hgaps as (gap & gaps' & (Hg & Hall) & _ & ->).
    cbn [render]. rewrite <- app_string_assoc.
    by apply head_in_other with (c' := c').
  - unfold conforms in Hm. simpl in Hm.
    apply Forall2_cons_inv_l in Hm as ([n t] & m' & (_ & Ht & Hall) & _ & ->).
    cbn [render]. rewrite <- app_string_assoc.
    by apply head_in_other with (c' := c').
Qed.

(** The matcher reads back what [render] prints. *)
Lemma match_here_render (p : pattern) (m : groups) (gaps : list string)
    (rest : string) :
  separated p = true → conforms p m → spaced p gaps →
  (∀ c, last_class p = Some c → head_in c rest = false) →
  match_here p (render p m gaps +:+ rest) = Some (m, rest).
Proof.
  revert m gaps.
  induction p as [|tok p IH]; intros m gaps Hsep Hm Hgaps Hlast.
  - unfold conforms in Hm. simpl in Hm. apply Forall2_nil_inv_l in Hm as ->.
    done.
  - assert (p ≠ [] → ∀ c, last_class p = Some c → head_in c rest = false)
      as Hlast'.
    { intros Hp c Hc. apply Hlast. destruct p; [done|]. by destruct tok. }
    destruct tok as [text|c|name c].
    + cbn [render]. rewrite <- app_string_assoc, match_here_lit.
      destruct text; [done|]. simpl in Hsep.
      apply IH; [done | done | done |].
      intros c Hc. destruct p as [|tok p]; [done|]. by apply Hlast'.
    + simpl in Hsep. apply andb_true_iff in Hsep as [Hrej Hsep'].
      unfold spaced in Hgaps. cbn [pattern_gaps] in Hgaps.
      apply Forall2_cons_inv_l in Hgaps
        as (gap & gaps' & (Hg & Hall) & Hgaps' & ->).
      cbn [render]. rewrite <- app_string_assoc.
      destruct p as [|tok p].
      * cbn [render]. change ("" +:+ rest) with rest.
        rewrite match_here_plus; [| done | done | by apply Hlast | by left].
        unfold conforms in Hm. simpl in Hm.
        by apply Forall2_nil_inv_l in Hm as ->.
      * rewrite match_here_plus;
          [| done | done
           | by apply head_render | right; by apply first_rejects_sound].
        apply IH; [done | done | done | by apply Hlast'].
    + simpl in Hsep. apply andb_true_iff in Hsep as [Hrej Hsep'].
      unfold conforms in Hm. cbn [pattern_groups] in Hm.
      apply Forall2_cons_inv_l in Hm as ([n t] & m' & (Hn & Ht & Hall) & Hm' & ->).
      simpl in Hn, Ht, Hall. subst n.
      cbn [render]. rewrite <- app_string_assoc.
      destruct p as [|tok p].
      * cbn [render]. change ("" +:+ rest) with rest.
        rewrite match_here_group; [| done | done | by apply Hlast | by left].
        simpl in Hm'. apply Forall2_nil_inv_l in Hm' as ->. done.
      * rewrite match_here_group;
          [| done | done | by apply head_render
           | right; by apply first_rejects_sound].
        rewrite IH; [done | done | done | done | by apply Hlast'].
Qed.

Lemma patterns_separated (c : category) :
  separated (category_pattern c) = true.
Proof. by destruct c. Qed.

Lemma bracket_free_app (s1 s2 : string) :
  bracket_free (s1 +:+ s2) = bracket_free s1 && bracket_free s2.
Proof.
  unfold bracket_free. induction s1 as [|a s1 IH]; [done|].
  change (String a s1 +:+ s2) with (String a (s1 +:+ s2)).
  cbn [all_chars]. by rewrite IH, andb_assoc.
Qed.

Lemma class_bracket_free (c : cclass) (t : string) :
  all_chars (in_class c) t = true → bracket_free t = true.
Proof.
  unfold bracket_free. induction t as [|a t IH]; [done|].
  cbn [all_chars]. intros [Ha Ht]%andb_true_iff. rewrite (IH Ht), andb_true_r.
  destruct (Ascii.eqb_spec a "[") as [->|]; [|done].
  by destruct c.
Qed.

Lemma render_bracket_free (p : pattern) (m : groups) (gaps : list string) :
  lits_bracket_free p = true → conforms p m → spaced p gaps →
  bracket_free (render p m gaps) = true.
Proof.
  revert m gaps.
  induction p as [|[text|c|name c] p IH]; intros m gaps Hlits Hm Hgaps;
    [done|..].
  - simpl in Hlits. apply andb_true_iff in Hlits as [Ht Hlits].
    cbn [render]. rewrite bracket_free_app, Ht. by apply IH.
  - unfold spaced in Hgaps. cbn [pattern_gaps] in Hgaps.
    apply Forall2_cons_inv_l in Hgaps
      as (gap & gaps' & (_ & Hall) & Hgaps' & ->).
    cbn [render]. rewrite bracket_free_app.
    rewrite (class_bracket_free c gap Hall). by apply IH.
  - unfold conforms in Hm. cbn [pattern_groups] in Hm.
    apply Forall2_cons_inv_l in Hm as ([n t] & m' & (_ & _ & Hall) & Hm' & ->).
    cbn [render]. rewrite bracket_free_app.
    rewrite (class_bracket_free c t Hall). by apply IH.
Qed.

Lemma render_lit_head (lit : string) (p : pattern) (m : groups)
    (gaps : list string) :
  render (Lit (String "[" lit) :: p) m gaps
  = String "[" (lit +:+ render p m gaps).
Proof. reflexivity. Qed.

(** A rendered metric line opens with the bracket and has no other. *)
Lemma render_line_shape (c : category) (m : groups) (gaps : list string) :
  conforms (category_pattern c) m → spaced (category_pattern c) gaps →
  ∃ tail, render (category_pattern c) m gaps = String "[" tail
          ∧ bracket_free tail = true.
Proof.
  intros Hm Hgaps.
  destruct c;
    unfold category_pattern, STEP_STATS_RE, SPRITE_TOTALS_RE,
      SPRITE_BUCKET_AVG_RE, TOP_STEP_RE, TOP_MIX_RE in *;
    (eexists; split; [apply render_lit_head|]);
    rewrite bracket_free_app; (apply andb_true_iff; split; [reflexivity|]);
    (apply render_bracket_free;
     [reflexivity | unfold conforms in *; exact Hm
      | unfold spaced in *; exact Hgaps]).
Qed.

(** The pattern of a category matches its own lines in full. *)
Lemma match_own_line (c : category) (m : groups) (gaps : list string)
    (rest : string) :
  conforms (category_pattern c) m → spaced (category_pattern c) gaps →
  match_here (category_pattern c)
             (render (category_pattern c) m gaps +:+ String "010" rest)
  = Some (m, String "010" rest).
Proof.
  intros Hm Hgaps.
  apply match_here_render; [apply patterns_separated | done | done |].
  intros c0. by destruct c; intros [= <-].
Qed.

(** Stepping the matcher along a rendered line. *)
Ltac side_head :=
  first [ reflexivity
        | apply head_in_other with (c' := Digit);
          [done | done | reflexivity]
        | apply head_in_other with (c' := NumChar);
          [done | done | reflexivity]
        | apply head_in_other with (c' := Space);
          [done | done | reflexivity] ].

Ltac match_step :=
  first
    [ rewrite match_here_lit
    | rewrite match_here_plus;
      [ | done | done | side_head
        | right; apply first_rejects_sound; reflexivity ]
    | rewrite match_here_group;
      [ | done | done | side_head
        | first [ by left | right; apply first_rejects_sound; reflexivity ] ] ].

(** The texts of a conforming match, named one by one. *)
Ltac conforms_split H :=
  unfold conforms in H; cbn [pattern_groups] in H;
  repeat match type of H with
         | Forall2 _ (_ :: _) _ =>
             let n := fresh "n" in
             let t := fresh "t" in
             let Hn := fresh "Hn" in
             let Hne := fresh "Hne" in
             let Hall := fresh "Hall" in
             apply Forall2_cons_inv_l in H
               as ([n t] & ? & (Hn & Hne & Hall) & H & ->);
             cbn [fst snd] in Hn, Hne, Hall; subst n
         | Forall2 _ [] _ => apply Forall2_nil_inv_l in H as ->
         end.

Ltac spaced_split H :=
  unfold spaced in H; cbn [pattern_gaps] in H;
  repeat match type of H with
         | Forall2 _ (_ :: _) _ =>
             let gap := fresh "gap" in
             let Hne := fresh "Hgap" in
             let Hall := fresh "Hsp" in
             apply Forall2_cons_inv_l in H
               as (gap & ? & (Hne & Hall) & H & ->)
         | Forall2 _ [] _ => apply Forall2_nil_inv_l in H as ->
         end.

(** A mix line is a plain top-step line followed by the mix fields. *)
Lemma mix_line_split (m : groups) (gaps : list string) :
  conforms TOP_MIX_RE m → spaced TOP_MIX_RE gaps →
  conforms TOP_STEP_RE (take 2 m)
  ∧ spaced TOP_STEP_RE gaps
  ∧ conforms TOP_MIX_TAIL (drop 2 m)
  ∧ render TOP_MIX_RE m gaps
    = render TOP_STEP_RE (take 2 m) gaps
        +:+ " | sprite(fast=" +:+ render TOP_MIX_TAIL (drop 2 m) [].
Proof.
  unfold conforms.
  change (pattern_groups TOP_MIX_RE)
    with (pattern_groups TOP_STEP_RE ++ pattern_groups TOP_MIX_TAIL).
  intros (m1 & m2 & H1 & H2 & ->)%Forall2_app_inv_l Hgaps.
  assert (length m1 = 2%nat) as Hlen
    by (by rewrite <- (Forall2_length _ _ _ H1)).
  rewrite take_app_length' by done. rewrite drop_app_length' by done.
  split; [done|]. split; [exact Hgaps|]. split; [done|].
  destruct m1 as [|[n1 t1] [|[n2 t2] [|? ?]]]; try done.
  unfold TOP_MIX_RE in Hgaps. spaced_split Hgaps.
  unfold TOP_MIX_RE, TOP_STEP_RE. cbn [render app].
  rewrite <- !app_string_assoc. reflexivity.
Qed.

(** The mix pattern does not match a plain top-step line. *)
Lemma match_mix_on_top_step (m : groups) (gaps : list string)
    (rest : string) :
  conforms TOP_STEP_RE m → spaced TOP_STEP_RE gaps →
  match_here TOP_MIX_RE (render TOP_STEP_RE m gaps +:+ String "010" rest)
  = None.
Proof.
  intros Hm Hgaps. unfold TOP_STEP_RE in Hm, Hgaps.
  conforms_split Hm. spaced_split Hgaps.
  unfold TOP_MIX_RE, TOP_STEP_RE. cbn [render].
  rewrite <- !app_string_assoc.
  do 9 match_step. reflexivity.
Qed.

(** A literal that goes on, after a space, with a character that is not
    white space does not match across a run of white space followed by
    another text. *)
Lemma match_lit_across_gap (lit pre tail gap r : string) (x : ascii) :
  match_lit pre lit = Some (String " " (String x tail)) →
  is_space x = false → match_lit (String x tail) r = None →
  gap ≠ "" → all_chars (in_class Space) gap = true →
  match_lit lit (pre +:+ gap +:+ r) = None.
Proof.
  intros ->%match_lit_prefix Hx Hr Hgap Hall.
  induction pre as [|a pre IH].
  - change ("" +:+ gap +:+ r) with (gap +:+ r).
    change ("" +:+ String " " (String x tail))
      with (String " " (String x tail)).
    destruct gap as [|b gap]; [done|].
    change (String b gap +:+ r) with (String b (gap +:+ r)).
    cbn [match_lit]. destruct (Ascii.eqb " " b); [|done].
    destruct gap as [|b' gap]; [exact Hr|].
    change (String b' gap +:+ r) with (String b' (gap +:+ r)).
    cbn [match_lit]. destruct (Ascii.eqb_spec x b') as [->|]; [|done].
    simpl in Hall. apply andb_true_iff in Hall as [_ Hall].
    apply andb_true_iff in Hall as [Hb' _]. congruence.
  - change (String a pre +:+ ?y) with (String a (pre +:+ y)).
    cbn [match_lit]. by rewrite Ascii.eqb_refl.
Qed.

(** Apart from the top-step pattern on a mix line, the pattern of a category
    does not match at the start of a line of another. *)
Lemma match_other_line (c c' : category) (m : groups) (gaps : list string)
    (rest : string) :
  c ≠ c' → (c, c') ≠ (TopStep, TopStepMix) →
  conforms (category_pattern c') m → spaced (category_pattern c') gaps →
  match_here (category_pattern c)
             (render (category_pattern c') m gaps +:+ String "010" rest)
  = None.
Proof.
  intros Hne Hpair Hm Hgaps.
  destruct (decide ((c, c') = (TopStepMix, TopStep))) as [[= -> ->]|Hpair'].
  { by apply match_mix_on_top_step. }
  destruct c, c'; try done;
    unfold category_pattern, STEP_STATS_RE, SPRITE_TOTALS_RE,
      SPRITE_BUCKET_AVG_RE, TOP_STEP_RE, TOP_MIX_RE in *;
    conforms_split Hm; spaced_split Hgaps;
    try reflexivity;
    cbn [render match_here]; rewrite <- !app_string_assoc;
    (erewrite (match_lit_across_gap _ "[animation_profile]");
     [reflexivity | reflexivity | reflexivity | reflexivity | done | done]).
Qed.

Lemma occurrences_newline (c : category) (rest : string) :
  occurrences c (String "010" rest) = occurrences c rest.
Proof. by apply (occurrences_noise c (String "010" "")). Qed.

Lemma occurrences_empty (c : category) : occurrences c "" = [].
Proof. by destruct c. Qed.

(** What one line of the output contributes to a category. *)
Lemma occurrences_line (c : category) (l : line) (rest : string) :
  well_formed_line l →
  occurrences c (render_line l +:+ String "010" rest)
  = option_list (line_occurrence c l) ++ occurrences c rest.
Proof.
  destruct l as [text|c' m gaps]; simpl.
  - intros Hfree. by rewrite occurrences_noise, occurrences_newline.
  - intros [Hm Hgaps]. destruct (decide (c = c')) as [<-|Hne].
    + destruct (render_line_shape c m gaps Hm Hgaps) as (tail & Hshape & _).
      pose proof (match_own_line c m gaps rest Hm Hgaps) as Hown.
      rewrite Hshape in Hown |- *. unfold occurrences.
      rewrite (finditer_match _ _ _ _ _ Hown). simpl. f_equal.
      apply (occurrences_newline c rest).
    + destruct (decide ((c, c') = (TopStep, TopStepMix))) as [[= -> ->]|Hpair].
      * destruct (mix_line_split m gaps Hm Hgaps)
          as (Hstep & Hgaps' & Htail & Hsplit).
        destruct (render_line_shape TopStep _ _ Hstep Hgaps')
          as (tail & Hshape & _).
        change (category_pattern TopStepMix) with TOP_MIX_RE.
        change (category_pattern TopStep) with TOP_STEP_RE in *.
        rewrite Hsplit, <- app_string_assoc.
        set (remainder :=
               " | sprite(fast=" +:+ render TOP_MIX_TAIL (drop 2 m) []).
        assert (bracket_free remainder = true) as Hfree.
        { unfold remainder. rewrite bracket_free_app.
          apply andb_true_iff. split; [reflexivity|].
          apply render_bracket_free; [reflexivity | done | constructor]. }
        pose proof (match_here_render TOP_STEP_RE (take 2 m) gaps
                      (remainder +:+ String "010" rest)
                      eq_refl Hstep Hgaps' ltac:(done)) as Hown.
        rewrite Hshape in Hown |- *. unfold occurrences.
        change (category_pattern TopStep) with TOP_STEP_RE.
        rewrite (finditer_match _ _ _ _ _ Hown). simpl. f_equal.
        change (occurrences TopStep (remainder +:+ String "010" rest)
                = occurrences TopStep rest).
        by rewrite occurrences_noise, occurrences_newline.
      * replace (match c, c' with
                 | TopStep, TopStepMix => Some (take 2 m)
                 | _, _ => None
                 end) with (@None groups)
          by (destruct c, c'; done).
        pose proof (match_other_line c c' m gaps rest Hne Hpair Hm Hgaps)
          as Hother.
        destruct (render_line_shape c' m gaps Hm Hgaps)
          as (tail & Hshape & Hfree).
        rewrite Hshape in Hother |- *. unfold occurrences.
        change (String "[" tail +:+ String "010" rest)
          with (String "[" (tail +:+ String "010" rest)) in Hother |- *.
        rewrite (finditer_no_match _ _ _ Hother).
        change (occurrences c (tail +:+ String "010" rest)
                = occurrences c rest).
        by rewrite occurrences_noise, occurrences_newline.
Qed.

(** The occurrences of a category in an output of well-formed lines are the
    lines of that category, in source order; a mix line also counts for the
    plain top-step category, whose pattern is a prefix of its own. *)
Lemma occurrences_render (c : category) (ls : list line) :
  Forall well_formed_line ls →
  occurrences c (render_output ls) = omap (line_occurrence c) ls.
Proof.
  induction 1 as [|l ls Hl _ IH]; [apply occurrences_empty|].
  cbn [render_output]. rewrite (occurrences_line c l _ Hl), IH.
  change (omap (line_occurrence c) (l :: ls))
    with (match line_occurrence c l with
          | Some m => m :: omap (line_occurrence c) ls
          | None => omap (line_occurrence c) ls
          end).
  by destruct (line_occurrence c l).
Qed.

Lemma field_value_raise (c : category) (kv : string * string) (e : exn) :
  field_value c kv = Raise e → e = ValueError.
Proof.
  unfold field_value, py_int.
  destruct (is_float_field c kv.1).
  - destruct (py_float kv.2) eqn:Hf; simpl; [done|].
    intros [= <-]. by eapply py_float_raise.
  - destruct (_ && _); simpl; [done | by intros [= <-]].
Qed.

Lemma all_categories (c : category) : c ∈ categories.
Proof.
  unfold categories.
  destruct c;
    repeat first [apply list_elem_of_here | apply list_elem_of_further].
Qed.

(** The entry of a single-shot section is the record of the first
    occurrence. *)
Lemma section_entry_single (stdout : string) (c : category) :
  is_single_shot c = true →
  (∀ m, m ∈ kept c stdout → ∃ r, record_of c m = Ok r) →
  match occurrences c stdout with
  | [] => section_entry stdout c = []
  | m :: _ => ∃ r, record_of c m = Ok r
                   ∧ section_entry stdout c = [(category_key c, r)]
  end.
Proof.
  intros Hc Hok. unfold section_entry. rewrite Hc.
  assert (kept c stdout = option_list (head (occurrences c stdout))) as Hk
    by by destruct c.
  rewrite Hk in *. destruct (occurrences c stdout) as [|m ms]; simpl; [done|].
  destruct (Hok m) as [r Hr]; [by left|]. rewrite Hr. eauto.
Qed.

(** The entry of a repeating section lists the records of all occurrences,
    in order. *)
Lemma section_entry_repeating (stdout : string) (c : category) :
  is_single_shot c = false →
  (∀ m, m ∈ kept c stdout → ∃ r, record_of c m = Ok r) →
  ∃ records,
    Forall2 (fun m r => record_of c m = Ok r) (occurrences c stdout) records
    ∧ section_entry stdout c
      = match records with
        | [] => []
        | _ :: _ => [(category_key c, JArr records)]
        end.
Proof.
  intros Hc Hok. unfold section_entry. rewrite Hc.
  assert (kept c stdout = occurrences c stdout) as Hk by by destruct c.
  rewrite Hk in *.
  destruct (traverse_all_ok _ _ Hok) as [records Ht]. rewrite Ht.
  exists records. split; [by apply traverse_Forall2 | by destruct records].
Qed.

(** C3. Whatever the trial output, the data the extractor yields has at
    most one entry per category, in the fixed category order; the entry of
    a single-shot category (StepStats, Totals, BucketAverage) is the record
    of the first occurrence of its pattern, later occurrences being ignored;
    the entry of a repeating category (TopStep, TopStepMix) lists exactly
    one record per occurrence, in source order.  The extractor does yield
    data whenever the fields of the matches it keeps pass their numeric
    grammar.  Text outside the occurrences is ignored: an output without
    occurrences yields empty data, outputs with the same occurrences yield
    the same data, and leading text that cannot start a match changes
    nothing.  In an output made of well-formed lines (a full match of one of
    the five patterns, or a text without an opening bracket) the occurrences
    of a category are its lines, in source order, the other lines
    contributing nothing; a mix line, which begins like a plain top-step
    line, is an occurrence of both repeating categories. *)
Theorem extractor_records (stdout : string) :
  (∀ data, parse_profile_output stdout = Ok data →
     sublist (map fst data) (map category_key categories)
     ∧ (∀ c, is_single_shot c = true →
          match occurrences c stdout with
          | [] => assoc_get (category_key c) data = None
          | first :: later =>
              ∃ r, record_of c first = Ok r
                   ∧ assoc_get (category_key c) data = Some r
          end)
     ∧ (∀ c, is_single_shot c = false →
          ∃ records,
            Forall2 (fun m r => record_of c m = Ok r)
                    (occurrences c stdout) records
            ∧ assoc_get (category_key c) data
              = match records with
                | [] => None
                | _ :: _ => Some (JArr records)
                end))
  ∧ ((∀ c m kv, m ∈ kept c stdout → kv ∈ m → ∃ v, field_value c kv = Ok v) →
     ∃ data, parse_profile_output stdout = Ok data)
  ∧ ((∀ c, occurrences c stdout = []) → parse_profile_output stdout = Ok [])
  ∧ (∀ other, (∀ c, occurrences c other = occurrences c stdout) →
       parse_profile_output other = parse_profile_output stdout)
  ∧ (∀ noise, bracket_free noise = true →
       parse_profile_output (noise +:+ stdout) = parse_profile_output stdout)
  ∧ (∀ lines, Forall well_formed_line lines → stdout = render_output lines →
       ∀ c, occurrences c stdout = omap (line_occurrence c) lines).
Proof.
  pose proof all_categories as Hcat.
  split; [|split; [|split; [|split; [|split]]]].
  - intros data Hparse. rewrite parse_sections in Hparse.
    destruct (sections_total stdout categories [])
      as [[Hdata Hok]|[Hraise _]]; [|congruence].
    rewrite Hdata in Hparse.
    assert (data = flat_map (section_entry stdout) categories) as ->.
    { injection Hparse as <-. reflexivity. }
    clear Hparse.
    split; [apply section_keys_sublist|]. split.
    + intros c Hc. rewrite assoc_get_sections.
      pose proof (section_entry_single stdout c Hc
                    (fun m => Hok c m (Hcat c))) as Hentry.
      destruct (occurrences c stdout) as [|m ms].
      * by rewrite Hentry.
      * destruct Hentry as (r & Hr & ->). exists r. split; [done|].
        simpl. by rewrite String.eqb_refl.
    + intros c Hc. rewrite assoc_get_sections.
      destruct (section_entry_repeating stdout c Hc
                  (fun m => Hok c m (Hcat c))) as (records & Hall & ->).
      exists records. split; [done|].
      destruct records; [done|]. simpl. by rewrite String.eqb_refl.
  - intros Hfields. rewrite parse_sections.
    destruct (sections_total stdout categories [])
      as [[Hdata _]|(_ & c & m & _ & Hm & Hr)]; [eauto|].
    pose proof (occurrences_conform _ _ _ (kept_occurrences _ _ _ Hm)) as Hconf.
    destruct (record_of_fields_ok c m Hconf (fun kv => Hfields c m kv Hm))
      as [r Hr'].
    congruence.
  - intros Hnone. rewrite parse_sections.
    assert (∀ c, kept c stdout = []) as Hkept.
    { intros c. unfold kept. rewrite Hnone. by destruct c. }
    destruct (sections_total stdout categories [])
      as [[-> _]|(_ & c & m & _ & Hm & _)].
    + assert (∀ c, section_entry stdout c = []) as Hentry.
      { intros c. unfold section_entry. rewrite Hkept.
        by destruct (is_single_shot c). }
      unfold categories. cbn [flat_map]. by rewrite !Hentry.
    + rewrite Hkept in Hm. by apply elem_of_nil in Hm.
  - intros other. apply parse_same_occurrences.
  - intros noise. apply parse_noise.
  - intros lines Hlines -> c. by apply occurrences_render.
Qed.

(** The integer fields are captured by [\d+], which [int] accepts as far as
    its grammar goes; the interpreter's limit on the length of an integer
    text, beyond which [int] raises [ValueError] as well, is not
    modelled. *)
Lemma int_fields_pass (c : category) (m : groups) (kv : string * string) :
  conforms (category_pattern c) m → kv ∈ m → is_float_field c kv.1 = false →
  ∃ z, py_int kv.2 = Ok z.
Proof.
  intros Hm Hin Hint. destruct c; conforms_inv Hm.
  all: repeat (apply elem_of_cons in Hin as [->|Hin]);
    try (by apply elem_of_nil in Hin);
    try discriminate Hint; simpl; ints_ok; eauto.
Qed.

(** C6. When a match the extractor keeps has a named numeric field whose
    text fails the field's numeric grammar, the extractor raises
    [ValueError] (the fatal malformed-metric error): no data is returned,
    the record is not dropped and the field is not skipped. *)
Theorem malformed_field_is_fatal (stdout : string) (c : category)
    (m : groups) (kv : string * string) (e : exn) :
  m ∈ kept c stdout → kv ∈ m → field_value c kv = Raise e →
  e = ValueError ∧ parse_profile_output stdout = Raise ValueError.
Proof.
  intros Hm Hkv He.
  pose proof (occurrences_conform _ _ _ (kept_occurrences _ _ _ Hm)) as Hconf.
  pose proof (field_value_raise _ _ _ He) as ->.
  split; [done|]. rewrite parse_sections.
  destruct (sections_total stdout categories [])
    as [[_ Hok]|[Hraise _]]; [|done].
  destruct (Hok c m (all_categories c) Hm) as [r Hr].
  by rewrite (record_of_field_fails c m kv _ Hconf Hkv He) in Hr.
Qed.

(** ** Properties of the table formatter *)

Lemma len_spaces (n : nat) : len (spaces n) = n.
Proof. induction n as [|n IH]; simpl; [done | by rewrite IH]. Qed.

(** A right-justified cell is as long as the wider of width and cell. *)
Lemma len_rjust (width : nat) (cell : string) :
  len (rjust width cell) = Nat.max width (len cell).
Proof. unfold rjust. rewrite len_app, len_spaces. lia. Qed.

Lemma widen_all_lookup (widths : list nat) (row : list string) (idx : nat) :
  widen_all widths row !! idx
  = (fun w => Nat.max w (from_option len 0%nat (row !! idx)))
      <$> widths !! idx.
Proof. unfold widen_all. apply list_lookup_imap. Qed.

Lemma widen_all_nil (widths : list nat) : widen_all widths [] = widths.
Proof.
  apply list_eq. intros idx. rewrite widen_all_lookup.
  destruct (widths !! idx) as [w|]; simpl; [f_equal; lia | done].
Qed.

Lemma widen_all_snoc (widths : list nat) (row : list string) (cell : string)
    (w : nat) :
  widths !! length row = Some w →
  <[length row := Nat.max (Nat.max w (from_option len 0%nat
                                        (row !! length row)))
                          (len cell)]> (widen_all widths row)
  = widen_all widths (row ++ [cell]).
Proof.
  intros Hw. rewrite (lookup_ge_None_2 row (length row)) by lia. simpl.
  apply list_eq. intros idx. rewrite widen_all_lookup.
  destruct (decide (idx = length row)) as [->|Hne].
  - rewrite list_lookup_insert_eq
      by (unfold widen_all; rewrite length_imap; by eapply lookup_lt_Some).
    rewrite Hw, lookup_app_r, Nat.sub_diag by lia. simpl. f_equal. lia.
  - rewrite list_lookup_insert_ne by done. rewrite widen_all_lookup.
    destruct (widths !! idx) as [w'|]; simpl; [|done]. do 2 f_equal.
    destruct (decide (idx < length row)%nat).
    + by rewrite lookup_app_l.
    + rewrite !lookup_ge_None_2; [done | | lia].
      rewrite length_app. simpl. lia.
Qed.

(** The inner loop of [format_table] on a row that fits. *)
Lemma widen_row_ok (widths : list nat) (row : list string) :
  (length row ≤ length widths)%nat →
  for_each widen (enumerate row) widths = Ok (widen_all widths row).
Proof.
  induction row as [|cell row IH] using rev_ind; intros Hlen.
  - by rewrite widen_all_nil.
  - rewrite length_app in Hlen. simpl in Hlen.
    unfold enumerate in *. rewrite imap_app, for_each_app, IH by lia.
    simpl. unfold widen. simpl. rewrite Nat.add_0_r, widen_all_lookup.
    destruct (lookup_lt_is_Some_2 widths (length row)) as [w Hw]; [lia|].
    rewrite Hw. simpl. f_equal. by apply widen_all_snoc.
Qed.

(** The inner loop on a row longer than the width list. *)
Lemma widen_row_long (widths : list nat) (row : list string) :
  (length widths < length row)%nat →
  for_each widen (enumerate row) widths = Raise IndexError.
Proof.
  intros Hlen.
  rewrite <- (take_drop (length widths) row).
  destruct (drop (length widths) row) as [|cell rest] eqn:Hdrop.
  { apply (f_equal length) in Hdrop. rewrite length_drop in Hdrop.
    simpl in Hdrop. lia. }
  assert (length (take (length widths) row) = length widths) as Htake
    by (rewrite length_take; lia).
  unfold enumerate. rewrite imap_app, for_each_app.
  fold (enumerate (take (length widths) row)).
  rewrite widen_row_ok by lia. simpl. unfold widen. simpl.
  rewrite Htake, Nat.add_0_r, widen_all_lookup.
  by rewrite (lookup_ge_None_2 widths (length widths)) by lia.
Qed.

Lemma length_widen_all (widths : list nat) (row : list string) :
  length (widen_all widths row) = length widths.
Proof. unfold widen_all. apply length_imap. Qed.

(** The outer loop of [format_table] when every row fits. *)
Lemma widen_rows_ok (rows : list (list string)) (widths : list nat) :
  Forall (fun row => (length row ≤ length widths)%nat) rows →
  for_each (fun ws row => for_each widen (enumerate row) ws) rows widths
  = Ok (foldl widen_all widths rows).
Proof.
  intros Hall. revert widths Hall.
  induction rows as [|row rows IH]; intros widths Hall; simpl; [done|].
  apply Forall_cons in Hall as [Hrow Hall].
  rewrite widen_row_ok by done. simpl. apply IH.
  eapply Forall_impl; [exact Hall|]. intros r. simpl.
  by rewrite length_widen_all.
Qed.

Lemma foldl_widen_all_lookup (rows : list (list string)) (widths : list nat)
    (idx : nat) :
  foldl widen_all widths rows !! idx
  = (fun w => Nat.max w (column_width rows idx)) <$> widths !! idx.
Proof.
  revert widths. induction rows as [|row rows IH]; intros widths; simpl.
  - destruct (widths !! idx); simpl; [f_equal; lia | done].
  - rewrite IH, widen_all_lookup.
    destruct (widths !! idx); simpl; [f_equal; lia | done].
Qed.

(** The widths [format_table] arrives at are the widths the columns need. *)
Lemma final_widths (rows : list (list string)) (n idx : nat) :
  (idx < n)%nat →
  foldl widen_all (replicate n 0%nat) rows !! idx
  = Some (column_width rows idx).
Proof.
  intros Hidx. rewrite foldl_widen_all_lookup, lookup_replicate_2 by done.
  reflexivity.
Qed.

Lemma pad_row_aligned (rows : list (list string)) (widths : list nat)
    (row : list string) :
  (∀ idx, (idx < length row)%nat →
          widths !! idx = Some (column_width rows idx)) →
  pad_row widths row = aligned_row rows row.
Proof.
  intros Hw. unfold pad_row, aligned_row, enumerate. f_equal.
  change (map ?f ?l) with (f <$> l). rewrite fmap_imap.
  apply imap_ext. intros idx cell Hcell. simpl.
  by rewrite (Hw idx (lookup_lt_Some _ _ _ Hcell)).
Qed.

(** When no row is longer than the first, [format_table] returns the rows
    with every cell right-justified to the width its column needs across
    all rows, cells joined by two spaces and rows by a newline. *)
Lemma format_table_aligned (first : list string) (rest : list (list string)) :
  Forall (fun row => (length row ≤ length first)%nat) rest →
  format_table (first :: rest)
  = Ok (join (String "010" "")
             (map (aligned_row (first :: rest)) (first :: rest))).
Proof.
  intros Hall. unfold format_table.
  rewrite widen_rows_ok.
  2:{ rewrite length_replicate. by constructor. }
  cbn [mbind result_bind rbind]. do 2 f_equal.
  apply map_ext_in. intros row Hrow. apply pad_row_aligned.
  intros idx Hidx. apply final_widths.
  apply list_elem_of_In in Hrow. apply elem_of_cons in Hrow as [->|Hrow]; [done|].
  rewrite Forall_forall in Hall. specialize (Hall row Hrow). simpl in Hall. lia.
Qed.

(** A row longer than the first makes [format_table] raise. *)
Lemma format_table_long_row (first : list string) (pre post : list (list string))
    (row : list string) :
  Forall (fun r => (length r ≤ length first)%nat) pre →
  (length first < length row)%nat →
  format_table (first :: pre ++ row :: post) = Raise IndexError.
Proof.
  intros Hpre Hrow. unfold format_table.
  change (first :: pre ++ row :: post) with ((first :: pre) ++ row :: post).
  rewrite for_each_app, widen_rows_ok.
  2:{ rewrite length_replicate. by constructor. }
  cbn [mbind result_bind rbind for_each].
  rewrite widen_row_long; [done|].
  assert (∀ rows ws, length (foldl widen_all ws rows) = length ws) as Hlen.
  { induction rows as [|r rows IH]; intros ws; simpl; [done|].
    by rewrite IH, length_widen_all. }
  by rewrite Hlen, length_replicate.
Qed.

(** Every padded cell is exactly as wide as its column. *)
Lemma aligned_cell_width (rows : list (list string)) (row : list string)
    (idx : nat) (cell : string) :
  row ∈ rows → row !! idx = Some cell →
  len (rjust (column_width rows idx) cell) = column_width rows idx.
Proof.
  intros Hrow Hcell. rewrite len_rjust.
  assert (len cell ≤ column_width rows idx)%nat; [|lia].
  unfold column_width. induction Hrow as [row rows|row r rows _ IH].
  - cbn [max_list_with]. rewrite Hcell. simpl. apply Nat.le_max_l.
  - cbn [max_list_with]. etrans; [by apply IH | apply Nat.le_max_r].
Qed.

Section Table.
Context `{PyFormat}.

(** The table of a report whose labels were each observed in at most
    [runs] report entries is the aligned table of its rows. *)
Lemma table_rows_fit (nruns : Z) (has_baseline : bool)
    (baseline_map : gmap string json) (label : string) (s : slot)
    (row : list string) (entry : json) :
  runs s ≠ [] → (length (runs s) ≤ Z.to_nat nruns)%nat →
  summarise has_baseline baseline_map label s = Ok (row, entry) →
  (length row ≤ length (header nruns has_baseline))%nat
  ∧ (length (runs s) = Z.to_nat nruns →
     length row = length (header nruns has_baseline)).
Proof.
  intros Hne Hlen Hsum.
  destruct (delta_of has_baseline baseline_map label
              (arithmetic_mean (runs s))) as [[dc dp]|e] eqn:Hd.
  - rewrite (summarise_ok _ _ _ _ dc dp Hne Hd) in Hsum.
    injection Hsum as <- _. unfold header, trial_indices.
    rewrite !length_app, !length_map, length_seq.
    destruct has_baseline; simpl; rewrite length_app, length_map; simpl;
      split; lia.
  - by rewrite (summarise_raise _ _ _ _ e Hne Hd) in Hsum.
Qed.

Lemma summarise_all_no_baseline (cases : gmap string slot) :
  slots_nonempty cases →
  ∃ summaries,
    summarise_all false ∅ cases = Ok summaries
    ∧ Forall2 (fun label rs =>
                 ∃ s, cases !! label = Some s
                      ∧ summarise false ∅ label s = Ok rs)
              (sorted_labels cases) summaries.
Proof.
  intros Hne.
  destruct (traverse_all_ok
              (fun label =>
                 match cases !! label with
                 | Some s => summarise false ∅ label s
                 | None => Raise (KeyError label)
                 end) (sorted_labels cases)) as [summaries Hsum].
  - intros label Hin.
    assert (label ∈ map fst (map_to_list cases)) as Hkey.
    { unfold sorted_labels in Hin. by rewrite merge_sort_Permutation in Hin. }
    apply list_elem_of_fmap in Hkey as ([l s] & -> & Hls).
    apply elem_of_map_to_list in Hls. simpl. rewrite Hls.
    rewrite (summarise_ok false ∅ l s "" None); [eauto | by eapply Hne | done].
  - exists summaries. split; [exact Hsum|]. by apply summarise_all_inv.
Qed.

(** Without a baseline, a run whose trials all pass and in which no label
    was observed more often than there are trials completes. *)
Lemma report_of_completes (a : args) (ctx : context) (harness : nat → trial)
    (fs : filesystem) (cases : gmap string slot)
    (bench_meta : option (list (string * json))) :
  arg_baseline a = "" →
  for_each (run_trial harness) (trial_indices (arg_runs a)) (∅, None)
    = Ok (cases, bench_meta) →
  (∀ label s, cases !! label = Some s →
              (length (runs s) ≤ Z.to_nat (arg_runs a))%nat) →
  ∃ rows text payload, report_of a ctx harness fs = Ok (rows, text, payload).
Proof.
  intros Hnone Hloop Hfit.
  pose proof (trial_loop_nonempty _ _ _ _ Hloop) as Hne.
  destruct (summarise_all_no_baseline cases Hne) as (summaries & Hsum & Hall).
  assert (Forall (fun row => (length row ≤ length (header (arg_runs a) false))%nat)
                 (map fst summaries)) as Hrows.
  { clear -Hall Hne Hfit.
    induction Hall as [|label [row entry] ls rss (s & Hs & Hrs) _ IH]; simpl;
      constructor; [|done].
    by destruct (table_rows_fit (arg_runs a) false ∅ label s row entry
                   (Hne _ _ Hs) (Hfit _ _ Hs) Hrs). }
  eexists _, _, _. apply report_of_Ok. rewrite Hnone. simpl.
  eexists ∅, None, cases, bench_meta, summaries, _.
  split; [done|]. split; [exact Hloop|]. split; [exact Hsum|].
  split; [reflexivity|]. split; [reflexivity|]. split; [|reflexivity].
  by apply format_table_aligned.
Qed.

(** A label observed more often than there are trials (a report listing it
    twice) makes the table formatter raise. *)
Lemma format_table_some_long (first : list string) (rest : list (list string)) :
  Exists (fun row => (length first < length row)%nat) rest →
  format_table (first :: rest) = Raise IndexError.
Proof.
  intros Hlong. unfold format_table. cbn [for_each].
  rewrite widen_row_ok by (by rewrite length_replicate).
  cbn [mbind result_bind rbind].
  assert (∀ ws, length ws = length first →
                for_each (fun ws row => for_each widen (enumerate row) ws)
                         rest ws = Raise IndexError) as Hloop.
  { induction Hlong as [row rows Hrow|row rows _ IH]; intros ws Hws;
      cbn [for_each].
    - by rewrite widen_row_long by lia.
    - destruct (decide (length row ≤ length ws)%nat).
      + rewrite widen_row_ok by done. cbn [mbind result_bind rbind].
        apply IH. by rewrite length_widen_all.
      + by rewrite widen_row_long by lia. }
  rewrite Hloop; [done|]. by rewrite length_widen_all, length_replicate.
Qed.

(** The report of the ragged sample run. *)
Lemma ragged_report (ctx : context) (fs : filesystem) :
  ∃ row_a table text payload,
    report_of ragged_args ctx ragged_harness fs
      = Ok ([["system"; "run1"; "run2"; "mean"; "stddev"; "budget"];
             row_a;
             ["b"; fmt_3f 4; fmt_3f (arithmetic_mean [4]%R);
              fmt_3f (reported_stddev [4]%R); fmt_3f 9]], text, payload)
    ∧ format_table [["system"; "run1"; "run2"; "mean"; "stddev"; "budget"];
                    row_a;
                    ["b"; fmt_3f 4; fmt_3f (arithmetic_mean [4]%R);
                     fmt_3f (reported_stddev [4]%R); fmt_3f 9]]
      = Ok table.
Proof.
  set (cases0 := foldl observe ∅
                   [entry_of "a" 5 1; entry_of "b" 9 4; entry_of "a" 5 3]).
  assert (for_each (run_trial ragged_harness) (trial_indices 2) (∅, None)
          = Ok (cases0, None)) as Hloop by reflexivity.
  assert (sorted_labels cases0 = ["a"; "b"]) as Hsorted
    by (vm_compute; reflexivity).
  assert (cases0 !! "a" = Some (slot_of (entry_of "a" 5 1) [1; 3]%R)) as Ha
    by (vm_compute; reflexivity).
  assert (cases0 !! "b" = Some (slot_of (entry_of "b" 9 4) [4]%R)) as Hb
    by (vm_compute; reflexivity).
  assert (header 2 false
          = ["system"; "run1"; "run2"; "mean"; "stddev"; "budget"]) as Hhdr
    by (vm_compute; reflexivity).
  destruct (summarise false ∅ "a" (slot_of (entry_of "a" 5 1) [1; 3]%R))
    as [[row_a entry_a]|] eqn:Hsa.
  2:{ by rewrite (summarise_ok false ∅ "a" _ "" None) in Hsa. }
  pose proof (summarise_ok false ∅ "b" (slot_of (entry_of "b" 9 4) [4]%R)
                "" None) as Hsb.
  simpl in Hsb. specialize (Hsb ltac:(done) eq_refl).
  destruct (table_rows_fit 2 false ∅ "a"
              (slot_of (entry_of "a" 5 1) [1; 3]%R) row_a entry_a)
    as [Hfit _]; [done | simpl; lia | exact Hsa |].
  rewrite Hhdr in Hfit.
  eexists row_a, _, _, _.
  split.
  - apply report_of_Ok.
    change (negb (String.eqb (arg_baseline ragged_args) "")) with false.
    change (arg_runs ragged_args) with 2%Z.
    eexists ∅, None, cases0, None, [(row_a, entry_a); _], _.
    split; [done|]. split; [exact Hloop|]. split.
    { unfold summarise_all. rewrite Hsorted. cbn [traverse].
      rewrite Ha, Hb, Hsa, Hsb. reflexivity. }
    split; [by rewrite <- Hhdr|]. split; [reflexivity|]. split; [|reflexivity].
    apply format_table_aligned.
    apply Forall_cons; split; [done|].
    apply Forall_cons; split; [simpl; lia | constructor].
  - apply format_table_aligned.
    apply Forall_cons; split; [done|].
    apply Forall_cons; split; [simpl; lia | constructor].
Qed.

(** C9, at an input where it fails: two trials, the case [b] reported in
    the first only.  The header has the columns system, run1, run2, mean,
    stddev, budget; the row of [b] has one run cell, so its mean stands
    under run2, its standard deviation under mean, its budget under stddev,
    and nothing under budget. *)
Theorem ragged_trials_shift_columns (ctx : context) (fs : filesystem) :
  ∃ row_a table text payload,
    let hdr := ["system"; "run1"; "run2"; "mean"; "stddev"; "budget"] in
    let row_b := ["b"; fmt_3f 4; fmt_3f (arithmetic_mean [4]%R);
                  fmt_3f (reported_stddev [4]%R); fmt_3f 9] in
    report_of ragged_args ctx ragged_harness fs
      = Ok ([hdr; row_a; row_b], text, payload)
    ∧ format_table [hdr; row_a; row_b] = Ok table
    ∧ hdr !! 3%nat = Some "mean"
    ∧ row_b !! 3%nat = Some (fmt_3f (reported_stddev [4]%R))
    ∧ hdr !! 5%nat = Some "budget"
    ∧ row_b !! 5%nat = None.
Proof.
  destruct (ragged_report ctx fs) as (row_a & table & text & payload & ? & ?).
  by exists row_a, table, text, payload.
Qed.
End Table.

(** ** Further properties of sprite_bench.py *)

Lemma observe_lookup (cases : gmap string slot) (entry : case_entry)
    (label : string) :
  observe cases entry !! label
  = if decide (ce_label entry = label)
    then Some (match cases !! label with
               | Some s =>
                   {| units := units s; count := count s; budget := budget s;
                      steps := steps s; samples := samples s;
                      runs := runs s ++ [ce_mean_step_ms entry] |}
               | None => slot_of entry [ce_mean_step_ms entry]
               end)
    else cases !! label.
Proof.
  unfold observe. destruct (decide (ce_label entry = label)) as [<-|Hne].
  - rewrite lookup_insert_eq. by destruct (cases !! ce_label entry).
  - by rewrite lookup_insert_ne.
Qed.

Lemma foldl_observe_lookup (entries : list case_entry)
    (cases : gmap string slot) (label : string) :
  foldl observe cases entries !! label
  = match cases !! label with
    | Some s =>
        Some {| units := units s; count := count s; budget := budget s;
                steps := steps s; samples := samples s;
                runs := runs s ++ map ce_mean_step_ms (labelled label entries) |}
    | None => collected label entries
    end.
Proof.
  revert cases. induction entries as [|entry entries IH]; intros cases.
  - simpl. destruct (cases !! label) as [[]|]; [|done].
    simpl. by rewrite app_nil_r.
  - cbn [foldl]. rewrite IH, observe_lookup. unfold collected, labelled.
    destruct (decide (ce_label entry = label)) as [Heq|Hne].
    + rewrite filter_cons_True by done.
      destruct (cases !! label) as [s|]; simpl.
      * by rewrite <- app_assoc.
      * reflexivity.
    + rewrite filter_cons_False by done. done.
Qed.

Lemma trial_loop_state (harness : nat → trial) (idxs : list nat)
    (st st' : loop_state) :
  for_each (run_trial harness) idxs st = Ok st' →
  st'.1 = foldl observe st.1
                (flat_map (fun idx => trial_entries (harness idx)) idxs)
  ∧ st'.2 = match st.2 with
            | Some meta => Some meta
            | None =>
                head (filter (fun meta => meta ≠ [])
                             (map (fun idx => trial_metadata (harness idx))
                                  idxs))
            end.
Proof.
  revert st. induction idxs as [|idx idxs IH]; intros st.
  - simpl. intros [= <-]. by destruct st as [cases [meta|]].
  - cbn [for_each]. intros (mid & Hstep & Hrest)%rbind_Ok.
    destruct (IH _ Hrest) as [Hcases Hmeta]. clear IH Hrest.
    unfold run_trial in Hstep.
    destruct (run_once (harness idx)); simpl in Hstep; [|done].
    unfold trial_entries, trial_metadata. cbn [flat_map map].
    destruct (read_report (report_after (harness idx))) as [[meta entries]|];
      simpl in Hstep; [|done].
    injection Hstep as <-. simpl in Hcases, Hmeta.
    rewrite foldl_app. split; [exact Hcases|].
    rewrite Hmeta. destruct st as [cases [m|]]; simpl; [done|].
    destruct meta as [|kv meta].
    + by rewrite filter_cons_False by (intros Hne; by apply Hne).
    + by rewrite filter_cons_True by done.
Qed.

(** X1.  The trial loop of [main] files every report entry under its label: a
    label that some report carried has a slot with the metadata of its first
    entry and one value per entry, in the order the reports were read; a
    label no report carried has none. *)
Theorem trial_loop_collects (harness : nat → trial) (idxs : list nat)
    (cases : gmap string slot) (bench_meta : option (list (string * json)))
    (label : string) :
  for_each (run_trial harness) idxs (∅, None) = Ok (cases, bench_meta) →
  cases !! label
  = collected label (flat_map (fun idx => trial_entries (harness idx)) idxs).
Proof.
  intros [Hcases _]%trial_loop_state. simpl in Hcases. rewrite Hcases.
  rewrite foldl_observe_lookup. by rewrite lookup_empty.
Qed.

(** X2.  The metadata [main] reports is that of the first trial whose report has
    a non-empty one; later reports do not replace it. *)
Theorem bench_meta_is_first_nonempty (harness : nat → trial)
    (idxs : list nat) (cases : gmap string slot)
    (bench_meta : option (list (string * json))) :
  for_each (run_trial harness) idxs (∅, None) = Ok (cases, bench_meta) →
  bench_meta
  = head (filter (fun meta => meta ≠ [])
                 (map (fun idx => trial_metadata (harness idx)) idxs)).
Proof. by intros [_ Hmeta]%trial_loop_state. Qed.

Section MoreOfMain.
Context `{PyFormat}.

Lemma summarise_row_head (has_baseline : bool)
    (baseline_map : gmap string json) (label : string) (s : slot)
    (row : list string) (entry : json) :
  summarise has_baseline baseline_map label s = Ok (row, entry) →
  head row = Some label.
Proof.
  unfold summarise.
  intros (mean_val & _ & (std_val & _ & ([cell delta] & _ & Hrow)%rbind_Ok)
                                         %rbind_Ok)%rbind_Ok.
  by injection Hrow as <- _.
Qed.

(** X3.  The data rows of the table and the systems of the payload follow the
    labels in ascending order (by code point), each label once. *)
Theorem report_sorted_by_label (a : args) (ctx : context)
    (harness : nat → trial) (fs : filesystem) (rows : list (list string))
    (text : string) (payload : json) :
  report_of a ctx harness fs = Ok (rows, text, payload) →
  ∃ hdr data labels,
    rows = hdr :: data
    ∧ Forall2 (fun label row => head row = Some label) labels data
    ∧ Forall2 (fun label entry => entry_label entry = Some label)
              labels (payload_systems payload)
    ∧ StronglySorted String.le labels
    ∧ NoDup labels.
Proof.
  intros (baseline_map & baseline_meta & cases & bench_meta & summaries
          & table & _ & Hloop & Hsum & -> & -> & _)%report_of_Ok.
  pose proof (trial_loop_nonempty _ _ _ _ Hloop) as Hne.
  apply summarise_all_inv in Hsum.
  eexists _, _, (sorted_labels cases). split; [reflexivity|].
  rewrite payload_systems_summary_payload.
  split; [|split; [|split]].
  - apply Forall2_fmap_r. eapply Forall2_impl; [exact Hsum|].
    intros label [row entry] (s & _ & Hs). simpl.
    by eapply summarise_row_head.
  - apply Forall2_fmap_r. eapply Forall2_impl; [exact Hsum|].
    intros label [row entry] (s & Hlookup & Hs). simpl.
    by destruct (summarise_entry _ _ _ _ _ _ (Hne _ _ Hlookup) Hs) as [? _].
  - apply StronglySorted_merge_sort; apply _.
  - apply sorted_labels_NoDup.
Qed.

(** X4.  [main] changes no file but its two artefacts, and it writes the
    text artefact before the JSON artefact.  A run that returns has returned
    0 with both written.  A run that raises before the writes, or whose
    text write is refused, leaves the files as they were.  A run whose JSON
    write is refused raises that error with the text artefact already
    written and the JSON artefact as it was. *)
Theorem main_touches_only_artefacts (a : args) (ctx : context)
    (harness : nat → trial) (fs fs' : filesystem) (r : result Z) :
  main a ctx harness fs = (r, fs') →
  (∀ path, path ≠ text_path a → path ≠ json_path a →
           fs' !! path = fs !! path)
  ∧ (r = Ok 0%Z ∧ is_Some (fs' !! text_path a) ∧ is_Some (fs' !! json_path a)
     ∨ (∃ e, r = Raise e ∧ fs' = fs
             ∧ (report_of a ctx harness fs = Raise e
                ∨ write_error ctx (text_path a) = Some e))
     ∨ (∃ e rows text payload,
          r = Raise e
          ∧ report_of a ctx harness fs = Ok (rows, text, payload)
          ∧ write_error ctx (text_path a) = None
          ∧ write_error ctx (json_path a) = Some e
          ∧ fs' = <[text_path a := TextFile text]> fs
          ∧ fs' !! json_path a = fs !! json_path a)).
Proof.
  unfold main, write_text.
  destruct (report_of a ctx harness fs) as [[[rows text] payload]|e]
    eqn:Hrep.
  - destruct (write_error ctx (text_path a)) as [e1|] eqn:Htext.
    { intros [= <- <-]. split; [done|]. right. left. exists e1. eauto. }
    destruct (write_error ctx (json_path a)) as [e2|] eqn:Hjson.
    + intros [= <- <-]. split.
      * intros path Hpath _. by rewrite lookup_insert_ne.
      * right. right. exists e2, rows, text, payload.
        split; [done|]. split; [done|]. split; [done|]. split; [done|].
        split; [done|].
        apply lookup_insert_ne, json_text_paths_differ.
    + intros [= <- <-]. split.
      * intros path Hpath Hother. by rewrite !lookup_insert_ne.
      * left. split; [done|]. split.
        -- rewrite lookup_insert_ne
             by (intros Heq; by apply (json_text_paths_differ a)).
           rewrite lookup_insert_eq. eauto.
        -- rewrite lookup_insert_eq. eauto.
  - intros [= <- <-]. split; [done|]. right. left. exists e. eauto.
Qed.

Lemma run_trial_missing_report (harness : nat → trial) (st : loop_state)
    (k : nat) :
  returncode (harness k) = 0%Z → report_after (harness k) = None →
  run_trial harness st k = Raise FileNotFoundError.
Proof. intros Hrc Hrep. unfold run_trial, run_once. by rewrite Hrc, Hrep. Qed.

(** X5.  When a trial exits with status 0 but leaves no report at the report
    path, the run raises and writes nothing; when the baseline (if any)
    loaded and the trials before passed, the exception is
    [FileNotFoundError]. *)
Theorem missing_report_aborts_run (a : args) (ctx : context)
    (harness : nat → trial) (fs : filesystem) (k : nat) :
  (1 ≤ k ≤ Z.to_nat (arg_runs a))%nat →
  returncode (harness k) = 0%Z → report_after (harness k) = None →
  ∃ e,
    report_of a ctx harness fs = Raise e
    ∧ main a ctx harness fs = (Raise e, fs)
    ∧ ((arg_baseline a = ""
        ∨ ∃ loaded, load_baseline fs (arg_baseline a) = Ok loaded) →
       (∀ j, (1 ≤ j < k)%nat →
             returncode (harness j) = 0%Z
             ∧ report_after (harness j) ≠ None) →
       e = FileNotFoundError).
Proof.
  intros Hk Hrc Hrep.
  assert (∃ e, for_each (run_trial harness) (trial_indices (arg_runs a))
                        (∅, None) = Raise e
               ∧ ((∀ j, (1 ≤ j < k)%nat →
                        returncode (harness j) = 0%Z
                        ∧ report_after (harness j) ≠ None) →
                  e = FileNotFoundError)) as (e & Hloop & Hexact).
  { rewrite (trial_indices_split _ _ Hk), for_each_app.
    destruct (for_each (run_trial harness) (seq 1 (k - 1)) (∅, None))
      as [st1|e] eqn:Hpre; simpl.
    - rewrite (run_trial_missing_report harness st1 k Hrc Hrep). simpl. eauto.
    - exists e. split; [done|]. intros Hall.
      destruct (trial_loop_passed harness (seq 1 (k - 1)) (∅, None))
        as [st1 Hst1]; [|congruence].
      intros j Hj%elem_of_seq. apply Hall. lia. }
  assert (∃ e', report_of a ctx harness fs = Raise e'
                ∧ ((arg_baseline a = ""
                    ∨ ∃ loaded, load_baseline fs (arg_baseline a) = Ok loaded)
                   → e' = e)) as (e' & Hreport & He').
  { unfold report_of.
    destruct (String.eqb_spec (arg_baseline a) "") as [Hnone|Hsome]; simpl.
    - rewrite Hloop. simpl. eauto.
    - destruct (load_baseline fs (arg_baseline a)) as [[m meta]|eb] eqn:Hload;
        simpl.
      + rewrite Hloop. simpl. eauto.
      + exists eb. split; [done|]. intros [?|[? ?]]; done. }
  exists e'. split; [done|]. split.
  - unfold main. by rewrite Hreport.
  - intros Hbase Hbefore. rewrite (He' Hbase). by apply Hexact.
Qed.

(** X6.  A baseline mean that is [null] is reported like a missing label, as n/a
    and without a delta field; one that is not a number at all (a string, a
    list, a dict) makes the summary raise [TypeError]. *)
Theorem baseline_mean_not_a_number (baseline_map : gmap string json)
    (label : string) (s : slot) :
  runs s ≠ [] →
  (baseline_map !! label = Some JNull →
   ∃ row entry,
     summarise true baseline_map label s = Ok (row, JObj entry)
     ∧ assoc_get "delta_vs_baseline_ms" entry = None
     ∧ row !! (length (runs s) + 3)%nat = Some "n/a")
  ∧ (∀ b, baseline_map !! label = Some b → b ≠ JNull → as_number b = None →
          summarise true baseline_map label s = Raise TypeError).
Proof.
  intros Hruns. split.
  - intros Hnull.
    assert (delta_of true baseline_map label (arithmetic_mean (runs s))
            = Ok ("n/a", None)) as Hdelta
      by (unfold delta_of; by rewrite Hnull).
    rewrite (summarise_ok _ _ _ _ _ _ Hruns Hdelta).
    eexists _, _. split; [reflexivity|]. split; [reflexivity|].
    rewrite <- (length_map fmt_3f) at 1.
    by rewrite row_lookup_after_stddev.
  - intros b Hb Hnull Hnum. apply summarise_raise; [done|].
    unfold delta_of. rewrite Hb, Hnum. by destruct b.
Qed.
End MoreOfMain.

(** X7.  When the baseline lists a label more than once, the mean of the last
    entry with the label is the one the comparator sees. *)
Theorem duplicate_label_last_wins (fs : filesystem) (path : string)
    (kvs : list (string * json)) (pre post : list json) (entry : json)
    (label : string) :
  fs !! path = Some (JsonFile (JObj kvs)) →
  dict_get_default "systems" (JArr []) kvs = JArr (pre ++ entry :: post) →
  Forall (fun other => is_Some (entry_label other)) (pre ++ post) →
  entry_label entry = Some label →
  Forall (fun later => entry_label later ≠ Some label) post →
  ∃ mapping meta,
    load_baseline fs path = Ok (mapping, meta)
    ∧ mapping !! label = Some (entry_mean entry).
Proof.
  intros Hfile Hsystems [Hpre Hpost]%Forall_app Hlabel Hlater.
  eexists _, _. split.
  - apply (load_baseline_labelled fs path kvs (pre ++ entry :: post) Hfile).
    + by rewrite Hsystems.
    + apply Forall_app. split; [done|]. constructor; [|done].
      by rewrite Hlabel.
  - by apply baseline_of_last.
Qed.

(** X8.  A baseline entry that is a dict without ["label"] makes the loader
    raise [KeyError], whatever follows it. *)
Theorem unlabelled_entry_raises (fs : filesystem) (path : string)
    (kvs fields : list (string * json)) (pre post : list json) :
  fs !! path = Some (JsonFile (JObj kvs)) →
  dict_get_default "systems" (JArr []) kvs
    = JArr (pre ++ JObj fields :: post) →
  Forall (fun other => is_Some (entry_label other)) pre →
  assoc_get "label" fields = None →
  load_baseline fs path = Raise (KeyError "label").
Proof.
  intros Hfile Hsystems Hpre Hnone. unfold load_baseline. rewrite Hfile.
  cbn [json_get_default]. change (Ok ?x ≫= ?k) with (k x).
  rewrite Hsystems. cbn [json_iter]. change (Ok ?x ≫= ?k) with (k x).
  cbn beta. rewrite for_each_app, (load_entries_labelled pre ∅ Hpre).
  simpl.
  assert (baseline_entry (baseline_of pre ∅) (JObj fields)
          = Raise (KeyError "label")) as ->
    by (unfold baseline_entry; simpl; by rewrite Hnone).
  reflexivity.
Qed.

Lemma len_join (sep : string) (parts : list string) :
  len (join sep parts)
  = (sum_list (map len parts) + len sep * (length parts - 1))%nat.
Proof.
  induction parts as [|part parts IH]; [simpl; lia|].
  destruct parts as [|part' parts].
  - simpl. lia.
  - change (join sep (part :: part' :: parts))
      with (part +:+ sep +:+ join sep (part' :: parts)).
    rewrite !len_app, IH. simpl. lia.
Qed.

Lemma aligned_cells_len (rows : list (list string)) (row : list string) :
  row ∈ rows →
  map len (imap (fun idx cell => rjust (column_width rows idx) cell) row)
  = map (column_width rows) (seq 0 (length row)).
Proof.
  intros Hrow. apply list_eq. intros idx.
  rewrite !list_lookup_fmap, list_lookup_imap.
  destruct (row !! idx) as [cell|] eqn:Hcell; simpl.
  - rewrite lookup_seq_lt by (by eapply lookup_lt_Some). simpl.
    f_equal. by eapply aligned_cell_width.
  - rewrite lookup_seq_ge by (by apply lookup_ge_None). done.
Qed.

(** X9.  When every row has as many cells as the first, [format_table] returns
    one line per row, each the row's cells right-justified to the widths of
    their columns, and all lines have the same length. *)
Theorem format_table_rectangular (first : list string)
    (rest : list (list string)) :
  Forall (fun row => length row = length first) rest →
  ∃ lines,
    format_table (first :: rest) = Ok (join (String "010" "") lines)
    ∧ lines = map (aligned_row (first :: rest)) (first :: rest)
    ∧ Forall (fun line => len line
                          = table_width (first :: rest) (length first)) lines.
Proof.
  intros Hall. eexists. split; [|split; [reflexivity|]].
  - apply format_table_aligned. eapply Forall_impl; [exact Hall|].
    intros row ->. done.
  - apply Forall_fmap, Forall_forall. intros row Hrow. simpl.
    assert (length row = length first) as Hlen.
    { apply elem_of_cons in Hrow as [->|Hrow]; [done|].
      by apply (proj1 (Forall_forall _ _) Hall). }
    unfold aligned_row, table_width.
    rewrite len_join, aligned_cells_len by done.
    rewrite length_imap, Hlen. simpl. lia.
Qed.

(** X10.  [format_table] raises exactly when some row has more cells than the
    first; the exception is then [IndexError].  Shorter rows never raise. *)
Theorem format_table_raises_iff (rows : list (list string)) (e : exn) :
  format_table rows = Raise e ↔
  e = IndexError
  ∧ ∃ first rest, rows = first :: rest
                  ∧ Exists (fun row => (length first < length row)%nat) rest.
Proof.
  split.
  - destruct rows as [|first rest]; [done|]. intros Hraise.
    destruct (decide (Exists (fun row => (length first < length row)%nat) rest))
      as [Hlong|Hfit].
    + rewrite (format_table_some_long first rest Hlong) in Hraise.
      injection Hraise as <-. eauto.
    + apply not_Exists_Forall in Hfit; [|intros row; apply _].
      rewrite format_table_aligned in Hraise; [done|].
      eapply Forall_impl; [exact Hfit|]. intros row Hrow. simpl in Hrow. lia.
  - intros (-> & first & rest & -> & Hlong).
    by apply format_table_some_long.
Qed.

Section CompleteTrials.
Context `{PyFormat}.

Lemma length_header (nruns : Z) (has_baseline : bool) :
  length (header nruns has_baseline)
  = (Z.to_nat nruns + (if has_baseline then 5 else 4))%nat.
Proof.
  unfold header, trial_indices.
  rewrite !length_app, length_map, length_seq.
  destruct has_baseline; simpl; lia.
Qed.

(** X11.  When every label was reported exactly once by every trial of a run
    without baseline, the run completes and every row of the table has as
    many cells as the header: the label, one cell per trial, mean, standard
    deviation and budget. *)
Theorem complete_trials_align (a : args) (ctx : context)
    (harness : nat → trial) (fs : filesystem) (cases : gmap string slot)
    (bench_meta : option (list (string * json))) :
  arg_baseline a = "" →
  for_each (run_trial harness) (trial_indices (arg_runs a)) (∅, None)
    = Ok (cases, bench_meta) →
  (∀ label s, cases !! label = Some s →
              length (runs s) = Z.to_nat (arg_runs a)) →
  ∃ rows text payload,
    report_of a ctx harness fs = Ok (rows, text, payload)
    ∧ length rows = S (size cases)
    ∧ Forall (fun row => length row = (Z.to_nat (arg_runs a) + 4)%nat) rows.
Proof.
  intros Hnone Hloop Hexact.
  destruct (report_of_completes a ctx harness fs cases bench_meta Hnone Hloop)
    as (rows & text & payload & Hreport).
  { intros label s Hs. by rewrite (Hexact label s Hs). }
  exists rows, text, payload. split; [exact Hreport|].
  apply report_of_Ok in Hreport
    as (baseline_map & baseline_meta & cases' & bench_meta' & summaries
        & table & _ & Hloop' & Hsum & -> & _).
  rewrite Hloop in Hloop'. injection Hloop' as <- <-.
  rewrite Hnone in Hsum |- *. cbn [String.eqb negb] in Hsum |- *.
  pose proof (trial_loop_nonempty _ _ _ _ Hloop) as Hne.
  apply summarise_all_inv in Hsum.
  split.
  - cbn [length]. rewrite length_map, <- (Forall2_length _ _ _ Hsum).
    unfold sorted_labels.
    by rewrite merge_sort_Permutation, length_map, length_map_to_list.
  - constructor; [by rewrite length_header|].
    apply Forall_fmap. clear Hloop.
    induction Hsum as [|label [row entry] labels rest (s & Hs & Hrow) _ IH];
      constructor; [|exact IH].
    simpl.
    destruct (table_rows_fit (arg_runs a) false ∅ label s row entry
                (Hne _ _ Hs)) as [_ Hlen]; [|exact Hrow|].
    + by rewrite (Hexact label s Hs).
    + by rewrite (Hlen (Hexact label s Hs)), length_header.
Qed.
End CompleteTrials.

(** ** Properties of the command line and the environment *)

Lemma lower_char_idempotent (a : ascii) :
  lower_char (lower_char a) = lower_char a.
Proof. destruct a as [[] [] [] [] [] [] [] []]; reflexivity. Qed.

Lemma lower_idempotent (s : string) : lower (lower s) = lower s.
Proof.
  induction s as [|a s IH]; [done|].
  simpl. by rewrite lower_char_idempotent, IH.
Qed.

Section CommandFacts.
Context `{Shell}.

(** X12.  The profile is compared without regard to case: two argument sets
    that differ only in the case of the profile build the same command, and
    it is the command of the profile written in lower case. *)
Theorem build_command_ignores_profile_case (a b : command_args) :
  lower (arg_profile a) = lower (arg_profile b) →
  arg_features a = arg_features b → arg_test a = arg_test b →
  arg_test_args a = arg_test_args b →
  build_command a = build_command b
  ∧ build_command b
    = build_command {| arg_profile := lower (arg_profile a);
                       arg_features := arg_features a;
                       arg_test := arg_test a;
                       arg_test_args := arg_test_args a |}.
Proof.
  intros Hprofile Hfeatures Htest Hargs. unfold build_command.
  cbn [arg_profile arg_features arg_test arg_test_args].
  rewrite lower_idempotent, Hprofile, Hfeatures, Htest, Hargs.
  split; reflexivity.
Qed.

End CommandFacts.

Lemma StronglySorted_filter {A : Type} (R : relation A) (P : A → Prop)
    `{∀ x, Decision (P x)} (l : list A) :
  StronglySorted R l → StronglySorted R (filter P l).
Proof.
  induction 1 as [|x l Hl IH Hx]; [constructor|].
  rewrite filter_cons. destruct (decide (P x)); [|done].
  constructor; [done|]. apply Forall_forall.
  intros y [_ Hy]%list_elem_of_filter.
  by apply (proj1 (Forall_forall _ _) Hx).
Qed.

Lemma env_summary_keys (env : gmap string string) :
  map fst (env_summary env)
  = filter is_profile_key (merge_sort String.le (map fst (map_to_list env))).
Proof.
  unfold env_summary. rewrite <- list_fmap_compose. apply list_fmap_id.
Qed.

Lemma elem_of_env_summary (env : gmap string string) (key v : string) :
  (key, v) ∈ env_summary env ↔ is_profile_key key ∧ env !! key = Some v.
Proof.
  unfold env_summary. rewrite list_elem_of_fmap. split.
  - intros (k & [= -> ->] & [Hkey Hin]%list_elem_of_filter).
    split; [done|]. rewrite merge_sort_Permutation in Hin.
    apply list_elem_of_fmap in Hin as ([k' v'] & -> & Hin).
    apply elem_of_map_to_list in Hin. simpl.
    by rewrite (lookup_total_correct _ _ _ Hin).
  - intros [Hkey Hv]. exists key. split.
    + by rewrite (lookup_total_correct _ _ _ Hv).
    + apply list_elem_of_filter. split; [done|].
      rewrite merge_sort_Permutation. apply list_elem_of_fmap.
      exists (key, v). split; [done|]. by apply elem_of_map_to_list.
Qed.

(** X13.  The two scripts, which sort and select in opposite orders, compute the
    same environment summary. *)
Theorem env_summaries_agree (env : gmap string string) :
  env_summary env = env_of_keys env.
Proof.
  unfold env_summary, env_of_keys, env_keys. f_equal.
  apply (StronglySorted_unique String.le).
  - apply StronglySorted_filter, StronglySorted_merge_sort; apply _.
  - apply StronglySorted_merge_sort; apply _.
  - by rewrite !merge_sort_Permutation.
Qed.

Section EnvFacts.
Context `{Shell}.

(** X14.  The environment summary of a run lists the [ANIMATION_PROFILE_*]
    variables of the harness environment and no other, in ascending order,
    each once.  The four knobs are always there with the values of the
    arguments, whatever the inherited environment held for them; any other
    inherited variable with the prefix is listed with its inherited
    value. *)
Theorem env_summary_of_build_env (environ : gmap string string) (k : knobs) :
  let summary := env_summary (build_env environ k) in
  (∀ key v, (key, v) ∈ summary ↔
            is_profile_key key ∧ build_env environ k !! key = Some v)
  ∧ StronglySorted String.le (map fst summary)
  ∧ NoDup (map fst summary)
  ∧ ("ANIMATION_PROFILE_COUNT", pretty (knob_count k)) ∈ summary
  ∧ ("ANIMATION_PROFILE_STEPS", pretty (knob_steps k)) ∈ summary
  ∧ ("ANIMATION_PROFILE_WARMUP", pretty (knob_warmup k)) ∈ summary
  ∧ ("ANIMATION_PROFILE_DT", fmt_9f (knob_dt k)) ∈ summary
  ∧ (∀ key v, is_profile_key key → environ !! key = Some v →
              key ∉ ["ANIMATION_PROFILE_COUNT"; "ANIMATION_PROFILE_STEPS";
                     "ANIMATION_PROFILE_WARMUP"; "ANIMATION_PROFILE_DT"] →
              (key, v) ∈ summary).
Proof.
  intros summary. unfold summary.
  split; [apply elem_of_env_summary|].
  split.
  { rewrite env_summary_keys.
    apply StronglySorted_filter, StronglySorted_merge_sort; apply _. }
  split.
  { rewrite env_summary_keys. apply NoDup_filter.
    rewrite merge_sort_Permutation. apply NoDup_fst_map_to_list. }
  unfold build_env.
  repeat split; try (apply elem_of_env_summary; split; [reflexivity|]).
  - rewrite !lookup_insert_ne by done. by rewrite lookup_insert_eq.
  - rewrite !lookup_insert_ne by done. by rewrite lookup_insert_eq.
  - rewrite !lookup_insert_ne by done. by rewrite lookup_insert_eq.
  - by rewrite lookup_insert_eq.
  - intros key v Hkey Hv Hother. apply elem_of_env_summary. split; [done|].
    rewrite !lookup_insert_ne; [done|..];
      intros <-; apply Hother; repeat first [ by left | right ].
Qed.
End EnvFacts.

(** ** Properties of the process primitives *)

Section ProcessFacts.
Variable run : machine.

Lemma subprocess_check_not_started (cmd : list string)
    (env : gmap string string) (w : world) :
  run cmd env (files w) = None →
  subprocess_check run cmd env w
  = (Failed OSError, {| files := files w; spawned := spawned w ++ [cmd] |}).
Proof.
  intros Hrun. unfold subprocess_check, subprocess_run, mbind, action_bind.
  by rewrite Hrun.
Qed.

Lemma subprocess_check_started (cmd : list string)
    (env : gmap string string) (w : world) (proc : completed)
    (fs : filesystem) :
  run cmd env (files w) = Some (proc, fs) →
  subprocess_check run cmd env w
  = (if Z.eqb (exit_status proc) 0 then Done tt
     else Failed (Builtin (CalledProcessError (exit_status proc))),
     {| files := fs; spawned := spawned w ++ [cmd] |}).
Proof.
  intros Hrun. unfold subprocess_check, subprocess_run, mbind, action_bind.
  rewrite Hrun. by destruct (Z.eqb (exit_status proc) 0).
Qed.
End ProcessFacts.

(** ** Properties of capture_sprite_perf.py *)

Lemma append_new_spec (b : bool) (c : string) (cs : list string) :
  NoDup cs →
  let r := if b && negb (bool_decide (c ∈ cs)) then cs ++ [c] else cs in
  NoDup r
  ∧ (b = true → c ∈ r)
  ∧ (∀ x, x ∈ cs → x ∈ r)
  ∧ (∀ x, x ∈ r → x ∈ cs ∨ (b = true ∧ x = c))
  ∧ (cs ≠ [] → head r = head cs).
Proof.
  intros Hnd r. subst r.
  destruct b; cbn [andb];
    [|split; [done|]; split; [done|]; split; [done|]; split; [eauto | done]].
  destruct (bool_decide_reflect (c ∈ cs)) as [Hin|Hnew]; cbn [negb].
  { split; [done|]. split; [done|]. split; [done|]. split; [eauto | done]. }
  split; [|split; [|split; [|split]]].
  - apply NoDup_app. split; [done|]. split; [|apply NoDup_singleton].
    intros x Hx ->%list_elem_of_singleton. done.
  - intros _. apply elem_of_app. right. by apply list_elem_of_singleton.
  - intros x Hx. apply elem_of_app. by left.
  - intros x [Hx| ->%list_elem_of_singleton]%elem_of_app; eauto.
  - by destruct cs.
Qed.

(** X15.  The interpreters tried are distinct; the one given on the command line
    comes first, [sys.executable] is among them when it is known and plain
    [python] always, so the list is never empty; nothing else is tried. *)
Theorem python_candidates_spec (a : Capture.args) (ctx : Capture.context) :
  let candidates := Capture.python_candidates a ctx in
  NoDup candidates
  ∧ "python" ∈ candidates
  ∧ (Capture.python_cmd a ≠ "" → head candidates = Some (Capture.python_cmd a))
  ∧ (Capture.sys_executable ctx ≠ "" →
     Capture.sys_executable ctx ∈ candidates)
  ∧ (∀ c, c ∈ candidates →
          c ≠ "" ∧ (c = Capture.python_cmd a ∨ c = Capture.sys_executable ctx
                    ∨ c = "python")).
Proof.
  intros candidates. subst candidates. unfold Capture.python_candidates.
  set (first := if negb (String.eqb (Capture.python_cmd a) "")
                then [Capture.python_cmd a] else []).
  assert (NoDup first
          ∧ (Capture.python_cmd a ≠ "" → first = [Capture.python_cmd a])
          ∧ (∀ c, c ∈ first → c ≠ "" ∧ c = Capture.python_cmd a))
    as (Hnd1 & Hhead1 & Hin1).
  { unfold first.
    destruct (String.eqb_spec (Capture.python_cmd a) "") as [Hcmd|Hcmd];
      cbn [negb].
    - split; [apply NoDup_nil_2|]. split; [done|].
      by intros c ?%elem_of_nil.
    - split; [apply NoDup_singleton|]. split; [done|].
      by intros c ->%list_elem_of_singleton. }
  destruct (append_new_spec
              (negb (String.eqb (Capture.sys_executable ctx) ""))
              (Capture.sys_executable ctx) first Hnd1)
    as (Hnd2 & Hexe2 & Hkeep2 & Hin2 & Hhead2).
  set (second := if negb (String.eqb (Capture.sys_executable ctx) "")
                    && negb (bool_decide (Capture.sys_executable ctx ∈ first))
                 then first ++ [Capture.sys_executable ctx] else first) in *.
  destruct (append_new_spec true "python" second Hnd2)
    as (Hnd3 & Hpy3 & Hkeep3 & Hin3 & Hhead3).
  cbn [andb] in *.
  split; [done|]. split; [by apply Hpy3|]. split; [|split].
  - intros Hcmd. rewrite Hhead3, Hhead2.
    + by rewrite (Hhead1 Hcmd).
    + by rewrite (Hhead1 Hcmd).
    + intros Hnil. assert (Capture.python_cmd a ∈ second) as Hin.
      { apply Hkeep2. rewrite (Hhead1 Hcmd). by left. }
      rewrite Hnil in Hin. by apply elem_of_nil in Hin.
  - intros Hexe. apply Hkeep3, Hexe2.
    by destruct (String.eqb_spec (Capture.sys_executable ctx) "").
  - intros c [[Hc|[Hexe ->]]%Hin2|[_ ->]]%Hin3.
    + destruct (Hin1 c Hc) as [? ?]. eauto.
    + destruct (String.eqb_spec (Capture.sys_executable ctx) ""); [done|].
      eauto.
    + split; [done|]. eauto.
Qed.

Section CaptureFacts.
Context `{Shell}.
Variable run : machine.

Lemma try_candidates_skip (a : Capture.args) (env : gmap string string)
    (pre rest : list string) (w : world) :
  (∀ p, p ∈ pre → run (Capture.bench_command a p) env (files w) = None) →
  Capture.try_candidates run a env (pre ++ rest) w
  = Capture.try_candidates run a env rest
      {| files := files w;
         spawned := spawned w ++ map (Capture.bench_command a) pre |}.
Proof.
  revert w. induction pre as [|p pre IH]; intros w Hpre.
  - simpl. rewrite app_nil_r. by destruct w.
  - cbn [app Capture.try_candidates].
    rewrite subprocess_check_not_started by (apply Hpre; by left).
    rewrite IH by (intros p' Hp'; apply Hpre; by right).
    cbn [files spawned map]. by rewrite <- app_assoc.
Qed.

Lemma run_sprite_bench_started (a : Capture.args) (ctx : Capture.context)
    (env : gmap string string) (w : world) (pre post : list string)
    (c : string) (proc : completed) (fs : filesystem) :
  Capture.python_candidates a ctx = pre ++ c :: post →
  (∀ p, p ∈ pre → run (Capture.bench_command a p) env (files w) = None) →
  run (Capture.bench_command a c) env (files w) = Some (proc, fs) →
  Capture.run_sprite_bench run a ctx env w
  = (if Z.eqb (exit_status proc) 0
     then Done (Capture.bench_command a c)
     else Failed (Builtin (CalledProcessError (exit_status proc))),
     {| files := fs;
        spawned := spawned w
                     ++ map (Capture.bench_command a) (pre ++ [c]) |}).
Proof.
  unfold Capture.run_sprite_bench. intros -> Hpre Hrun.
  rewrite (try_candidates_skip a env pre (c :: post) w Hpre).
  cbn [Capture.try_candidates].
  rewrite (subprocess_check_started run _ env _ proc fs) by exact Hrun.
  cbn [files spawned]. rewrite map_app, app_assoc. cbn [map].
  by destruct (Z.eqb (exit_status proc) 0).
Qed.

(** X16.  [run_sprite_bench] settles on the first interpreter that can be started:
    the interpreters before it are tried in order and passed over, those
    after it are never tried.  When the benchmark it starts exits with
    status 0 the command is returned; when it exits with another status the
    failure is raised as [CalledProcessError] and no other interpreter gets
    a turn.  When no interpreter can be started, all have been tried and
    [RuntimeError] is raised. *)
Theorem run_sprite_bench_first_startable (a : Capture.args)
    (ctx : Capture.context) (env : gmap string string) (w : world) :
  (∀ pre c post proc fs,
     Capture.python_candidates a ctx = pre ++ c :: post →
     (∀ p, p ∈ pre → run (Capture.bench_command a p) env (files w) = None) →
     run (Capture.bench_command a c) env (files w) = Some (proc, fs) →
     Capture.run_sprite_bench run a ctx env w
     = (if Z.eqb (exit_status proc) 0
        then Done (Capture.bench_command a c)
        else Failed (Builtin (CalledProcessError (exit_status proc))),
        {| files := fs;
           spawned := spawned w
                        ++ map (Capture.bench_command a) (pre ++ [c]) |}))
  ∧ ((∀ c, c ∈ Capture.python_candidates a ctx →
           run (Capture.bench_command a c) env (files w) = None) →
     Capture.run_sprite_bench run a ctx env w
     = (Failed RuntimeError,
        {| files := files w;
           spawned := spawned w
                        ++ map (Capture.bench_command a)
                               (Capture.python_candidates a ctx) |})).
Proof.
  split.
  - intros pre c post proc fs. apply run_sprite_bench_started.
  - intros Hnone. unfold Capture.run_sprite_bench.
    rewrite <- (app_nil_r (Capture.python_candidates a ctx)) at 1.
    by rewrite (try_candidates_skip a env _ [] w Hnone).
Qed.
End CaptureFacts.

Lemma parse_has_no_log (stdout : string) (data : list (string * json)) :
  parse_profile_output stdout = Ok data → assoc_get "log" data = None.
Proof.
  rewrite parse_sections.
  destruct (sections_total stdout categories []) as [[-> _]|[-> _]];
    [|done].
  intros [= <-]. apply assoc_get_None_not_in. simpl.
  intros Hin.
  pose proof (elem_of_sublist _ _ _ Hin
                (section_keys_sublist stdout categories)) as Hkey.
  unfold categories in Hkey. simpl in Hkey.
  repeat (apply elem_of_cons in Hkey as [Hkey|Hkey]; [discriminate Hkey|]).
  by apply elem_of_nil in Hkey.
Qed.

Lemma render_output_app (before after : list line) :
  render_output (before ++ after)
  = render_output before +:+ render_output after.
Proof.
  induction before as [|l before IH]; [done|].
  cbn [app render_output]. rewrite IH.
  change (String "010" ?s) with (String "010" "" +:+ s).
  by rewrite !app_string_assoc.
Qed.

Lemma omap_app_occurrences (c : category) (before after : list line) :
  omap (line_occurrence c) (before ++ after)
  = omap (line_occurrence c) before ++ omap (line_occurrence c) after.
Proof.
  induction before as [|l before IH]; [done|].
  cbn [app]. change (omap ?f (?x :: ?xs))
    with (match f x with Some y => y :: omap f xs | None => omap f xs end).
  rewrite IH. by destruct (line_occurrence c l).
Qed.

Section ProfileFacts.
Context `{Shell}.
Variable run : machine.

Lemma run_subprocess_started (cmd : list string) (env : gmap string string)
    (w : world) (proc : completed) (fs : filesystem) :
  run cmd env (files w) = Some (proc, fs) →
  Capture.run_subprocess run cmd env w
  = (if Z.eqb (exit_status proc) 0 then Done (captured_text proc)
     else Failed RuntimeError,
     {| files := fs; spawned := spawned w ++ [cmd] |}).
Proof.
  intros Hrun.
  unfold Capture.run_subprocess, subprocess_run, mbind, action_bind,
    captured_text.
  rewrite Hrun. destruct (Z.eqb (exit_status proc) 0); simpl; [|done].
  by destruct (String.eqb (proc_stderr proc) "").
Qed.

(** X17.  Metric lines the profiling harness prints on its standard error are
    extracted like those on its standard output, and after them. *)
Theorem stderr_metrics_are_extracted (cmd : list string)
    (env : gmap string string) (w : world) (proc : completed)
    (fs : filesystem) (stdout_lines stderr_lines : list line)
    (c : category) :
  run cmd env (files w) = Some (proc, fs) → exit_status proc = 0%Z →
  Forall well_formed_line stdout_lines →
  Forall well_formed_line stderr_lines →
  proc_stdout proc = render_output stdout_lines →
  proc_stderr proc = render_output stderr_lines →
  ∃ text w',
    Capture.run_subprocess run cmd env w = (Done text, w')
    ∧ occurrences c text
      = omap (line_occurrence c) stdout_lines
          ++ omap (line_occurrence c) stderr_lines.
Proof.
  intros Hrun Hexit Hout Herr Hstdout Hstderr.
  rewrite (run_subprocess_started cmd env w proc fs Hrun), Hexit.
  eexists _, _. split; [reflexivity|].
  unfold captured_text. rewrite Hstdout, Hstderr.
  destruct (String.eqb_spec (render_output stderr_lines) "") as [Hnone|Hsome];
    cbn [negb].
  - destruct stderr_lines as [|l ls];
      [|cbn [render_output] in Hnone; destruct (render_line l);
        discriminate Hnone].
    rewrite app_nil_r. by apply occurrences_render.
  - change (String "010" "" +:+ render_output stderr_lines)
      with (render_output (Noise "" :: stderr_lines)).
    rewrite <- render_output_app, occurrences_render.
    + by rewrite omap_app_occurrences.
    + apply Forall_app. split; [done|]. by constructor.
Qed.
End ProfileFacts.

Lemma count_char_app (p : ascii → bool) (s1 s2 : string) :
  count_char p (s1 +:+ s2) = (count_char p s1 + count_char p s2)%nat.
Proof.
  induction s1 as [|a s1 IH]; [done|].
  change (String a s1 +:+ s2) with (String a (s1 +:+ s2)).
  cbn [count_char]. rewrite IH. by destruct (p a).
Qed.

Lemma path_name_after_slash (dir name : string) :
  count_char (Ascii.eqb "/") name = 0%nat →
  path_name (dir +:+ "/" +:+ name) = name.
Proof.
  intros Hname. induction dir as [|a dir IH].
  - change ("" +:+ "/" +:+ name) with (String "/" name).
    cbn [path_name]. by rewrite Hname.
  - change (String a dir +:+ "/" +:+ name)
      with (String a (dir +:+ "/" +:+ name)).
    cbn [path_name]. rewrite count_char_app.
    change ("/" +:+ name) with (String "/" name). cbn [count_char].
    rewrite Ascii.eqb_refl.
    replace (count_char (Ascii.eqb "/") dir
             + (1 + count_char (Ascii.eqb "/") name) =? 0)%nat
      with false by (symmetry; apply Nat.eqb_neq; lia).
    exact IH.
Qed.

Section CaptureMainFacts.
Context `{Shell}.
Variable run : machine.

Lemma run_animation_profile_started (a : Capture.args)
    (env : gmap string string) (w : world) (cmd : list string)
    (proc : completed) (fs : filesystem) :
  Capture.profile_command a = Ok cmd →
  run cmd env (files w) = Some (proc, fs) →
  Capture.run_animation_profile run a env w
  = (if Z.eqb (exit_status proc) 0 then
       match parse_profile_output (captured_text proc) with
       | Ok data =>
           Done (data ++ [("log", JStr (path_name (Capture.log_path a)))])
       | Raise e => Failed (Builtin e)
       end
     else Failed RuntimeError,
     {| files := if Z.eqb (exit_status proc) 0
                 then <[Capture.log_path a := TextFile (captured_text proc)]> fs
                 else fs;
        spawned := spawned w ++ [cmd] |}).
Proof.
  intros Hcmd Hrun.
  unfold Capture.run_animation_profile. rewrite Hcmd.
  unfold mbind, action_bind. cbn [lift mret action_ret].
  rewrite (run_subprocess_started run cmd env w proc fs Hrun).
  destruct (Z.eqb (exit_status proc) 0); [|done].
  unfold write_file. cbn [files spawned].
  destruct (parse_profile_output (captured_text proc)) as [data|e] eqn:Hparse;
    cbn [lift mret action_ret raise]; [|done].
  unfold dict_set. by rewrite (parse_has_no_log _ _ Hparse).
Qed.

Lemma assoc_get_app_new {V : Type} (key : string) (v : V)
    (kvs : list (string * V)) :
  assoc_get key kvs = None → assoc_get key (kvs ++ [(key, v)]) = Some v.
Proof.
  induction kvs as [|[k v'] kvs IH]; simpl.
  - by rewrite String.eqb_refl.
  - destruct (String.eqb k key); [done | exact IH].
Qed.

Lemma run_animation_profile_done (a : Capture.args)
    (env : gmap string string) (w w' : world) (data : list (string * json)) :
  Capture.run_animation_profile run a env w = (Done data, w') →
  ∃ text,
    files w' !! Capture.log_path a = Some (TextFile text)
    ∧ assoc_get "log" data = Some (JStr (path_name (Capture.log_path a))).
Proof.
  destruct (Capture.profile_command a) as [cmd|e] eqn:Hcmd.
  - destruct (run cmd env (files w)) as [[proc fs]|] eqn:Hrun.
    + rewrite (run_animation_profile_started a env w cmd proc fs Hcmd Hrun).
      destruct (Z.eqb (exit_status proc) 0); [|done].
      destruct (parse_profile_output (captured_text proc)) as [parsed|e]
        eqn:Hparse; [|done].
      intros [= <- <-]. eexists. split.
      * cbn [files]. apply lookup_insert_eq.
      * apply assoc_get_app_new. by eapply parse_has_no_log.
    + unfold Capture.run_animation_profile. rewrite Hcmd.
      unfold mbind, action_bind, Capture.run_subprocess, subprocess_run.
      cbn [lift mret action_ret]. unfold mbind, action_bind.
      by rewrite Hrun.
  - unfold Capture.run_animation_profile. rewrite Hcmd.
    unfold mbind, action_bind. done.
Qed.

(** X18.  [run_animation_profile] writes the log as soon as the harness has
    exited with status 0 and before it reads the metrics: the log holds the
    text the extractor is given, and it is on disk also when the extractor
    then raises.  A harness that exits with another status raises
    [RuntimeError] and leaves no log.  The statistics returned are the
    extractor's with the file name of the log added last under ["log"]. *)
Theorem profile_log_precedes_parsing (a : Capture.args)
    (env : gmap string string) (w : world) (cmd : list string)
    (proc : completed) (fs : filesystem) :
  Capture.profile_command a = Ok cmd →
  run cmd env (files w) = Some (proc, fs) →
  Capture.run_animation_profile run a env w
  = (if Z.eqb (exit_status proc) 0 then
       match parse_profile_output (captured_text proc) with
       | Ok data =>
           Done (data ++ [("log", JStr (path_name (Capture.log_path a)))])
       | Raise e => Failed (Builtin e)
       end
     else Failed RuntimeError,
     {| files := if Z.eqb (exit_status proc) 0
                 then <[Capture.log_path a := TextFile (captured_text proc)]> fs
                 else fs;
        spawned := spawned w ++ [cmd] |})
  ∧ (count_char (Ascii.eqb "/") (Capture.label a) = 0%nat →
     path_name (Capture.log_path a) = Capture.label a +:+ "_profile.log").
Proof.
  intros Hcmd Hrun. split.
  - by apply run_animation_profile_started.
  - intros Hlabel. unfold Capture.log_path.
    change ("perf/" +:+ ?s) with ("perf" +:+ "/" +:+ s).
    apply path_name_after_slash.
    rewrite count_char_app, Hlabel. reflexivity.
Qed.

(** X19.  [main] refuses to run with both steps disabled, before it touches
    anything.  When the benchmark it starts exits with a non-zero status,
    the run ends there with that [CalledProcessError]: the profiling harness
    is not started, and neither the log nor the summary is written. *)
Theorem capture_main_aborts (a : Capture.args) (ctx : Capture.context)
    (w : world) :
  (Capture.skip_bench a = true → Capture.skip_profile a = true →
   ∃ message, Capture.main run a ctx w = (Failed (SystemExit message), w))
  ∧ (∀ pre c post proc fs,
       Capture.skip_bench a = false →
       Capture.python_candidates a ctx = pre ++ c :: post →
       (∀ p, p ∈ pre →
             run (Capture.bench_command a p)
                 (build_env (Capture.environ ctx) (Capture.tuning a))
                 (files w) = None) →
       run (Capture.bench_command a c)
           (build_env (Capture.environ ctx) (Capture.tuning a)) (files w)
         = Some (proc, fs) →
       exit_status proc ≠ 0%Z →
       Capture.main run a ctx w
       = (Failed (Builtin (CalledProcessError (exit_status proc))),
          {| files := fs;
             spawned := spawned w
                          ++ map (Capture.bench_command a) (pre ++ [c]) |})).
Proof.
  split.
  - intros Hbench Hprofile. unfold Capture.main.
    rewrite Hbench, Hprofile. eexists. reflexivity.
  - intros pre c post proc fs Hbench Hcands Hpre Hrun Hexit.
    unfold Capture.main. rewrite Hbench.
    cbn [andb negb]. unfold mbind at 1, action_bind at 1.
    unfold mbind at 1, action_bind at 1.
    rewrite (run_sprite_bench_started run a ctx _ w pre post c proc fs
               Hcands Hpre Hrun).
    by rewrite (proj2 (Z.eqb_neq _ _) Hexit).
Qed.

Lemma capture_main_done (a : Capture.args) (ctx : Capture.context)
    (w w' : world) (status : Z) :
  Capture.main run a ctx w = (Done status, w') →
  status = 0%Z
  ∧ (Capture.skip_bench a = false ∨ Capture.skip_profile a = false)
  ∧ ∃ bench profile,
      files w' !! Capture.json_path a
      = Some (JsonFile
                (JObj [("label", JStr (Capture.label a));
                       ("timestamp", JStr (Capture.timestamp ctx));
                       ("commit", JStr (Capture.commit ctx));
                       ("sprite_bench", bench);
                       ("animation_profile", profile)]))
      ∧ (bench = JNull ↔ Capture.skip_bench a = true)
      ∧ (profile = JNull ↔ Capture.skip_profile a = true)
      ∧ (Capture.skip_profile a = false →
         ∃ text command env stats,
           files w' !! Capture.log_path a = Some (TextFile text)
           ∧ profile = JObj [("command", command); ("env", env);
                             ("stats", JObj stats)]
           ∧ assoc_get "log" stats
             = Some (JStr (path_name (Capture.log_path a)))).
Proof.
  unfold Capture.main.
  destruct (Capture.skip_bench a) eqn:Hbench;
    destruct (Capture.skip_profile a) eqn:Hprofile; cbn [andb negb];
    [done|..].
  - (* the profiling step alone *)
    unfold mbind at 1, action_bind at 1. cbn [mret action_ret].
    unfold mbind at 1, action_bind at 1.
    unfold mbind at 1, action_bind at 1.
    destruct (Capture.run_animation_profile run a _ w) as [[data|e] w1]
      eqn:Hrun; [|done].
    cbn [mret action_ret].
    unfold mbind at 1, action_bind at 1.
    unfold mbind at 1, action_bind at 1.
    destruct (Capture.profile_command a) as [cmd|e]; cbn [lift]; [|done].
    cbn [mret action_ret]. unfold mbind, action_bind, write_file.
    intros [= <- <-]. split; [done|]. split; [by right|].
    destruct (run_animation_profile_done _ _ _ _ _ Hrun) as (text & Hlog & Hkey).
    eexists _, _. split; [apply lookup_insert_eq|].
    split; [done|]. split; [done|]. intros _.
    eexists text, _, _, data. split; [|done].
    cbn [files]. rewrite lookup_insert_ne; [done|].
    unfold Capture.json_path, Capture.log_path.
    intros Heq%(inj (String.app _))%(inj (String.app _)). discriminate Heq.
  - (* the benchmark step alone *)
    unfold mbind at 1, action_bind at 1.
    unfold mbind at 1, action_bind at 1.
    destruct (Capture.run_sprite_bench run a ctx _ w) as [[cmd|e] w1]
      eqn:Hrun; [|done].
    cbn [mret action_ret]. unfold mbind, action_bind, write_file.
    intros [= <- <-]. split; [done|]. split; [by left|].
    eexists _, _. split; [apply lookup_insert_eq|].
    split; [done|]. split; [done|]. done.
  - (* both steps *)
    unfold mbind at 1, action_bind at 1.
    unfold mbind at 1, action_bind at 1.
    destruct (Capture.run_sprite_bench run a ctx _ w) as [[bench_cmd|e] w1]
      eqn:Hbenchrun; [|done].
    cbn [mret action_ret].
    unfold mbind at 1, action_bind at 1.
    unfold mbind at 1, action_bind at 1.
    destruct (Capture.run_animation_profile run a _ w1) as [[data|e] w2]
      eqn:Hrun; [|done].
    cbn [mret action_ret].
    unfold mbind at 1, action_bind at 1.
    unfold mbind at 1, action_bind at 1.
    destruct (Capture.profile_command a) as [cmd|e]; cbn [lift]; [|done].
    cbn [mret action_ret]. unfold mbind, action_bind, write_file.
    intros [= <- <-]. split; [done|]. split; [by left|].
    destruct (run_animation_profile_done _ _ _ _ _ Hrun) as (text & Hlog & Hkey).
    eexists _, _. split; [apply lookup_insert_eq|].
    split; [done|]. split; [done|]. intros _.
    eexists text, _, _, data. split; [|done].
    cbn [files]. rewrite lookup_insert_ne; [done|].
    unfold Capture.json_path, Capture.log_path.
    intros Heq%(inj (String.app _))%(inj (String.app _)). discriminate Heq.
Qed.

(** X20.  A run of [main] that returns has returned 0, had at least one step
    enabled and has written the summary: its [sprite_bench] member is
    [null] exactly when the benchmark step was skipped and its
    [animation_profile] member is [null] exactly when the profiling step
    was skipped; when that step ran, the log is on disk and the statistics
    name it. *)
Theorem capture_main_summary (a : Capture.args) (ctx : Capture.context)
    (w w' : world) (status : Z) :
  Capture.main run a ctx w = (Done status, w') →
  status = 0%Z
  ∧ (Capture.skip_bench a = false ∨ Capture.skip_profile a = false)
  ∧ ∃ bench profile,
      files w' !! Capture.json_path a
      = Some (JsonFile
                (JObj [("label", JStr (Capture.label a));
                       ("timestamp", JStr (Capture.timestamp ctx));
                       ("commit", JStr (Capture.commit ctx));
                       ("sprite_bench", bench);
                       ("animation_profile", profile)]))
      ∧ (bench = JNull ↔ Capture.skip_bench a = true)
      ∧ (profile = JNull ↔ Capture.skip_profile a = true)
      ∧ (Capture.skip_profile a = false →
         ∃ text command env stats,
           files w' !! Capture.log_path a = Some (TextFile text)
           ∧ profile = JObj [("command", command); ("env", env);
                             ("stats", JObj stats)]
           ∧ assoc_get "log" stats
             = Some (JStr (path_name (Capture.log_path a)))).
Proof. apply capture_main_done. Qed.
End CaptureMainFacts.

(** ** Properties of run_perf_suite.py *)

Section SuiteFacts.
Context `{Shell}.
Variable run : machine.

Lemma suite_bench_started (a : Suite.args) (ctx : Suite.context) (w : world)
    (proc : completed) (fs : filesystem) :
  run (Suite.bench_command a) (Suite.environ ctx) (files w)
    = Some (proc, fs) →
  Suite.run_sprite_bench run a ctx w
  = (if negb (Z.eqb (exit_status proc) 0)
     then Failed (Builtin (CalledProcessError (exit_status proc)))
     else match fs !! Suite.bench_json_path a with
          | None => Failed (Builtin FileNotFoundError)
          | Some (TextFile _) => Failed (Builtin JSONDecodeError)
          | Some (JsonFile payload) =>
              Done (JObj [("label",
                           JStr (Suite.or_else (Suite.bench_label a)
                                               (Suite.label a)));
                          ("command",
                           JStr (Suite.shell_join (Suite.bench_command a)));
                          ("json_path", JStr (Suite.bench_json_path a));
                          ("txt_path",
                           match fs !! Suite.bench_txt_path a with
                           | Some _ => JStr (Suite.bench_txt_path a)
                           | None => JNull
                           end);
                          ("summary", payload)])
          end,
     {| files := fs; spawned := spawned w ++ [Suite.bench_command a] |}).
Proof.
  intros Hrun. unfold Suite.run_sprite_bench.
  unfold mbind at 1, action_bind at 1.
  rewrite (subprocess_check_started run _ _ _ proc fs Hrun).
  destruct (Z.eqb (exit_status proc) 0); cbn [negb]; [|done].
  unfold mbind, action_bind, exists_file, Suite.load_json. cbn [files].
  destruct (fs !! Suite.bench_json_path a) as [[text|payload]|] eqn:Hjson.
  - rewrite bool_decide_eq_true_2 by eauto.
    cbn [negb mret action_ret raise files]. by rewrite Hjson.
  - rewrite bool_decide_eq_true_2 by eauto.
    cbn [negb mret action_ret raise files]. rewrite Hjson. cbn [files].
    destruct (fs !! Suite.bench_txt_path a) as [f|].
    + rewrite bool_decide_eq_true_2 by eauto. reflexivity.
    + rewrite bool_decide_eq_false_2 by (by intros [? ?]). reflexivity.
  - rewrite bool_decide_eq_false_2 by (by intros [? ?]). reflexivity.
Qed.

Lemma suite_bench_not_started (a : Suite.args) (ctx : Suite.context)
    (w : world) :
  run (Suite.bench_command a) (Suite.environ ctx) (files w) = None →
  Suite.run_sprite_bench run a ctx w
  = (Failed OSError,
     {| files := files w; spawned := spawned w ++ [Suite.bench_command a] |}).
Proof.
  intros Hrun. unfold Suite.run_sprite_bench.
  unfold mbind at 1, action_bind at 1.
  by rewrite (subprocess_check_not_started run _ _ _ Hrun).
Qed.

(** X21.  What [run_sprite_bench] of the suite makes of the benchmark it started:
    a non-zero exit status is raised as [CalledProcessError]; an exit status
    of 0 without a summary at [perf/<label>.json] raises
    [FileNotFoundError], and a summary that is not JSON raises
    [JSONDecodeError]; otherwise the summary is returned under ["summary"],
    and a missing text artefact only turns ["txt_path"] into [null]. *)
Theorem suite_bench_outcome (a : Suite.args) (ctx : Suite.context)
    (w : world) (proc : completed) (fs : filesystem) :
  run (Suite.bench_command a) (Suite.environ ctx) (files w)
    = Some (proc, fs) →
  ∃ outcome,
    Suite.run_sprite_bench run a ctx w
    = (outcome,
       {| files := fs; spawned := spawned w ++ [Suite.bench_command a] |})
    ∧ (exit_status proc ≠ 0%Z →
       outcome = Failed (Builtin (CalledProcessError (exit_status proc))))
    ∧ (exit_status proc = 0%Z →
       (fs !! Suite.bench_json_path a = None →
        outcome = Failed (Builtin FileNotFoundError))
       ∧ (∀ text, fs !! Suite.bench_json_path a = Some (TextFile text) →
                  outcome = Failed (Builtin JSONDecodeError))
       ∧ (∀ payload,
            fs !! Suite.bench_json_path a = Some (JsonFile payload) →
            ∃ fields,
              outcome = Done (JObj fields)
              ∧ assoc_get "summary" fields = Some payload
              ∧ assoc_get "json_path" fields
                = Some (JStr (Suite.bench_json_path a))
              ∧ assoc_get "txt_path" fields
                = Some (if decide (is_Some (fs !! Suite.bench_txt_path a))
                        then JStr (Suite.bench_txt_path a) else JNull))).
Proof.
  intros Hrun. rewrite (suite_bench_started a ctx w proc fs Hrun).
  eexists. split; [reflexivity|]. split.
  - intros Hexit. by rewrite (proj2 (Z.eqb_neq _ _) Hexit).
  - intros ->. cbn [Z.eqb negb]. split; [by intros ->|].
    split; [by intros text ->|]. intros payload ->.
    eexists. split; [reflexivity|]. split; [reflexivity|].
    split; [reflexivity|]. cbn [assoc_get String.eqb Ascii.eqb Bool.eqb].
    by destruct (fs !! Suite.bench_txt_path a) as [f|].
Qed.
End SuiteFacts.

Section SuiteMainFacts.
Context `{Shell}.
Variable run : machine.

Lemma suite_bench_spawned (a : Suite.args) (ctx : Suite.context)
    (w w1 : world) (r : attempt json) :
  Suite.run_sprite_bench run a ctx w = (r, w1) →
  spawned w1 = spawned w ++ [Suite.bench_command a]
  ∧ r ≠ Done JNull.
Proof.
  destruct (run (Suite.bench_command a) (Suite.environ ctx) (files w))
    as [[proc fs]|] eqn:Hrun.
  - rewrite (suite_bench_started run a ctx w proc fs Hrun).
    intros [= <- <-]. split; [done|].
    destruct (negb (Z.eqb (exit_status proc) 0)); [done|].
    by destruct (fs !! Suite.bench_json_path a) as [[]|].
  - rewrite (suite_bench_not_started run a ctx w Hrun).
    by intros [= <- <-].
Qed.

Lemma suite_capture_done (a : Suite.args) (ctx : Suite.context)
    (flag : bool) (w w1 : world) (result : json) :
  Suite.run_capture run a ctx flag w = (Done result, w1) →
  ∃ cmd, Suite.capture_command a flag = Ok cmd
         ∧ spawned w1 = spawned w ++ [cmd]
         ∧ result ≠ JNull.
Proof.
  unfold Suite.run_capture.
  destruct (Suite.capture_command a flag) as [cmd|e]; cbn [lift];
    unfold mbind at 1, action_bind at 1; cbn [mret action_ret raise];
    [|done].
  unfold mbind at 1, action_bind at 1.
  destruct (run cmd (Suite.environ ctx) (files w)) as [[proc fs]|] eqn:Hrun.
  - rewrite (subprocess_check_started run _ _ _ proc fs Hrun).
    destruct (Z.eqb (exit_status proc) 0); [|done].
    unfold mbind, action_bind, exists_file, Suite.load_json. cbn [files].
    destruct (fs !! Suite.capture_json_path a) as [[text|payload]|] eqn:Hjson.
    + rewrite bool_decide_eq_true_2 by eauto.
      cbn [negb mret action_ret raise files]. by rewrite Hjson.
    + rewrite bool_decide_eq_true_2 by eauto.
      cbn [negb mret action_ret raise files]. rewrite Hjson.
      intros [= <- <-]. eauto.
    + rewrite bool_decide_eq_false_2 by (by intros [? ?]). done.
  - by rewrite (subprocess_check_not_started run _ _ _ Hrun).
Qed.

(** X22.  A run of the suite that returns has returned 0 and written the suite
    summary, with [null] for exactly the steps that were skipped.  It has
    started the benchmark if that step was enabled and then the capture
    script if that step was enabled, each once; the capture script is told
    [--skip-bench] exactly when the suite has run the benchmark itself. *)
Theorem suite_main_outcome (a : Suite.args) (ctx : Suite.context)
    (w w' : world) (status : Z) :
  Suite.main run a ctx w = (Done status, w') →
  status = 0%Z
  ∧ ∃ bench capture,
      files w' !! Suite.suite_path a
      = Some (JsonFile (JObj [("label", JStr (Suite.label a));
                              ("timestamp", JStr (Suite.timestamp ctx));
                              ("sprite_bench", bench);
                              ("capture_sprite_perf", capture)]))
      ∧ (bench = JNull ↔ Suite.skip_bench a = true)
      ∧ (capture = JNull ↔ Suite.skip_capture a = true)
      ∧ spawned w'
        = spawned w
            ++ (if Suite.skip_bench a then [] else [Suite.bench_command a])
            ++ (if Suite.skip_capture a then []
                else match Suite.capture_command
                             a (negb (Suite.skip_bench a)) with
                     | Ok cmd => [cmd]
                     | Raise _ => []
                     end).
Proof.
  unfold Suite.main.
  destruct (Suite.skip_bench a) eqn:Hbench;
    destruct (Suite.skip_capture a) eqn:Hcapture; cbn [negb].
  - unfold mbind, action_bind, write_file. cbn [mret action_ret].
    intros [= <- <-]. split; [done|]. eexists _, _.
    split; [apply lookup_insert_eq|]. cbn [spawned default].
    split; [done|]. split; [done|]. by rewrite app_nil_r.
  - unfold mbind at 1, action_bind at 1. cbn [mret action_ret].
    unfold mbind at 1, action_bind at 1.
    unfold mbind at 1, action_bind at 1.
    rewrite bool_decide_eq_false_2 by (by intros [? ?]).
    destruct (Suite.run_capture run a ctx false w) as [[result|e] w1]
      eqn:Hrun; [|done].
    destruct (suite_capture_done _ _ _ _ _ _ Hrun) as (cmd & Hcmd & Hsp & Hnn).
    cbn [mret action_ret]. unfold mbind, action_bind, write_file.
    intros [= <- <-]. split; [done|]. eexists _, _.
    split; [apply lookup_insert_eq|]. cbn [spawned default].
    split; [done|]. split; [done|]. by rewrite Hcmd, Hsp.
  - unfold mbind at 1, action_bind at 1.
    unfold mbind at 1, action_bind at 1.
    destruct (Suite.run_sprite_bench run a ctx w) as [[result|e] w1]
      eqn:Hrun; [|done].
    destruct (suite_bench_spawned _ _ _ _ _ Hrun) as [Hsp Hnn].
    cbn [mret action_ret]. unfold mbind, action_bind, write_file.
    intros [= <- <-]. split; [done|]. eexists _, _.
    split; [apply lookup_insert_eq|]. cbn [spawned default].
    split; [|split; [done|by rewrite Hsp, app_nil_r]].
    split; [|done]. intros ->. done.
  - unfold mbind at 1, action_bind at 1.
    unfold mbind at 1, action_bind at 1.
    destruct (Suite.run_sprite_bench run a ctx w) as [[result|e] w1]
      eqn:Hrun; [|done].
    destruct (suite_bench_spawned _ _ _ _ _ Hrun) as [Hsp Hnn].
    cbn [mret action_ret].
    unfold mbind at 1, action_bind at 1.
    unfold mbind at 1, action_bind at 1.
    rewrite bool_decide_eq_true_2 by eauto.
    destruct (Suite.run_capture run a ctx true w1) as [[captured|e] w2]
      eqn:Hcap; [|done].
    destruct (suite_capture_done _ _ _ _ _ _ Hcap)
      as (cmd & Hcmd & Hsp2 & Hnn2).
    cbn [mret action_ret]. unfold mbind, action_bind, write_file.
    intros [= <- <-]. split; [done|]. eexists _, _.
    split; [apply lookup_insert_eq|]. cbn [spawned default].
    split; [|split; [done|by rewrite Hcmd, Hsp2, Hsp, <- app_assoc]].
    split; [|done]. intros ->. done.
Qed.

(** X23.  With both steps skipped the suite starts nothing and still writes a
    summary (where the capture script would refuse to run).  When the
    benchmark exits with a non-zero status, or with status 0 but without a
    summary at its path, the run ends there: the capture script is not
    started and the suite summary is not written. *)
Theorem suite_main_edges (a : Suite.args) (ctx : Suite.context) (w : world) :
  (Suite.skip_bench a = true → Suite.skip_capture a = true →
   Suite.main run a ctx w
   = (Done 0%Z,
      {| files :=
           <[Suite.suite_path a :=
               JsonFile (JObj [("label", JStr (Suite.label a));
                               ("timestamp", JStr (Suite.timestamp ctx));
                               ("sprite_bench", JNull);
                               ("capture_sprite_perf", JNull)])]> (files w);
         spawned := spawned w |}))
  ∧ (∀ proc fs,
       Suite.skip_bench a = false →
       run (Suite.bench_command a) (Suite.environ ctx) (files w)
         = Some (proc, fs) →
       exit_status proc ≠ 0%Z ∨ fs !! Suite.bench_json_path a = None →
       Suite.main run a ctx w
       = (Failed (Builtin (if Z.eqb (exit_status proc) 0
                           then FileNotFoundError
                           else CalledProcessError (exit_status proc))),
          {| files := fs;
             spawned := spawned w ++ [Suite.bench_command a] |})).
Proof.
  split.
  - intros Hbench Hcapture. unfold Suite.main. by rewrite Hbench, Hcapture.
  - intros proc fs Hbench Hrun Hfail.
    unfold Suite.main. rewrite Hbench. cbn [negb].
    unfold mbind at 1, action_bind at 1.
    unfold mbind at 1, action_bind at 1.
    rewrite (suite_bench_started run a ctx w proc fs Hrun).
    destruct (Z.eqb_spec (exit_status proc) 0) as [Hzero|Hnonzero];
      cbn [negb]; [|done].
    destruct Hfail as [Hexit| ->]; [done | done].
Qed.
End SuiteMainFacts.

Section SuiteOverBench.
Context `{PyFormat} `{Shell}.
Variable run : machine.

(** X24.  The suite finds what sprite_bench.py writes.  When the benchmark
    command behaves as [main] of sprite_bench.py run under the label the
    suite passed and that run completes, the suite's [run_sprite_bench]
    raises nothing, names both artefacts and returns the payload of the
    run as its summary. *)
Theorem suite_reads_bench_artefacts (a : Suite.args) (sctx : Suite.context)
    (w : world) (b : args) (bctx : context) (harness : nat → trial)
    (proc : completed) (fs' : filesystem) :
  arg_label b = Suite.or_else (Suite.bench_label a) (Suite.label a) →
  run (Suite.bench_command a) (Suite.environ sctx) (files w)
    = Some (proc, fs') →
  exit_status proc = 0%Z →
  main b bctx harness (files w) = (Ok 0%Z, fs') →
  ∃ rows text payload,
    report_of b bctx harness (files w) = Ok (rows, text, payload)
    ∧ Suite.run_sprite_bench run a sctx w
      = (Done (JObj [("label", JStr (arg_label b));
                     ("command",
                      JStr (Suite.shell_join (Suite.bench_command a)));
                     ("json_path", JStr (json_path b));
                     ("txt_path", JStr (text_path b));
                     ("summary", payload)]),
         {| files := fs';
            spawned := spawned w ++ [Suite.bench_command a] |}).
Proof.
  intros Hlabel Hrun Hexit Hmain.
  destruct (main_writes_both b bctx harness (files w) fs' Hmain)
    as (rows & text & payload & Hreport & Htext & Hjson & _).
  exists rows, text, payload. split; [done|].
  rewrite (suite_bench_started run a sctx w proc fs' Hrun), Hexit.
  cbn [Z.eqb negb].
  assert (Suite.bench_json_path a = json_path b) as ->
    by (unfold Suite.bench_json_path, json_path; by rewrite Hlabel).
  assert (Suite.bench_txt_path a = text_path b) as ->
    by (unfold Suite.bench_txt_path, text_path; by rewrite Hlabel).
  by rewrite Hjson, Htext, Hlabel.
Qed.
End SuiteOverBench.

Section SuiteOverCapture.
Context `{Shell}.
Variable run : machine.
Variable inner : machine.

(** X25.  The suite finds what capture_sprite_perf.py writes.  When the capture
    command behaves as [main] of capture_sprite_perf.py run under the label
    the suite passed and that run returns, the suite's [run_capture] raises
    nothing and returns the summary that run wrote. *)
Theorem suite_reads_capture_summary (a : Suite.args) (sctx : Suite.context)
    (flag : bool) (cmd : list string) (w : world) (c : Capture.args)
    (cctx : Capture.context) (w0 w1 : world) (status : Z)
    (proc : completed) :
  Capture.label c = Suite.or_else (Suite.capture_label a) (Suite.label a) →
  Suite.capture_command a flag = Ok cmd →
  run cmd (Suite.environ sctx) (files w) = Some (proc, files w1) →
  exit_status proc = 0%Z →
  Capture.main inner c cctx w0 = (Done status, w1) →
  ∃ summary,
    files w1 !! Capture.json_path c = Some (JsonFile summary)
    ∧ Suite.run_capture run a sctx flag w
      = (Done (JObj [("label", JStr (Capture.label c));
                     ("command", JStr (Suite.shell_join cmd));
                     ("json_path", JStr (Capture.json_path c));
                     ("summary", summary)]),
         {| files := files w1; spawned := spawned w ++ [cmd] |}).
Proof.
  intros Hlabel Hcmd Hrun Hexit Hmain.
  destruct (capture_main_done inner c cctx w0 w1 status Hmain)
    as (_ & _ & bench & profile & Hfile & _).
  eexists. split; [exact Hfile|].
  unfold Suite.run_capture. rewrite Hcmd. cbn [lift].
  unfold mbind at 1, action_bind at 1. cbn [mret action_ret].
  unfold mbind at 1, action_bind at 1.
  rewrite (subprocess_check_started run _ _ _ proc (files w1) Hrun), Hexit.
  cbn [Z.eqb].
  assert (Suite.capture_json_path a = Capture.json_path c) as ->
    by (unfold Suite.capture_json_path, Capture.json_path; by rewrite Hlabel).
  unfold mbind, action_bind, exists_file, Suite.load_json. cbn [files].
  rewrite bool_decide_eq_true_2 by (rewrite Hfile; eauto).
  cbn [negb mret action_ret raise files]. rewrite Hfile.
  by rewrite Hlabel.
Qed.
End SuiteOverCapture.

(** ** Properties of make_slime_png.py *)

Lemma lookup_concat_const {A : Type} (row : list A) (ys : list nat)
    (n y i : nat) :
  length row = n → (y < length ys)%nat → (i < n)%nat →
  concat (map (fun _ => row) ys) !! (y * n + i)%nat = row !! i.
Proof.
  intros <-. revert y.
  induction ys as [|y0 ys IH]; intros y Hy Hi; simpl in *; [lia|].
  destruct y as [|y].
  - simpl. by rewrite lookup_app_l.
  - rewrite lookup_app_r by lia.
    replace (S y * length row + i - length row)%nat
      with (y * length row + i)%nat by lia.
    apply IH; lia.
Qed.

Lemma length_concat_const {A : Type} (row : list A) (ys : list nat) :
  length (concat (map (fun _ => row) ys)) = (length ys * length row)%nat.
Proof.
  induction ys as [|y ys IH]; [done|].
  simpl. rewrite length_app, IH. lia.
Qed.

Lemma row_pixels_lookup (x k : nat) :
  (x < Slime.WIDTH)%nat → (k < 4)%nat →
  Slime.row_pixels !! (4 * x + k)%nat
  = Slime.COLORS !! (x / Slime.SEGMENT_WIDTH)%nat ≫= (.!! k).
Proof.
  intros Hx Hk.
  assert (forallb
            (fun x =>
               forallb
                 (fun k =>
                    bool_decide
                      (Slime.row_pixels !! (4 * x + k)%nat
                       = Slime.COLORS !! (x / Slime.SEGMENT_WIDTH)%nat
                           ≫= (.!! k)))
                 (seq 0 4))
            (seq 0 Slime.WIDTH) = true) as Hall by (vm_compute; reflexivity).
  rewrite forallb_forall in Hall.
  specialize (Hall x (proj2 (in_seq _ _ _) (conj (Nat.le_0_l _) Hx))).
  rewrite forallb_forall in Hall.
  specialize (Hall k (proj2 (in_seq _ _ _) (conj (Nat.le_0_l _) Hk))).
  by apply bool_decide_eq_true in Hall.
Qed.

(** X26.  The raw image [build_rows] returns: [HEIGHT] rows of one filter byte 0
    and [WIDTH] pixels of four bytes; the pixel in column [x] has the
    colour of the segment [x // SEGMENT_WIDTH], so the clamp of the colour
    index is never needed; all values are bytes. *)
Theorem build_rows_layout :
  length Slime.build_rows
  = (Slime.HEIGHT * (1 + 4 * Slime.WIDTH))%nat
  ∧ Forall is_byte Slime.build_rows
  ∧ ∀ x y, (x < Slime.WIDTH)%nat → (y < Slime.HEIGHT)%nat →
      Slime.build_rows !! (y * (1 + 4 * Slime.WIDTH))%nat = Some 0%Z
      ∧ Slime.color_index x = (x / Slime.SEGMENT_WIDTH)%nat
      ∧ ∀ k, (k < 4)%nat →
          Slime.build_rows !! (y * (1 + 4 * Slime.WIDTH) + 1 + 4 * x + k)%nat
          = Slime.COLORS !! (x / Slime.SEGMENT_WIDTH)%nat ≫= (.!! k).
Proof.
  assert (length (0%Z :: Slime.row_pixels) = (1 + 4 * Slime.WIDTH)%nat)
    as Hrow by (vm_compute; reflexivity).
  split.
  { unfold Slime.build_rows. rewrite length_concat_const.
    by rewrite length_seq, Hrow. }
  split.
  { unfold Slime.build_rows. apply Forall_concat, Forall_fmap, Forall_forall.
    intros idx Hidx. simpl. apply Forall_forall. intros b Hb.
    assert (forallb (fun b => bool_decide (is_byte b))
                    (0%Z :: Slime.row_pixels) = true)
      as Hall by (vm_compute; reflexivity).
    rewrite forallb_forall in Hall.
    apply (bool_decide_eq_true_1 (is_byte b)), Hall.
    by apply list_elem_of_In. }
  intros x y Hx Hy.
  assert (length (seq 0 Slime.HEIGHT) = Slime.HEIGHT) as Hrows
    by apply length_seq.
  split; [|split].
  - rewrite <- (Nat.add_0_r (y * _)). unfold Slime.build_rows.
    rewrite (lookup_concat_const _ _ _ _ _ Hrow); [done | lia | lia].
  - unfold Slime.color_index. apply Nat.min_l.
    assert (x / Slime.SEGMENT_WIDTH < 6)%nat as Hdiv.
    { apply Nat.Div0.div_lt_upper_bound.
      unfold Slime.WIDTH, Slime.SEGMENT_WIDTH in *. lia. }
    change (length Slime.COLORS - 1)%nat with 5%nat. lia.
  - intros k Hk. unfold Slime.build_rows.
    rewrite <- !Nat.add_assoc.
    rewrite (lookup_concat_const _ _ _ _ _ Hrow); [| lia | lia].
    change (1 + (4 * x + k))%nat with (S (4 * x + k)).
    rewrite lookup_cons. by apply row_pixels_lookup.
Qed.

Lemma pack_u32_spec (n : Z) :
  (0 ≤ n < 2 ^ 32)%Z →
  ∃ bytes, Slime.pack_u32 n = Done bytes
           ∧ length bytes = 4%nat
           ∧ Forall is_byte bytes
           ∧ be_value bytes = n.
Proof.
  intros Hn. unfold Slime.pack_u32. rewrite decide_True by done.
  eexists. split; [reflexivity|]. split; [reflexivity|].
  change 255%Z with (Z.ones 8). rewrite !Z.land_ones by lia.
  rewrite !Z.shiftr_div_pow2 by lia.
  split.
  - repeat constructor; apply Z.mod_pos_bound; lia.
  - unfold be_value. cbn [fold_left].
    change (2 ^ 24)%Z with (2 ^ 8 * (2 ^ 8 * 2 ^ 8))%Z.
    change (2 ^ 16)%Z with (2 ^ 8 * 2 ^ 8)%Z.
    rewrite <- !Z.div_div by lia.
    change (2 ^ 8)%Z with 256%Z.
    assert (n / 256 / 256 / 256 < 256)%Z as Htop.
    { repeat (apply Z.div_lt_upper_bound; [lia|]). lia. }
    rewrite (Z.mod_small (n / 256 / 256 / 256)) by
      (split; [repeat apply Z.div_pos; lia | lia]).
    pose proof (Z.div_mod n 256 ltac:(lia)).
    pose proof (Z.div_mod (n / 256) 256 ltac:(lia)).
    pose proof (Z.div_mod (n / 256 / 256) 256 ltac:(lia)).
    lia.
Qed.

Lemma pack_u32_out_of_range (n : Z) :
  ¬ (0 ≤ n < 2 ^ 32)%Z → Slime.pack_u32 n = Failed StructError.
Proof. intros Hn. unfold Slime.pack_u32. by rewrite decide_False. Qed.

Section PngFacts.
Context `{Slime.Zlib}.

Lemma chunk_spec (tag data : list Z) :
  (Z.of_nat (length data) < 2 ^ 32)%Z →
  ∃ size crc,
    Slime.chunk tag data = Done (size ++ tag ++ data ++ crc)
    ∧ length size = 4%nat ∧ length crc = 4%nat
    ∧ Forall is_byte size ∧ Forall is_byte crc
    ∧ be_value size = Z.of_nat (length data)
    ∧ be_value crc = (Slime.crc32 (tag ++ data) mod 2 ^ 32)%Z.
Proof.
  intros Hlen. unfold Slime.chunk.
  destruct (pack_u32_spec (Z.of_nat (length data)))
    as (size & -> & Hsize & Hbytes & Hvalue); [lia|].
  change 4294967295%Z with (Z.ones 32). rewrite Z.land_ones by lia.
  destruct (pack_u32_spec (Slime.crc32 (tag ++ data) mod 2 ^ 32))
    as (crc & Hcrc & Hcrclen & Hcrcbytes & Hcrcvalue).
  { apply Z.mod_pos_bound. lia. }
  exists size, crc. cbn [mbind Slime.attempt_mbind Slime.attempt_bind].
  rewrite Hcrc. done.
Qed.

Lemma chunk_with_size (tag data size : list Z) :
  Slime.pack_u32 (Z.of_nat (length data)) = Done size →
  ∃ crc, Slime.chunk tag data = Done (size ++ tag ++ data ++ crc)
         ∧ length crc = 4%nat.
Proof.
  intros Hsize. unfold Slime.chunk. rewrite Hsize.
  change 4294967295%Z with (Z.ones 32). rewrite Z.land_ones by lia.
  destruct (pack_u32_spec (Slime.crc32 (tag ++ data) mod 2 ^ 32))
    as (crc & Hcrc & Hcrclen & _).
  { apply Z.mod_pos_bound. lia. }
  exists crc. cbn [mbind Slime.attempt_mbind Slime.attempt_bind].
  by rewrite Hcrc.
Qed.

(** X27.  A chunk frames its data: four bytes with the length of the data, most
    significant first, the tag, the data, and four bytes with the low 32
    bits of the checksum of tag and data.  A chunk can be built for any data
    shorter than 2^32 bytes, whatever the checksum function returns; for
    longer data [struct.error] is raised. *)
Theorem chunk_frames_data (tag data : list Z) :
  ((Z.of_nat (length data) < 2 ^ 32)%Z →
   ∃ size crc,
     Slime.chunk tag data = Done (size ++ tag ++ data ++ crc)
     ∧ length size = 4%nat ∧ length crc = 4%nat
     ∧ Forall is_byte size ∧ Forall is_byte crc
     ∧ be_value size = Z.of_nat (length data)
     ∧ be_value crc = (Slime.crc32 (tag ++ data) mod 2 ^ 32)%Z)
  ∧ ((2 ^ 32 ≤ Z.of_nat (length data))%Z →
     Slime.chunk tag data = Failed StructError).
Proof.
  split; [apply chunk_spec|].
  intros Hlen. unfold Slime.chunk.
  by rewrite (pack_u32_out_of_range (Z.of_nat (length data))) by lia.
Qed.

(** X28.  The file [generate_png] writes: the PNG signature; an [IHDR] chunk of
    13 bytes that declares a 192 by 32 image of 8-bit RGBA, without
    interlacing; an [IDAT] chunk with the compressed rows; an empty [IEND]
    chunk.  The rows handed to the compressor have the size those
    dimensions call for: a filter byte and four bytes per pixel for each
    row. *)
Theorem generate_png_layout :
  (Z.of_nat (length (Slime.compress Slime.build_rows)) < 2 ^ 32)%Z →
  ∃ size crc_ihdr crc_idat crc_iend,
    Slime.generate_png
    = Done (Slime.SIGNATURE
              ++ ([0; 0; 0; 13] ++ Slime.ascii_bytes "IHDR"
                    ++ [0; 0; 0; 192; 0; 0; 0; 32; 8; 6; 0; 0; 0]
                    ++ crc_ihdr)
              ++ (size ++ Slime.ascii_bytes "IDAT"
                    ++ Slime.compress Slime.build_rows ++ crc_idat)
              ++ ([0; 0; 0; 0] ++ Slime.ascii_bytes "IEND" ++ [] ++ crc_iend))%Z
    ∧ length crc_ihdr = 4%nat ∧ length crc_idat = 4%nat
    ∧ length crc_iend = 4%nat ∧ length size = 4%nat
    ∧ be_value size = Z.of_nat (length (Slime.compress Slime.build_rows))
    ∧ length Slime.build_rows = (32 * (1 + 4 * 192))%nat.
Proof.
  intros Hlen. unfold Slime.generate_png.
  assert (Slime.header_fields
          = Done [0; 0; 0; 192; 0; 0; 0; 32; 8; 6; 0; 0; 0]%Z) as ->
    by reflexivity.
  cbn [mbind Slime.attempt_mbind Slime.attempt_bind].
  destruct (chunk_with_size (Slime.ascii_bytes "IHDR")
              [0; 0; 0; 192; 0; 0; 0; 32; 8; 6; 0; 0; 0]%Z
              [0; 0; 0; 13]%Z eq_refl) as (crc_ihdr & -> & Hihdr).
  destruct (chunk_spec (Slime.ascii_bytes "IDAT")
              (Slime.compress Slime.build_rows) Hlen)
    as (size & crc_idat & -> & Hsize & Hidat & _ & _ & Hvalue & _).
  destruct (chunk_with_size (Slime.ascii_bytes "IEND") [] [0; 0; 0; 0]%Z
              eq_refl) as (crc_iend & -> & Hiend).
  cbn [Slime.attempt_bind].
  exists size, crc_ihdr, crc_idat, crc_iend.
  split; [reflexivity|]. repeat (split; [done|]).
  unfold Slime.build_rows. rewrite length_concat_const, length_seq.
  reflexivity.
Qed.
End PngFacts.

(** ** Properties of capture_animation_samples.py *)

Section SceneFacts.
Variable run : machine.
Variable environ : gmap string string.

(** X29.  Without a scene name [main] captures the scenes in the order of their
    names, one command each, and stops at the first capture that fails:
    when the first scene fails the second is not started.  With a scene
    name it starts that capture alone.  A capture that exits with a
    non-zero status is raised as [CalledProcessError]. *)
Theorem scenes_captured_in_order (w : world) :
  let first := Scenes.capture_command "animation_showcase"
                 "assets/scenes/animation_showcase.json" in
  let second := Scenes.capture_command "skeletal_showcase"
                  "assets/scenes/skeletal_showcase.json" in
  (∀ proc fs,
     run first environ (files w) = Some (proc, fs) →
     exit_status proc ≠ 0%Z →
     Scenes.main run environ "" w
     = (Failed (Builtin (CalledProcessError (exit_status proc))),
        {| files := fs; spawned := spawned w ++ [first] |}))
  ∧ (∀ proc fs proc' fs',
       run first environ (files w) = Some (proc, fs) →
       exit_status proc = 0%Z →
       run second environ fs = Some (proc', fs') →
       Scenes.main run environ "" w
       = (if Z.eqb (exit_status proc') 0 then Done 0%Z
          else Failed (Builtin (CalledProcessError (exit_status proc'))),
          {| files := fs'; spawned := spawned w ++ [first; second] |}))
  ∧ (∀ scene scene_path proc fs,
       assoc_get scene Scenes.SCENES = Some scene_path →
       run (Scenes.capture_command scene scene_path) environ (files w)
         = Some (proc, fs) →
       Scenes.main run environ scene w
       = (if Z.eqb (exit_status proc) 0 then Done 0%Z
          else Failed (Builtin (CalledProcessError (exit_status proc))),
          {| files := fs;
             spawned := spawned w
                          ++ [Scenes.capture_command scene scene_path] |})).
Proof.
  intros first second. subst first second.
  assert (merge_sort String.le (map fst Scenes.SCENES)
          = ["animation_showcase"; "skeletal_showcase"]) as Hsorted
    by (vm_compute; reflexivity).
  split; [|split].
  - intros proc fs Hrun Hexit. unfold Scenes.main. cbn [String.eqb negb].
    rewrite Hsorted. cbn [Scenes.capture_each].
    unfold mbind at 1, action_bind at 1. unfold mbind at 1, action_bind at 1.
    unfold Scenes.run_capture at 1.
    cbn [assoc_get Scenes.SCENES String.eqb Ascii.eqb Bool.eqb].
    rewrite (subprocess_check_started run _ _ _ proc fs Hrun).
    by rewrite (proj2 (Z.eqb_neq _ _) Hexit).
  - intros proc fs proc' fs' Hrun Hexit Hrun'. unfold Scenes.main.
    cbn [String.eqb negb]. rewrite Hsorted. cbn [Scenes.capture_each].
    unfold mbind at 1, action_bind at 1. unfold mbind at 1, action_bind at 1.
    unfold Scenes.run_capture at 1.
    cbn [assoc_get Scenes.SCENES String.eqb Ascii.eqb Bool.eqb].
    rewrite (subprocess_check_started run _ _ _ proc fs Hrun), Hexit.
    cbn [Z.eqb]. unfold mbind at 1, action_bind at 1.
    unfold Scenes.run_capture at 1.
    cbn [assoc_get Scenes.SCENES String.eqb Ascii.eqb Bool.eqb].
    rewrite (subprocess_check_started run _ _ _ proc' fs') by exact Hrun'.
    cbn [spawned]. rewrite <- app_assoc.
    by destruct (Z.eqb (exit_status proc') 0).
  - intros scene scene_path proc fs Hscene Hrun. unfold Scenes.main.
    assert (negb (String.eqb scene "") = true) as ->
      by (by destruct scene).
    unfold mbind at 1, action_bind at 1.
    unfold Scenes.run_capture at 1. rewrite Hscene.
    rewrite (subprocess_check_started run _ _ _ proc fs Hrun).
    by destruct (Z.eqb (exit_status proc) 0).
Qed.
End SceneFacts.

(** ** Sample evaluations *)

Example rjust_pads : rjust 6 "1.000" = " 1.000" ∧ rjust 3 "12.500" = "12.500".
Proof. split; reflexivity. Qed.

Example header_with_baseline :
  header 3 true
  = ["system"; "run1"; "run2"; "run3"; "mean"; "stddev"; "delta"; "budget"].
Proof. vm_compute. reflexivity. Qed.

(** A short row is padded column by column; nothing is printed for the
    cells it lacks. *)
Example format_table_sample :
  format_table [["system"; "run1"; "mean"];
                ["sprite_fast"; "1.000"; "1.000"];
                ["b"; "12.500"]]
  = Ok ("     system    run1   mean" +:+ String "010" ""
        +:+ "sprite_fast   1.000  1.000" +:+ String "010" ""
        +:+ "          b  12.500").
Proof. vm_compute. reflexivity. Qed.

Example format_table_longer_row :
  format_table [["a"]; ["b"; "c"]] = Raise IndexError.
Proof. reflexivity. Qed.

Example py_int_samples :
  py_int "0012" = Ok 12%Z ∧ py_int "" = Raise ValueError.
Proof. split; reflexivity. Qed.

Example py_float_samples :
  (∃ v, py_float "3.25" = Ok v ∧ v = 3.25%R)
  ∧ (∃ v, py_float "7." = Ok v ∧ v = 7%R)
  ∧ (∃ v, py_float ".5" = Ok v ∧ v = 0.5%R)
  ∧ py_float "1.2.3" = Raise ValueError
  ∧ py_float "." = Raise ValueError.
Proof.
  split; [|split; [|split; [|split; reflexivity]]].
  - exists (IZR 325 / 10 ^ 2)%R. split; [reflexivity | lra].
  - exists (IZR 7 / 10 ^ 0)%R. split; [reflexivity | simpl; lra].
  - exists (IZR 5 / 10 ^ 1)%R. split; [reflexivity | lra].
Qed.

Example search_takes_first :
  (assoc_get "mean" <$> search STEP_STATS_RE sample_out) = Some (Some "1.5").
Proof. vm_compute. reflexivity. Qed.

(** A top-step line with the sprite mix matches both repeating patterns. *)
Example mix_line_matches_both :
  map (assoc_get "index") (finditer TOP_STEP_RE sample_out)
    = [Some "12"; Some "13"]
  ∧ map (assoc_get "index") (finditer TOP_MIX_RE sample_out) = [Some "13"].
Proof. split; vm_compute; reflexivity. Qed.

Example parse_sample_keys :
  ∃ data, parse_profile_output sample_out = Ok data
          ∧ map fst data = ["per_step_stats"; "top_steps"; "top_step_mix"].
Proof. eexists. split; [vm_compute; reflexivity | reflexivity]. Qed.

(** Interleaved and trailing noise lines change nothing. *)
Example parse_ignores_noise_lines :
  parse_profile_output
    ("[animation_profile]   step 12 -> 3.25 ms" +:+ String "010" ""
     +:+ "test result: ok. 1 passed; 0 failed" +:+ String "010" ""
     +:+ "[animation_profile]   step 13 -> 3.5 ms" +:+ String "010" ""
     +:+ "   Doc-tests kestrel" +:+ String "010" "")
  = parse_profile_output
      ("[animation_profile]   step 12 -> 3.25 ms" +:+ String "010" ""
       +:+ "[animation_profile]   step 13 -> 3.5 ms" +:+ String "010" "").
Proof. vm_compute. reflexivity. Qed.

(** A malformed field in a later occurrence of a single-shot category is
    never converted: the occurrence is ignored as a whole. *)
Example later_occurrence_not_converted :
  ∃ data,
    parse_profile_output
      ("[animation_profile] anim_stats sprite bucket avg: fast=1.5 "
       +:+ "entities/frame general=2.5 entities/frame" +:+ String "010" ""
       +:+ "[animation_profile] anim_stats sprite bucket avg: fast=1..5 "
       +:+ "entities/frame general=2.5 entities/frame" +:+ String "010" "")
    = Ok data
    ∧ map fst data = ["sprite_bucket_avg"].
Proof. eexists. split; [vm_compute; reflexivity | reflexivity]. Qed.

Example parse_noise_only :
  parse_profile_output ("running 1 test" +:+ String "010" "" +:+ "test ok")
  = Ok [].
Proof. reflexivity. Qed.

Example load_gappy_baseline :
  ∃ mapping meta,
    load_baseline {["perf/base.json" := JsonFile gappy_baseline]}
      "perf/base.json" = Ok (mapping, meta)
    ∧ mapping !! "sprite_fast" = Some (JFloat 5)
    ∧ mapping !! "sprite_general" = Some (JFloat 0)
    ∧ mapping !! "other" = None
    ∧ assoc_get "label" meta = Some (JStr "before_phase0")
    ∧ assoc_get "commit" meta = Some JNull.
Proof. eexists _, _. split; [reflexivity|]. repeat split; reflexivity. Qed.

Example load_baseline_errors :
  load_baseline {["b.json" := JsonFile (JArr [])]} "b.json"
    = Raise AttributeError
  ∧ load_baseline {["b.json" := JsonFile (JObj [("systems", JArr [JObj []])])]}
      "b.json" = Raise (KeyError "label")
  ∧ load_baseline {["b.json" := TextFile "not json"]} "b.json"
    = Raise JSONDecodeError.
Proof. repeat split; reflexivity. Qed.

Example sample_out_lines : render_output sample_lines = sample_out.
Proof. reflexivity. Qed.

Example sample_lines_well_formed : Forall well_formed_line sample_lines.
Proof.
  unfold sample_lines, sample_stats, sample_mix.
  repeat first [ constructor | done ].
Qed.

Example sample_line_occurrences :
  omap (line_occurrence TopStep) sample_lines
  = [[("index", "12"); ("value", "3.25")]; [("index", "13"); ("value", "3.5")]]
  ∧ omap (line_occurrence TopStepMix) sample_lines = [sample_mix]
  ∧ omap (line_occurrence Totals) sample_lines = [].
Proof. done. Qed.

(** ** The properties at the sample inputs *)

(** C1 at the sample 10, 20, 30 without a baseline. *)
Lemma finalize_mean_and_stddev_witness :
  runs (slot_of (entry_of "a" 5 10) [10; 20; 30]%R) ≠ []
  ∧ ∃ row entry,
      @summarise fixed_format false ∅ "a"
        (slot_of (entry_of "a" 5 10) [10; 20; 30]%R) = Ok (row, JObj entry)
      ∧ assoc_get "mean_ms" entry = Some (JFloat 20)
      ∧ assoc_get "stddev_ms" entry
        = Some (JFloat (population_stddev [10; 20; 30]%R))
      ∧ (8.1645 < population_stddev [10; 20; 30] < 8.1655)%R.
Proof.
  split; [discriminate|].
  destruct (@finalize_mean_and_stddev fixed_format false ∅ "a"
              (slot_of (entry_of "a" 5 10) [10; 20; 30]%R) "" None)
    as (row & entry & Hsum & _ & _ & Hsample);
    [discriminate | reflexivity |].
  destruct (Hsample eq_refl) as (Hmean & Hstd & Hbounds).
  exists row, entry.
  split; [exact Hsum|]. split; [exact Hmean|]. split; [exact Hstd|].
  exact Hbounds.
Defined.

(** C2 at the baseline mean 5.0 against the current mean 6.5, and at a
    label the baseline lacks. *)
Lemma delta_against_baseline_witness :
  (∃ row entry,
     @summarise fixed_format true {["sprite_fast" := JFloat 5]} "sprite_fast"
       (slot_of (entry_of "sprite_fast" 8 6.5) [6.5]%R) = Ok (row, JObj entry)
     ∧ assoc_get "delta_vs_baseline_ms" entry = Some (JFloat 1.5))
  ∧ (∃ row entry,
       @summarise fixed_format true {["sprite_fast" := JFloat 5]}
         "sprite_general"
         (slot_of (entry_of "sprite_general" 8 6.5) [6.5]%R)
       = Ok (row, JObj entry)
       ∧ assoc_get "delta_vs_baseline_ms" entry = None
       ∧ row !! 4%nat = Some "n/a").
Proof.
  split.
  - destruct (@delta_against_baseline fixed_format
                {["sprite_fast" := JFloat 5]} "sprite_fast"
                (slot_of (entry_of "sprite_fast" 8 6.5) [6.5]%R))
      as [Hpresent _]; [discriminate|].
    destruct (Hpresent (JFloat 5) 5%R) as (row & entry & Hsum & _ & _ & Hd);
      [reflexivity | reflexivity |].
    exists row, entry. split; [exact Hsum|]. apply Hd; [|reflexivity].
    unfold arithmetic_mean. simpl. lra.
  - destruct (@delta_against_baseline fixed_format
                {["sprite_fast" := JFloat 5]} "sprite_general"
                (slot_of (entry_of "sprite_general" 8 6.5) [6.5]%R))
      as [_ Habsent]; [discriminate|].
    destruct Habsent as (row & entry & Hsum & Hnone & Hcell); [reflexivity|].
    exists row, entry.
    split; [exact Hsum|]. split; [exact Hnone | exact Hcell].
Defined.

(** C4 at three trials of which the second exits with status 101. *)
Lemma failed_trial_aborts_run_witness :
  (1 ≤ 2 ≤ Z.to_nat (arg_runs failing_args))%nat
  ∧ returncode (failing_harness 2) ≠ 0%Z
  ∧ @report_of fixed_format failing_args sample_context failing_harness ∅
    = Raise (CalledProcessError 101)
  ∧ @main fixed_format failing_args sample_context failing_harness ∅
    = (Raise (CalledProcessError 101), ∅).
Proof.
  assert (1 ≤ 2 ≤ Z.to_nat (arg_runs failing_args))%nat as Hk
    by (simpl; lia).
  assert (returncode (failing_harness 2) ≠ 0%Z) as Hrc by discriminate.
  destruct (@failed_trial_aborts_run fixed_format failing_args sample_context
              failing_harness ∅ 2%nat Hk Hrc) as (e & Hrep & Hmain & Hexact).
  assert (e = CalledProcessError 101) as ->.
  { apply Hexact; [by left|]. intros j Hj.
    assert (j = 1%nat) as -> by lia. split; [reflexivity | discriminate]. }
  split; [exact Hk|]. split; [exact Hrc|]. split; [exact Hrep | exact Hmain].
Defined.

(** C5 at the ragged sample run, which has no baseline. *)
Lemma delta_column_is_per_run_witness :
  ∃ rows text payload,
    @report_of fixed_format ragged_args sample_context ragged_harness ∅
      = Ok (rows, text, payload)
    ∧ head rows = Some ["system"; "run1"; "run2"; "mean"; "stddev"; "budget"]
    ∧ (∀ entry, entry ∈ payload_systems payload →
         ∃ e, entry = JObj e ∧ assoc_get "delta_vs_baseline_ms" e = None).
Proof.
  destruct (@ragged_report fixed_format sample_context ∅)
    as (row_a & table & text & payload & Hrep & _).
  destruct (@delta_column_is_per_run fixed_format ragged_args sample_context
              ragged_harness ∅ _ text payload Hrep)
    as (hdr & data & table' & preamble & Hrows & _ & _ & Hnone & _).
  destruct (Hnone eq_refl) as (Hhdr & _ & Hfields & _).
  eexists _, text, payload. split; [exact Hrep|].
  split; [reflexivity | exact Hfields].
Defined.

(** C8 at the ragged sample run. *)
Lemma report_round_trip_witness :
  ∃ fs' payload mapping meta,
    @main fixed_format ragged_args sample_context ragged_harness ∅
      = (Ok 0%Z, fs')
    ∧ fs' !! "perf/ragged.json" = Some (JsonFile payload)
    ∧ load_baseline fs' "perf/ragged.json" = Ok (mapping, meta)
    ∧ (∀ label, mapping !! label = assoc_get label (label_means payload))
    ∧ length (label_means payload) = length (payload_systems payload).
Proof.
  destruct (@ragged_report fixed_format sample_context ∅)
    as (row_a & table & text & payload & Hrep & _).
  assert (@main fixed_format ragged_args sample_context ragged_harness ∅
          = (Ok 0%Z, <[json_path ragged_args := JsonFile payload]>
                       (<[text_path ragged_args := TextFile text]> ∅)))
    as Hmain.
  { unfold main. rewrite Hrep. reflexivity. }
  destruct (@report_round_trip fixed_format ragged_args sample_context
              ragged_harness ∅ _ Hmain)
    as (rows' & text' & payload' & mapping & meta
        & Hrep' & Hfile & Hload & Hmap & _ & Hlen).
  exists (<[json_path ragged_args := JsonFile payload]>
            (<[text_path ragged_args := TextFile text]> ∅)),
    payload', mapping, meta.
  split; [exact Hmain|]. split; [exact Hfile|]. split; [exact Hload|].
  split; [exact Hmap | exact Hlen].
Defined.

(** C6 at a top-step line whose value has two dots. *)
Lemma malformed_field_is_fatal_witness :
  [("index", "3"); ("value", "1.2.3")] ∈ kept TopStep malformed_out
  ∧ field_value TopStep ("value", "1.2.3") = Raise ValueError
  ∧ parse_profile_output malformed_out = Raise ValueError.
Proof.
  assert ([("index", "3"); ("value", "1.2.3")] ∈ kept TopStep malformed_out)
    as Hm by (vm_compute; apply list_elem_of_here).
  assert (("value", "1.2.3") ∈ [("index", "3"); ("value", "1.2.3")]) as Hkv
    by (apply list_elem_of_further, list_elem_of_here).
  assert (field_value TopStep ("value", "1.2.3") = Raise ValueError) as Hf
    by reflexivity.
  split; [exact Hm|]. split; [exact Hf|].
  exact (proj2 (malformed_field_is_fatal malformed_out TopStep _ _ _
                  Hm Hkv Hf)).
Defined.

(** C7 as the design document words it fails: three baseline artefacts
    that exist, are JSON and hold no per-label entry, and for which the
    loader raises instead of returning the empty map. *)
Lemma load_baseline_without_entries_raises :
  (no_recognizable_entries label_free_baseline
   ∧ load_baseline {["perf/base.json" := JsonFile label_free_baseline]}
       "perf/base.json" = Raise (KeyError "label"))
  ∧ (no_recognizable_entries null_systems_baseline
     ∧ load_baseline {["perf/base.json" := JsonFile null_systems_baseline]}
         "perf/base.json" = Raise TypeError)
  ∧ (no_recognizable_entries (JArr [])
     ∧ load_baseline {["perf/base.json" := JsonFile (JArr [])]}
         "perf/base.json" = Raise AttributeError).
Proof.
  unfold no_recognizable_entries.
  repeat split; first [ reflexivity | repeat constructor ].
Qed.

(** C7 at a missing path, at a baseline document without [systems] and at
    one whose only entry has no label. *)
Lemma load_baseline_not_found_or_empty_witness :
  load_baseline {["perf/base.json" := JsonFile empty_baseline]} "perf/none.json"
    = Raise FileNotFoundError
  ∧ (∃ meta,
       load_baseline {["perf/base.json" := JsonFile empty_baseline]}
         "perf/base.json" = Ok (∅, meta))
  ∧ ∃ e,
      load_baseline {["perf/base.json" := JsonFile label_free_baseline]}
        "perf/base.json" = Raise e
      ∧ (e = AttributeError ∨ e = TypeError ∨ e = KeyError "label").
Proof.
  split; [|split].
  - apply (proj1 (load_baseline_not_found_or_empty
                    {["perf/base.json" := JsonFile empty_baseline]}
                    "perf/none.json")).
    reflexivity.
  - apply (proj1 (proj2 (load_baseline_not_found_or_empty
                           {["perf/base.json" := JsonFile empty_baseline]}
                           "perf/base.json")) empty_baseline);
      [reflexivity|].
    eexists. split; reflexivity.
  - apply (proj2 (proj2 (load_baseline_not_found_or_empty
                           {["perf/base.json" := JsonFile label_free_baseline]}
                           "perf/base.json")) label_free_baseline).
    + reflexivity.
    + unfold no_recognizable_entries. repeat constructor.
    + intros (kvs & [= <-] & Hiter). discriminate Hiter.
Defined.

(** C10 at a baseline whose entry for [sprite_general] lacks [mean_ms],
    with the current mean 6.5. *)
Lemma missing_mean_loads_as_zero_witness :
  ∃ mapping meta row entry,
    load_baseline {["perf/base.json" := JsonFile gappy_baseline]}
      "perf/base.json" = Ok (mapping, meta)
    ∧ mapping !! "sprite_general" = Some (JFloat 0)
    ∧ @summarise fixed_format true mapping "sprite_general"
        (slot_of (entry_of "sprite_general" 8 6.5) [6.5]%R)
      = Ok (row, JObj entry)
    ∧ assoc_get "delta_vs_baseline_ms" entry
      = Some (JFloat (arithmetic_mean [6.5] - 0)%R).
Proof.
  destruct (@missing_mean_loads_as_zero fixed_format
              {["perf/base.json" := JsonFile gappy_baseline]} "perf/base.json"
              [("label", JStr "before_phase0");
               ("systems",
                JArr [JObj [("label", JStr "sprite_fast");
                            ("mean_ms", JFloat 5)];
                      JObj [("label", JStr "sprite_general")]])]
              [("label", JStr "sprite_general")]
              [JObj [("label", JStr "sprite_fast"); ("mean_ms", JFloat 5)]]
              [] "sprite_general"
              (slot_of (entry_of "sprite_general" 8 6.5) [6.5]%R))
    as (mapping & meta & row & entry & Hload & Hzero & Hsum & Hdelta & _).
  - reflexivity.
  - reflexivity.
  - reflexivity.
  - reflexivity.
  - repeat constructor. by eexists.
  - constructor.
  - discriminate.
  - exists mapping, meta, row, entry.
    split; [exact Hload|]. split; [exact Hzero|].
    split; [exact Hsum | exact Hdelta].
Defined.

(** C3 at the sample output: the repeated step-stats line is ignored, the
    two top-step lines give two records in order, the noise line none; the
    occurrences are those of the lines. *)
Lemma extractor_records_witness :
  ∃ data first later stats steps,
    parse_profile_output sample_out = Ok data
    ∧ occurrences StepStats sample_out = [first; later]
    ∧ assoc_get "mean" first = Some "1.5"
    ∧ assoc_get "mean" later = Some "9.5"
    ∧ record_of StepStats first = Ok stats
    ∧ assoc_get "per_step_stats" data = Some stats
    ∧ Forall2 (fun m r => record_of TopStep m = Ok r)
              (occurrences TopStep sample_out) steps
    ∧ length steps = 2%nat
    ∧ assoc_get "top_steps" data = Some (JArr steps)
    ∧ (∀ c, occurrences c sample_out = omap (line_occurrence c) sample_lines).
Proof.
  destruct (extractor_records sample_out)
    as (Hchar & Htotal & _ & _ & _ & Hlines).
  destruct Htotal as [data Hdata].
  { intros c m kv Hm Hkv.
    destruct c; vm_compute in Hm;
      repeat (apply elem_of_cons in Hm as [->|Hm]);
      try (by apply elem_of_nil in Hm);
      repeat (apply elem_of_cons in Hkv as [->|Hkv]);
      try (by apply elem_of_nil in Hkv);
      eexists; reflexivity. }
  destruct (Hchar data Hdata) as (_ & Hsingle & Hrepeat).
  pose proof (Hsingle StepStats eq_refl) as Hstats.
  assert (occurrences StepStats sample_out
          = [[("mean", "1.5"); ("p95", "2.0"); ("max", "3.25");
              ("steady", "1.4"); ("steady_samples", "200");
              ("spike", "3.0"); ("spike_samples", "4")];
             [("mean", "9.5"); ("p95", "2.0"); ("max", "3.25");
              ("steady", "1.4"); ("steady_samples", "200");
              ("spike", "3.0"); ("spike_samples", "4")]]) as Hocc
    by (vm_compute; reflexivity).
  rewrite Hocc in Hstats. destruct Hstats as (stats & Hrec & Hget).
  destruct (Hrepeat TopStep eq_refl) as (steps & Hall & Hsteps).
  assert (length steps = 2%nat) as Hlen.
  { rewrite <- (Forall2_length _ _ _ Hall). vm_compute. reflexivity. }
  eexists data, _, _, stats, steps.
  split; [exact Hdata|]. split; [exact Hocc|].
  split; [reflexivity|]. split; [reflexivity|]. split; [exact Hrec|].
  split; [exact Hget|]. split; [exact Hall|]. split; [exact Hlen|].
  split; [destruct steps; [discriminate Hlen | exact Hsteps]|].
  exact (Hlines sample_lines sample_lines_well_formed eq_refl).
Defined.

(** ** Further sample evaluations *)

Example build_command_default :
  @build_command sample_shell
    {| arg_profile := "release"; arg_features := "";
       arg_test := "animation_targets_measure";
       arg_test_args := "--ignored --nocapture" |}
  = Ok (cmd sample_context).
Proof. reflexivity. Qed.

Example lower_samples :
  lower "Bench-Release" = "bench-release" ∧ lower "DEV_2" = "dev_2".
Proof. split; reflexivity. Qed.

Example path_name_samples :
  path_name "perf/after_phase1_profile.log" = "after_phase1_profile.log"
  ∧ path_name "perf/nightly/run_profile.log" = "run_profile.log"
  ∧ path_name "plain" = "plain".
Proof. repeat split; reflexivity. Qed.

Example python_candidates_sample :
  Capture.python_candidates sample_capture_args sample_capture_context
  = ["python3"; "/usr/bin/python3"; "python"].
Proof. reflexivity. Qed.

(** ** The further properties at the sample inputs *)

Lemma trial_loop_collects_witness :
  ∃ cases bench_meta,
    for_each (run_trial meta_harness) (trial_indices 3) (∅, None)
      = Ok (cases, bench_meta)
    ∧ cases !! "a" = Some (slot_of (entry_of "a" 5 1) [1; 2; 3]%R)
    ∧ cases !! "c" = None.
Proof.
  eexists _, _. split; [reflexivity|]. split.
  - by rewrite (trial_loop_collects meta_harness (trial_indices 3) _ _ "a"
                  eq_refl).
  - by rewrite (trial_loop_collects meta_harness (trial_indices 3) _ _ "c"
                  eq_refl).
Defined.

Lemma bench_meta_is_first_nonempty_witness :
  ∃ cases,
    for_each (run_trial meta_harness) (trial_indices 3) (∅, None)
      = Ok (cases, Some [("profile", JStr "release")]).
Proof.
  assert (∃ cases bench_meta,
            for_each (run_trial meta_harness) (trial_indices 3) (∅, None)
            = Ok (cases, bench_meta)) as (cases & bench_meta & Hloop)
    by (eexists _, _; reflexivity).
  exists cases. rewrite Hloop.
  rewrite (bench_meta_is_first_nonempty meta_harness (trial_indices 3)
             cases bench_meta Hloop).
  reflexivity.
Defined.

Lemma report_sorted_by_label_witness :
  ∃ rows text payload labels,
    @report_of fixed_format ragged_args sample_context ragged_harness ∅
      = Ok (rows, text, payload)
    ∧ Forall2 (fun label row => head row = Some label) labels (tail rows)
    ∧ StronglySorted String.le labels.
Proof.
  destruct (@ragged_report fixed_format sample_context ∅)
    as (row_a & table & text & payload & Hrep & _).
  destruct (@report_sorted_by_label fixed_format ragged_args sample_context
              ragged_harness ∅ _ text payload Hrep)
    as (hdr & data & labels & Hrows & Hheads & _ & Hsorted & _).
  eexists _, text, payload, labels. split; [exact Hrep|].
  rewrite Hrows. split; [exact Hheads | exact Hsorted].
Defined.

Lemma main_touches_only_artefacts_witness :
  (∃ fs',
     @main fixed_format ragged_args sample_context ragged_harness
           {["perf/base.json" := JsonFile empty_baseline]}
       = (Ok 0%Z, fs')
     ∧ fs' !! "perf/base.json" = Some (JsonFile empty_baseline)
     ∧ fs' !! "perf/other.json" = None)
  ∧ ∃ fs' text,
      @main fixed_format ragged_args refusing_context ragged_harness ∅
        = (Raise PermissionError, fs')
      ∧ fs' !! "perf/ragged.txt" = Some (TextFile text)
      ∧ fs' !! "perf/ragged.json" = None.
Proof.
  split.
  - destruct (@ragged_report fixed_format sample_context
                {["perf/base.json" := JsonFile empty_baseline]})
      as (row_a & table & text & payload & Hrep & _).
    eexists. split.
    + unfold main. rewrite Hrep. reflexivity.
    + destruct (@main_touches_only_artefacts fixed_format ragged_args
                  sample_context ragged_harness
                  {["perf/base.json" := JsonFile empty_baseline]}
                  _ _ ltac:(unfold main; rewrite Hrep; reflexivity))
        as [Hother _].
      split.
      * by rewrite (Hother "perf/base.json").
      * by rewrite (Hother "perf/other.json").
  - destruct (@ragged_report fixed_format refusing_context ∅)
      as (row_a & table & text & payload & Hrep & _).
    assert (@main fixed_format ragged_args refusing_context ragged_harness ∅
            = (Raise PermissionError,
               <[text_path ragged_args := TextFile text]> ∅)) as Hmain
      by (unfold main; rewrite Hrep; reflexivity).
    destruct (@main_touches_only_artefacts fixed_format ragged_args
                refusing_context ragged_harness ∅ _ _ Hmain)
      as [_ [[Hok _]|[(e & _ & _ & [Hraise|Hrefused])
                     |(e & rows' & text' & payload' & _ & _ & _ & _ & Hfs
                       & Hjson)]]].
    + discriminate Hok.
    + rewrite Hrep in Hraise. discriminate Hraise.
    + discriminate Hrefused.
    + eexists _, text. split; [exact Hmain|]. split.
      * apply lookup_insert_eq.
      * etrans; [exact Hjson | apply lookup_empty].
Defined.

Lemma missing_report_aborts_run_witness :
  (1 ≤ 2 ≤ Z.to_nat (arg_runs failing_args))%nat
  ∧ returncode (silent_harness 2) = 0%Z
  ∧ report_after (silent_harness 2) = None
  ∧ @main fixed_format failing_args sample_context silent_harness ∅
    = (Raise FileNotFoundError, ∅).
Proof.
  assert (1 ≤ 2 ≤ Z.to_nat (arg_runs failing_args))%nat as Hk
    by (simpl; lia).
  destruct (@missing_report_aborts_run fixed_format failing_args
              sample_context silent_harness ∅ 2%nat Hk eq_refl eq_refl)
    as (e & _ & Hmain & Hexact).
  assert (e = FileNotFoundError) as ->.
  { apply Hexact; [by left|]. intros j Hj.
    assert (j = 1%nat) as -> by lia. split; [reflexivity | discriminate]. }
  split; [exact Hk|]. split; [reflexivity|]. split; [reflexivity|].
  exact Hmain.
Defined.

Lemma baseline_mean_not_a_number_witness :
  (∃ row entry,
     @summarise fixed_format true {["a" := JNull]} "a"
       (slot_of (entry_of "a" 8 6.5) [6.5]%R) = Ok (row, JObj entry)
     ∧ assoc_get "delta_vs_baseline_ms" entry = None
     ∧ row !! 4%nat = Some "n/a")
  ∧ @summarise fixed_format true {["a" := JStr "fast"]} "a"
      (slot_of (entry_of "a" 8 6.5) [6.5]%R) = Raise TypeError.
Proof.
  split.
  - apply (proj1 (@baseline_mean_not_a_number fixed_format {["a" := JNull]}
                    "a" (slot_of (entry_of "a" 8 6.5) [6.5]%R)
                    ltac:(discriminate))).
    reflexivity.
  - apply (proj2 (@baseline_mean_not_a_number fixed_format
                    {["a" := JStr "fast"]}
                    "a" (slot_of (entry_of "a" 8 6.5) [6.5]%R)
                    ltac:(discriminate)) (JStr "fast"));
      [reflexivity | discriminate | reflexivity].
Defined.

Lemma duplicate_label_last_wins_witness :
  ∃ mapping meta,
    load_baseline {["b.json" := JsonFile (JObj repeating_baseline)]} "b.json"
      = Ok (mapping, meta)
    ∧ mapping !! "a" = Some (JFloat 3).
Proof.
  apply (duplicate_label_last_wins
           {["b.json" := JsonFile (JObj repeating_baseline)]} "b.json"
           repeating_baseline
           [JObj [("label", JStr "a"); ("mean_ms", JFloat 1)];
            JObj [("label", JStr "b"); ("mean_ms", JFloat 2)]]
           []
           (JObj [("label", JStr "a"); ("mean_ms", JFloat 3)]) "a").
  - reflexivity.
  - reflexivity.
  - repeat constructor; by eexists.
  - reflexivity.
  - constructor.
Defined.

Lemma unlabelled_entry_raises_witness :
  load_baseline {["b.json" := JsonFile (JObj unlabelled_baseline)]} "b.json"
  = Raise (KeyError "label").
Proof.
  apply (unlabelled_entry_raises
           {["b.json" := JsonFile (JObj unlabelled_baseline)]} "b.json"
           unlabelled_baseline [("mean_ms", JFloat 2)]
           [JObj [("label", JStr "a"); ("mean_ms", JFloat 1)]]
           [JObj [("label", JStr "c")]]).
  - reflexivity.
  - reflexivity.
  - repeat constructor. by eexists.
  - reflexivity.
Defined.

Lemma format_table_rectangular_witness :
  ∃ lines,
    format_table [["system"; "run1"; "mean"];
                  ["sprite_fast"; "1.000"; "1.000"];
                  ["b"; "12.500"; "12.500"]]
      = Ok (join (String "010" "") lines)
    ∧ Forall (fun line => len line = 27%nat) lines.
Proof.
  destruct (format_table_rectangular
              ["system"; "run1"; "mean"]
              [["sprite_fast"; "1.000"; "1.000"]; ["b"; "12.500"; "12.500"]])
    as (lines & Htable & _ & Hlen).
  - repeat constructor.
  - exists lines. split; [exact Htable | exact Hlen].
Defined.

Lemma build_command_ignores_profile_case_witness :
  @build_command sample_shell
    {| arg_profile := "Release"; arg_features := "";
       arg_test := "animation_targets_measure";
       arg_test_args := "--ignored --nocapture" |}
  = @build_command sample_shell
      {| arg_profile := "RELEASE"; arg_features := "";
         arg_test := "animation_targets_measure";
         arg_test_args := "--ignored --nocapture" |}.
Proof.
  apply (proj1 (@build_command_ignores_profile_case sample_shell
                  {| arg_profile := "Release"; arg_features := "";
                     arg_test := "animation_targets_measure";
                     arg_test_args := "--ignored --nocapture" |}
                  {| arg_profile := "RELEASE"; arg_features := "";
                     arg_test := "animation_targets_measure";
                     arg_test_args := "--ignored --nocapture" |}
                  eq_refl eq_refl eq_refl eq_refl)).
Defined.

Lemma stderr_metrics_are_extracted_witness :
  ∃ text w',
    @Capture.run_subprocess noisy_machine Capture.PROFILE_CMD ∅ empty_world
      = (Done text, w')
    ∧ occurrences TopStep text
      = [[("index", "12"); ("value", "3.25")];
         [("index", "13"); ("value", "3.5")]].
Proof.
  destruct (stderr_metrics_are_extracted noisy_machine Capture.PROFILE_CMD ∅
              empty_world noisy_proc ∅
              [Metric TopStep [("index", "12"); ("value", "3.25")]
                      [" "; " "; " "; " "]]
              [Noise "warning: unused variable";
               Metric TopStepMix sample_mix [" "; " "; " "; " "]]
              TopStep)
    as (text & w' & Hrun & Hocc).
  - reflexivity.
  - reflexivity.
  - unfold sample_mix. repeat first [ constructor | done ].
  - unfold sample_mix. repeat first [ constructor | done ].
  - reflexivity.
  - reflexivity.
  - exists text, w'. split; [exact Hrun | exact Hocc].
Defined.

Lemma profile_log_precedes_parsing_witness :
  ∃ stats w',
    @Capture.run_animation_profile sample_shell (sample_machine 0)
      sample_capture_args ∅ empty_world = (Done stats, w')
    ∧ files w' !! "perf/after_phase1_profile.log" = Some (TextFile sample_out)
    ∧ assoc_get "log" stats = Some (JStr "after_phase1_profile.log").
Proof.
  destruct (@profile_log_precedes_parsing sample_shell (sample_machine 0)
              sample_capture_args ∅ empty_world Capture.PROFILE_CMD
              {| exit_status := 0; proc_stdout := sample_out;
                 proc_stderr := "" |} ∅ eq_refl eq_refl) as [Hrun Hname].
  assert (∃ data, parse_profile_output sample_out = Ok data
                  ∧ assoc_get "log" data = None) as (data & Hparse & Hnone)
    by (eexists; split; [vm_compute; reflexivity | reflexivity]).
  cbn [exit_status Z.eqb captured_text proc_stderr proc_stdout String.eqb negb]
    in Hrun.
  rewrite Hparse in Hrun. eexists _, _. split; [exact Hrun|].
  split; [reflexivity|].
  rewrite (Hname eq_refl). by apply assoc_get_app_new.
Defined.

Lemma capture_main_summary_witness :
  ∃ status w' summary,
    @Capture.main sample_shell (sample_machine 0) sample_capture_args
      sample_capture_context empty_world = (Done status, w')
    ∧ status = 0%Z
    ∧ files w' !! "perf/after_phase1_capture.json" = Some (JsonFile summary)
    ∧ is_Some (files w' !! "perf/after_phase1_profile.log").
Proof.
  assert (∃ status w',
            @Capture.main sample_shell (sample_machine 0) sample_capture_args
              sample_capture_context empty_world = (Done status, w'))
    as (status & w' & Hmain) by (eexists _, _; vm_compute; reflexivity).
  destruct (@capture_main_summary sample_shell (sample_machine 0)
              sample_capture_args sample_capture_context empty_world w'
              status Hmain)
    as (Hstatus & _ & bench & profile & Hfile & _ & _ & Hlog).
  destruct (Hlog eq_refl) as (text & command & env & stats & Hlogfile & _).
  exists status, w'. eexists. split; [exact Hmain|]. split; [exact Hstatus|].
  split; [exact Hfile|]. exists (TextFile text). exact Hlogfile.
Defined.

Lemma ragged_main_writes :
  ∃ fs', @main fixed_format ragged_args sample_context ragged_harness ∅
         = (Ok 0%Z, fs').
Proof.
  destruct (@ragged_report fixed_format sample_context ∅)
    as (row_a & table & text & payload & Hrep & _).
  eexists. unfold main. rewrite Hrep. reflexivity.
Qed.

Lemma bench_machine_runs_main (fs' : filesystem) :
  @main fixed_format ragged_args sample_context ragged_harness ∅
    = (Ok 0%Z, fs') →
  bench_machine (@Suite.bench_command sample_shell sample_suite_args)
                (Suite.environ sample_suite_context) (files empty_world)
  = Some ({| exit_status := 0; proc_stdout := ""; proc_stderr := "" |}, fs').
Proof.
  intros Hmain.
  change (bench_machine (@Suite.bench_command sample_shell sample_suite_args)
                        (Suite.environ sample_suite_context)
                        (files empty_world))
    with (match @main fixed_format ragged_args sample_context ragged_harness ∅
          with
          | (Ok _, fs') =>
              Some ({| exit_status := 0; proc_stdout := "";
                       proc_stderr := "" |}, fs')
          | (Raise _, fs') =>
              Some ({| exit_status := 1; proc_stdout := "";
                       proc_stderr := "" |}, fs')
          end).
  by rewrite Hmain.
Qed.

Lemma suite_bench_outcome_witness :
  ∃ fields w',
    @Suite.run_sprite_bench sample_shell bench_machine sample_suite_args
      sample_suite_context empty_world = (Done (JObj fields), w')
    ∧ assoc_get "json_path" fields = Some (JStr "perf/ragged.json")
    ∧ assoc_get "txt_path" fields = Some (JStr "perf/ragged.txt").
Proof.
  destruct ragged_main_writes as [fs' Hmain].
  destruct (main_writes_both _ _ _ _ _ Hmain)
    as (rows & text & payload & _ & Htext & Hjson & _).
  destruct (@suite_bench_outcome sample_shell bench_machine sample_suite_args
              sample_suite_context empty_world _ _
              (bench_machine_runs_main fs' Hmain))
    as (outcome & Hrun & _ & Hzero).
  destruct (Hzero eq_refl) as (_ & _ & Hfound).
  destruct (Hfound payload Hjson) as (fields & -> & _ & Hpath & Htxt).
  eexists fields, _. split; [exact Hrun|]. split; [exact Hpath|].
  rewrite Htxt. rewrite decide_True; [reflexivity|].
  exists (TextFile text). exact Htext.
Defined.

Lemma suite_reads_bench_artefacts_witness :
  ∃ fields w',
    @Suite.run_sprite_bench sample_shell bench_machine sample_suite_args
      sample_suite_context empty_world = (Done (JObj fields), w')
    ∧ ∃ rows text,
        @report_of fixed_format ragged_args sample_context ragged_harness ∅
        = Ok (rows, text, default JNull (assoc_get "summary" fields)).
Proof.
  destruct ragged_main_writes as [fs' Hmain].
  destruct (@suite_reads_bench_artefacts fixed_format sample_shell
              bench_machine sample_suite_args sample_suite_context
              empty_world ragged_args sample_context ragged_harness _ fs'
              eq_refl (bench_machine_runs_main fs' Hmain) eq_refl Hmain)
    as (rows & text & payload & Hrep & Hrun).
  eexists _, _. split; [exact Hrun|]. exists rows, text. exact Hrep.
Defined.

Lemma suite_main_outcome_witness :
  ∃ status w' summary,
    @Suite.main sample_shell bench_machine sample_suite_args
      sample_suite_context empty_world = (Done status, w')
    ∧ status = 0%Z
    ∧ files w' !! "perf/nightly_suite.json" = Some (JsonFile (JObj summary))
    ∧ assoc_get "capture_sprite_perf" summary = Some JNull
    ∧ spawned w' = [@Suite.bench_command sample_shell sample_suite_args].
Proof.
  destruct ragged_main_writes as [fs' Hmain].
  destruct (main_writes_both _ _ _ _ _ Hmain)
    as (rows & text & payload & _ & Htext & Hjson & _).
  assert (∃ status w',
            @Suite.main sample_shell bench_machine sample_suite_args
              sample_suite_context empty_world = (Done status, w'))
    as (status & w' & Hsuite).
  { unfold Suite.main. cbn [Suite.skip_bench Suite.skip_capture
                            sample_suite_args negb].
    unfold mbind at 1, action_bind at 1. unfold mbind at 1, action_bind at 1.
    rewrite (@suite_bench_started sample_shell bench_machine _ _ _ _ _
               (bench_machine_runs_main fs' Hmain)).
    cbn [exit_status Z.eqb negb].
    change (@Suite.bench_json_path sample_suite_args)
      with (json_path ragged_args).
    rewrite Hjson. eexists _, _. reflexivity. }
  destruct (@suite_main_outcome sample_shell bench_machine sample_suite_args
              sample_suite_context empty_world w' status Hsuite)
    as (Hstatus & bench & capture & Hfile & _ & Hcapture & Hspawned).
  exists status, w'. eexists. split; [exact Hsuite|].
  split; [exact Hstatus|]. split; [exact Hfile|]. split.
  - by rewrite (proj2 Hcapture eq_refl).
  - exact Hspawned.
Defined.

Lemma suite_reads_capture_summary_witness :
  ∃ result w' summary,
    @Suite.run_capture sample_shell capture_machine capture_suite_args
      sample_suite_context false empty_world = (Done (JObj result), w')
    ∧ assoc_get "summary" result = Some summary
    ∧ files w' !! "perf/after_phase1_capture.json" = Some (JsonFile summary).
Proof.
  assert (∃ status w1,
            @Capture.main sample_shell (sample_machine 0) sample_capture_args
              sample_capture_context {| files := ∅; spawned := [] |}
            = (Done status, w1))
    as (status & w1 & Hmain) by (eexists _, _; vm_compute; reflexivity).
  assert (capture_machine
            ["/usr/bin/python3"; "scripts/capture_sprite_perf.py";
             "--label"; "after_phase1"; "--runs"; "3"; "--count"; "10000";
             "--steps"; "240"; "--warmup"; "16"; "--dt"; "0.016666667";
             "--bench-profile"; "release"; "--bench-features"; "";
             "--bench-test"; "animation_targets_measure";
             "--bench-test-args"; "--ignored --nocapture"]
            (Suite.environ sample_suite_context) (files empty_world)
          = Some ({| exit_status := 0; proc_stdout := "";
                     proc_stderr := "" |}, files w1)) as Hrun.
  { unfold capture_machine. cbn [files empty_world]. by rewrite Hmain. }
  destruct (@suite_reads_capture_summary sample_shell capture_machine
              (sample_machine 0) capture_suite_args sample_suite_context
              false _ empty_world sample_capture_args sample_capture_context
              _ w1 status _ eq_refl eq_refl Hrun eq_refl Hmain)
    as (summary & Hfile & Hcapture).
  eexists _, _, summary. split; [exact Hcapture|].
  split; [reflexivity | exact Hfile].
Defined.

Lemma generate_png_layout_witness :
  ∃ png,
    @Slime.generate_png sample_zlib = Done png
    ∧ length png = (57 + 32 * (1 + 4 * 192))%nat
    ∧ take 8 png = Slime.SIGNATURE.
Proof.
  destruct (@generate_png_layout sample_zlib)
    as (size & crc_ihdr & crc_idat & crc_iend & Hpng & H1 & H2 & H3 & H4
        & _ & Hraw).
  - vm_compute. reflexivity.
  - eexists. split; [exact Hpng|]. split; [|reflexivity].
    rewrite !length_app. cbn [Slime.compress sample_zlib].
    rewrite H1, H2, H3, H4, Hraw. reflexivity.
Defined.

Lemma complete_trials_align_witness :
  ∃ rows text payload,
    @report_of fixed_format ragged_args sample_context steady_harness ∅
      = Ok (rows, text, payload)
    ∧ length rows = 3%nat
    ∧ Forall (fun row => length row = 6%nat) rows.
Proof.
  assert (∃ cases bench_meta,
            for_each (run_trial steady_harness)
                     (trial_indices (arg_runs ragged_args)) (∅, None)
            = Ok (cases, bench_meta)) as (cases & bench_meta & Hloop)
    by (eexists _, _; reflexivity).
  destruct (trial_loop_state _ _ _ _ Hloop) as [Hcases _].
  cbn [fst] in Hcases.
  assert (∀ label s, cases !! label = Some s →
                     length (runs s) = Z.to_nat (arg_runs ragged_args))
    as Hexact.
  { intros label s. rewrite Hcases.
    rewrite foldl_observe_lookup, lookup_empty.
    unfold collected, labelled.
    change (flat_map _ _)
      with [entry_of "a" 5 1; entry_of "b" 9 4;
            entry_of "a" 5 1; entry_of "b" 9 4].
    rewrite !filter_cons, filter_nil. cbn [ce_label entry_of].
    destruct (decide ("a" = label)) as [Ha|Ha];
      destruct (decide ("b" = label)) as [Hb|Hb];
      [congruence | | | done]; intros [= <-]; reflexivity. }
  destruct (@complete_trials_align fixed_format ragged_args sample_context
              steady_harness ∅ cases bench_meta eq_refl Hloop Hexact)
    as (rows & text & payload & Hreport & Hrows & Hcells).
  exists rows, text, payload. split; [exact Hreport|]. split; [|exact Hcells].
  rewrite Hrows, Hcases. reflexivity.
Defined.
